(** * MarginOptimizer: the browser-side presentation layer

    A shallow embedding of the JavaScript under [web/static/js]
    ([main.js], the vendor tab, [analyze.js] and the renewal tab) and the
    properties of its formatter, request controllers, renderers and
    autocomplete controller.

    Conventions of the embedding.
    - A number is the double the code holds, given by its value, a rational
      ([Q]).  [JS.double q] is the double nearest to a rational [q]: what
      [JSON.parse] makes of a literal that denotes [q], and what an
      arithmetic operation returns when its exact result is [q].  Order
      comparisons are exact on the values.  The one division of the code
      ([JS.div]) rounds its quotient, and [toFixed] formats the double
      nearest to its argument, so that both give what the code gives also at
      a rational that is no double, read as a literal.  Numbers stay within
      the range of the finite doubles.
    - A JS string is a [string]; each [ascii] stands for one code unit below
      256.
    - A property that may be absent or [null] in a payload is an [option].
    - The document is, for each element id, whether the element is
      displayed, its text and its markup; the cards of a container are a list
      of records that hold what their template interpolates.
    - An [async] function or promise chain is cut at its [fetch]: the part
      that runs up to the call, and the part that runs once the call has
      settled, the way it settled being an input.
    - Code that may throw runs in a small state-and-exception monad, so that
      [try]/[catch]/[finally] are modelled as written. *)

From Stdlib Require Import List String Ascii Bool Arith ZArith QArith Qabs Qround Qpower.
From Stdlib Require Import Lia Lqa.
From Stdlib Require Import DecimalString DecimalPos DecimalN.
From Stdlib Require Import Floats.SpecFloat.
From Stdlib Require Import Sorting.Sorted Sorting.Permutation.
Import ListNotations.
Open Scope string_scope.

(* ------------------------------------------------------------------ *)
(** ** JavaScript values *)
(* ------------------------------------------------------------------ *)

Module JS.

(** The double quote, as a code unit and as a one-character string. *)
Definition dquote_char : ascii := ascii_of_nat 34.
Definition dq : string := String dquote_char EmptyString.

(** [a >= b] and [a > b] on finite numbers. *)
Definition num_ge (a b : Q) : bool := Qle_bool b a.
Definition num_gt (a b : Q) : bool := negb (Qle_bool a b).

(** Truthiness of a number: every finite number but zero. *)
Definition truthy_num (x : Q) : bool := negb (Qeq_bool x 0).

(** [x || d] for an optional number: [d] when [x] is absent or zero. *)
Definition num_or (x : option Q) (d : Q) : Q :=
  match x with
  | Some v => if truthy_num v then v else d
  | None => d
  end.

(** Truthiness of a string: non-empty. *)
Definition truthy_str (s : string) : bool :=
  match s with EmptyString => false | String _ _ => true end.

(** [s || d] for an optional string: [d] when [s] is absent or empty. *)
Definition str_or (s : option string) (d : string) : string :=
  match s with
  | Some v => if truthy_str v then v else d
  | None => d
  end.

(** The white space and line terminators [String.prototype.trim] strips,
    among the code units below 256: TAB, LF, VT, FF, CR, SP and NBSP. *)
Definition is_white_space (c : ascii) : bool :=
  let n := nat_of_ascii c in
  ((9 <=? n) && (n <=? 13) || (n =? 32) || (n =? 160))%nat.

Fixpoint trimStart (s : string) : string :=
  match s with
  | EmptyString => EmptyString
  | String c r => if is_white_space c then trimStart r else s
  end.

(** [trimEnd]: a character is dropped when it is white space and all that
    follows it was dropped. *)
Fixpoint trimEnd (s : string) : string :=
  match s with
  | EmptyString => EmptyString
  | String c r =>
      match trimEnd r with
      | EmptyString => if is_white_space c then EmptyString else String c EmptyString
      | r' => String c r'
      end
  end.

Definition trim (s : string) : string := trimEnd (trimStart s).

(** [10^d] as a number. *)
Definition pow10 (d : nat) : Q := inject_Z (10 ^ Z.of_nat d).

(** The decimal digits of a natural number, and the same with zeros in
    front up to [width] digits. *)
Definition digits (n : Z) : string :=
  NilZero.string_of_uint (N.to_uint (Z.to_N n)).

Fixpoint zeros (k : nat) : string :=
  match k with O => EmptyString | S k' => String "0" (zeros k') end.

Definition pad_digits (width : nat) (n : Z) : string :=
  let s := digits n in
  zeros (width - String.length s) ++ s.

(** [2^e] as a number. *)
Definition pow2 (e : Z) : Q := Qpower 2 e.

(** The integer nearest to [q], the even one of the two on a tie. *)
Definition round_half_even (q : Q) : Z :=
  let f := Qfloor q in
  match Qcompare (q - inject_Z f) (1 # 2) with
  | Lt => f
  | Gt => (f + 1)%Z
  | Eq => if Z.even f then f else (f + 1)%Z
  end.

(** The exponent of the binade of [x > 0]: the [l] with
    [2^l <= x < 2^(l+1)]. *)
Definition ilog2 (x : Q) : Z :=
  let l := (Z.log2 (Qnum x) - Z.log2 (Zpos (Qden x)))%Z in
  if Qle_bool (pow2 l) x then l else (l - 1)%Z.

(** The double nearest to [x > 0], round to nearest, ties to even: the
    multiples of [2^e] are the doubles around [x], [e] being 52 below the
    exponent of [x] (a significand of 53 bits) and no less than -1074 (the
    subnormal numbers). *)
Definition double_abs (x : Q) : Q :=
  let e := Z.max (ilog2 x - 52) (-1074) in
  inject_Z (round_half_even (x / pow2 e)) * pow2 e.

(** The double nearest to a rational within the range of the finite
    doubles: the number [JSON.parse] makes of a literal, and the result of an
    arithmetic operation whose exact result is the rational. *)
Definition double (x : Q) : Q :=
  match Qcompare x 0 with
  | Eq => 0
  | Gt => double_abs x
  | Lt => - double_abs (- x)
  end.

(** [a / b] on doubles, [b] not zero. *)
Definition div (a b : Q) : Q := double (a / b).

(** [x.toFixed(d)] for a number below [10^21] in magnitude.  The receiver is
    the double [v]; [n] is the integer nearest to [|v| * 10^d], computed on
    the exact value of the double, the larger of the two on a tie; its digits
    are written with the point before the last [d] of them, and a minus sign
    in front when [v < 0]. *)
Definition toFixed (d : nat) (x : Q) : string :=
  let v := double x in
  let n := Qfloor (Qabs v * pow10 d + (1 # 2)) in
  let s := pad_digits (S d) n in
  let k := (String.length s - d)%nat in
  (if num_gt 0 v then "-" else "")
  ++ substring 0 k s
  ++ (if (d =? 0)%nat then "" else "." ++ substring k d s).

(** The exceptions the code meets.  [fetch] rejects with a [TypeError]
    on a network failure, [response.json()] with a [SyntaxError] on a body
    that is not JSON, reading a property of [undefined] throws a
    [TypeError], and [new Error(msg)] is what the code throws itself. *)
Inductive exn : Type :=
| NetworkError
| JsonSyntaxError
| UndefinedProperty (prop : string)
| Error (msg : string).

(** [error.message], with the texts of the V8 engine for the first three. *)
Definition message (e : exn) : string :=
  match e with
  | NetworkError => "Failed to fetch"
  | JsonSyntaxError => "Unexpected end of JSON input"
  | UndefinedProperty prop =>
      "Cannot read properties of undefined (reading '" ++ prop ++ "')"
  | Error msg => msg
  end.

(** How a statement completes. *)
Inductive completion (A : Type) : Type :=
| Normal (a : A)
| Abrupt (e : exn).
Arguments Normal {A} a.
Arguments Abrupt {A} e.

(** A computation over a mutable state [S] that may throw; the state it
    changed before throwing stays changed. *)
Definition js (S A : Type) : Type := S -> completion A * S.

Definition ret {S A} (a : A) : js S A := fun s => (Normal a, s).
Definition throw {S A} (e : exn) : js S A := fun s => (Abrupt e, s).
Definition bind {S A B} (m : js S A) (k : A -> js S B) : js S B :=
  fun s =>
    match m s with
    | (Normal a, s') => k a s'
    | (Abrupt e, s') => (Abrupt e, s')
    end.
Definition modify {S} (f : S -> S) : js S unit := fun s => (Normal tt, f s).
Definition get_state {S} : js S S := fun s => (Normal s, s).

(** [try { m } catch (e) { h e }]. *)
Definition try_catch {S A} (m : js S A) (h : exn -> js S A) : js S A :=
  fun s =>
    match m s with
    | (Normal a, s') => (Normal a, s')
    | (Abrupt e, s') => h e s'
    end.

(** [try { m } finally { f }]: [f] runs however [m] completes; the
    completion of [m] stands unless [f] throws. *)
Definition try_finally {S A} (m : js S A) (f : js S unit) : js S A :=
  fun s =>
    let '(c, s') := m s in
    match f s' with
    | (Normal _, s'') => (c, s'')
    | (Abrupt e, s'') => (Abrupt e, s'')
    end.

(** Reading a property of an object that may be [undefined]. *)
Definition required {S A} (prop : string) (x : option A) : js S A :=
  match x with
  | Some a => ret a
  | None => throw (UndefinedProperty prop)
  end.

(** [array.forEach(f)]. *)
Fixpoint forEach {S A} (l : list A) (f : A -> js S unit) : js S unit :=
  match l with
  | [] => ret tt
  | x :: r => bind (f x) (fun _ => forEach r f)
  end.

(** The state a computation leaves. *)
Definition exec {S A} (m : js S A) (s : S) : S := snd (m s).

(** [keeps obs m]: running [m] does not change the observation [obs] of
    the state, however [m] completes. *)
Definition keeps {S X A} (obs : S -> X) (m : js S A) : Prop :=
  forall s, obs (snd (m s)) = obs s.

(** How a [fetch] settles: the promise is rejected (network failure), or
    it resolves to a response with its [ok] flag, whose [json()] is in turn
    rejected (the body is not JSON) or resolves to the parsed body. *)
Inductive json_result (B : Type) : Type :=
| NotJson
| JsonBody (b : B).
Arguments NotJson {B}.
Arguments JsonBody {B} b.

Inductive fetch_result (B : Type) : Type :=
| Rejected
| Resolved (ok : bool) (body : json_result B).
Arguments Rejected {B}.
Arguments Resolved {B} ok body.

(** [await fetch(...)] and [await response.json()] once the call has
    settled as [r]. *)
Definition await_fetch {S B} (r : fetch_result B) : js S (bool * json_result B) :=
  match r with
  | Rejected => throw NetworkError
  | Resolved ok body => ret (ok, body)
  end.

Definition await_json {S B} (body : json_result B) : js S B :=
  match body with
  | NotJson => throw JsonSyntaxError
  | JsonBody b => ret b
  end.

(** The part of the document the code touches: for each element id,
    whether the element is displayed, its text and its markup. *)
Record document : Type := {
  display : string -> bool;
  textContent : string -> string;
  innerHTML : string -> string
}.

Definition upd {A} (id : string) (v : A) (f : string -> A) : string -> A :=
  fun i => if String.eqb i id then v else f i.

Definition set_display (id : string) (b : bool) (d : document) : document :=
  {| display := upd id b (display d);
     textContent := textContent d;
     innerHTML := innerHTML d |}.

Definition set_text (id : string) (t : string) (d : document) : document :=
  {| display := display d;
     textContent := upd id t (textContent d);
     innerHTML := innerHTML d |}.

Definition set_html (id : string) (h : string) (d : document) : document :=
  {| display := display d;
     textContent := textContent d;
     innerHTML := upd id h (innerHTML d) |}.

(** The distance badge of a quote card: [MetersAway d] stands for the
    text [${d}m away], [KmAway s] for [${s} km away]. *)
Inductive distance_badge : Type :=
| MetersAway (distanceMeters : Q)
| KmAway (distanceKm : string).

(** [array.sort(compare)] with a comparator that is consistent (a total
    preorder): the sorted permutation that keeps the order of the elements
    the comparator holds equal, computed by insertion.  [compare a b > 0]
    puts [a] after [b]. *)
Fixpoint sort_insert {A} (compare : A -> A -> Q) (x : A) (l : list A) : list A :=
  match l with
  | [] => [x]
  | y :: r =>
      if num_gt (compare x y) 0 then y :: sort_insert compare x r
      else x :: y :: r
  end.

Fixpoint sort {A} (compare : A -> A -> Q) (l : list A) : list A :=
  match l with
  | [] => []
  | x :: r => sort_insert compare x (sort compare r)
  end.

(** A boolean as a number: [true] is 1 and [false] is 0. *)
Definition bool_num (b : bool) : Q := if b then 1 else 0.

(** Truthiness of an optional string: present and non-empty. *)
Definition truthy_opt (s : option string) : bool :=
  match s with Some v => truthy_str v | None => false end.

(** An attribute of a tag in a template: the name, the equals sign and
    the value between double quotes. *)
Definition attr (name value : string) : string :=
  name ++ "=" ++ dq ++ value ++ dq.

(** The string a loop [html += f(x)] over [l] builds from the empty
    string. *)
Definition concat_map {A} (f : A -> string) (l : list A) : string :=
  fold_right (fun x acc => f x ++ acc) "" l.

End JS.

(* ------------------------------------------------------------------ *)
(** ** The binary64 numbers of the Standard Library *)
(* ------------------------------------------------------------------ *)

(** The division of two whole numbers as binary64 numbers, in the
    specification of floating-point numbers of the Standard Library
    ([SpecFloat]); [JS.div] is compared with it on sample operands. *)
Module Binary64.

Definition of_Z (z : Z) : spec_float := binary_normalize 53 1024 z 0 false.

Definition value (f : spec_float) : Q :=
  match f with
  | S754_finite s m e => (if s then - (1) else 1) * inject_Z (Zpos m) * JS.pow2 e
  | _ => 0
  end.

Definition div (a b : Z) : Q := value (SFdiv 53 1024 (of_Z a) (of_Z b)).

End Binary64.

Declare Scope js_scope.
Delimit Scope js_scope with js.
Notation "x <- m ;; k" := (JS.bind m (fun x => k))
  (at level 61, m at next level, right associativity) : js_scope.
Notation "m ;; k" := (JS.bind m (fun _ => k))
  (at level 61, right associativity) : js_scope.

(* ------------------------------------------------------------------ *)
(** ** [main.js]: the formatter [Utils] *)
(* ------------------------------------------------------------------ *)

Module Utils.
Import JS.

(** [getGMStatusClass(gm)]. *)
Definition getGMStatusClass (gm : Q) : string :=
  if num_ge gm 50 then "bg-success"
  else if num_ge gm 40 then "bg-warning"
  else "bg-danger".

(** [getGMStatusText(gm)]. *)
Definition getGMStatusText (gm : Q) : string :=
  if num_ge gm 50 then "Excellent"
  else if num_ge gm 40 then "Acceptable"
  else "Needs Action".

(** [getGMCardClass(gm)]. *)
Definition getGMCardClass (gm : Q) : string :=
  if num_ge gm 50 then "gm-success"
  else if num_ge gm 40 then "gm-warning"
  else "gm-danger".

(** The entity that the [map] of [escapeHtml] gives each of the five
    characters of its regular expression (ampersand 38, less-than 60,
    greater-than 62, double quote 34, single quote 39); a character outside
    the class is not matched and stays. *)
Definition escapeChar (c : ascii) : string :=
  match nat_of_ascii c with
  | 38 => "&amp;"
  | 60 => "&lt;"
  | 62 => "&gt;"
  | 34 => "&quot;"
  | 39 => "&#039;"
  | _ => String c EmptyString
  end%nat.

(** [String(text).replace(re, m => map[m])], [re] being the global
    regular expression over the class of the five characters: every
    occurrence is replaced. *)
Fixpoint replaceSpecials (s : string) : string :=
  match s with
  | EmptyString => EmptyString
  | String c r => escapeChar c ++ replaceSpecials r
  end.

(** [escapeHtml(text)]: the empty string for [null] and [undefined]. *)
Definition escapeHtml (text : option string) : string :=
  match text with
  | None => ""
  | Some s => replaceSpecials s
  end.

End Utils.


(* ------------------------------------------------------------------ *)
(** ** The vendor tab (second script of [main.js]) *)
(* ------------------------------------------------------------------ *)

Module Vendor.
Import JS.
Local Open Scope js_scope.

(** One entry of [renewal_history] and of [new_contract_history]. *)
Record renewal : Type := {
  r_service_id : option string;
  renewal_date : option string;
  original_mrc : option Q;
  renewed_mrc : option Q;
  r_currency : option string;
  discount_percent : option Q;
  r_status : option string
}.

Record contract : Type := {
  quote_id : option string;
  quote_date : option string;
  c_service_id : option string;
  c_bandwidth : option string;
  c_mrc : option Q;
  c_status : option string
}.

Record vendor_summary : Type := {
  total_renewals : option Q;
  total_new_contracts : option Q;
  avg_discount : option Q;
  success_rate : option Q
}.

(** The body of [/api/analyze-vendor]. *)
Record payload : Type := {
  error : option string;
  vendor_name : option string;
  summary : option vendor_summary;
  renewal_history : option (list renewal);
  new_contract_history : option (list contract)
}.

(** The body of [/api/vendor-autocomplete]. *)
Record suggestions : Type := {
  s_error : option string;
  vendors : option (list string)
}.

Inductive request : Type :=
| GetVendorAutocomplete (searchTerm : string)
| PostAnalyzeVendor (vendorName : string).

(** A timeout set by the input handler and not yet run or cleared. *)
Record timer : Type := {
  timer_id : positive;
  due : nat;
  term : string
}.

Record state : Type := {
  doc : document;
  (** [let autocompleteTimeout = null]: the id [setTimeout] returned last. *)
  autocompleteTimeout : option positive;
  (** The timeouts of the browser that are pending, oldest first, and the
      id the next one gets (ids are positive integers). *)
  timers : list timer;
  next_timer_id : positive;
  (** The network calls issued so far, oldest first. *)
  fetched : list request
}.

Definition with_doc (f : document -> document) (st : state) : state :=
  {| doc := f (doc st);
     autocompleteTimeout := autocompleteTimeout st;
     timers := timers st;
     next_timer_id := next_timer_id st;
     fetched := fetched st |}.

Definition fetch (r : request) (st : state) : state :=
  {| doc := doc st;
     autocompleteTimeout := autocompleteTimeout st;
     timers := timers st;
     next_timer_id := next_timer_id st;
     fetched := fetched st ++ [r] |}.

(** [clearTimeout(id)]. *)
Definition clearTimeout (id : positive) (st : state) : state :=
  {| doc := doc st;
     autocompleteTimeout := autocompleteTimeout st;
     timers := filter (fun t => negb (Pos.eqb (timer_id t) id)) (timers st);
     next_timer_id := next_timer_id st;
     fetched := fetched st |}.

(** [autocompleteTimeout = setTimeout(() => fetchVendorSuggestions(searchTerm), delay)]
    at the time [now]. *)
Definition setTimeout (now delay : nat) (searchTerm : string) (st : state) : state :=
  {| doc := doc st;
     autocompleteTimeout := Some (next_timer_id st);
     timers := timers st ++ [ {| timer_id := next_timer_id st;
                                 due := now + delay;
                                 term := searchTerm |} ];
     next_timer_id := Pos.succ (next_timer_id st);
     fetched := fetched st |}.

(** [fetchVendorSuggestions(searchTerm)] up to its [fetch]: the call is
    issued; the query is the search term (URL-encoded on the wire). *)
Definition fetchVendorSuggestions (searchTerm : string) (st : state) : state :=
  fetch (GetVendorAutocomplete searchTerm) st.

(** The input handler of [vendorInput], run at the time [now] with the
    field holding [value]. *)
Definition on_input (now : nat) (value : string) (st : state) : state :=
  let searchTerm := trim value in
  let st1 :=
    match autocompleteTimeout st with
    | Some id => clearTimeout id st
    | None => st
    end in
  if (String.length searchTerm <? 2)%nat then
    with_doc (set_display "vendorAutocomplete" false) st1
  else
    setTimeout now 300 searchTerm st1.

(** The event loop reaching the time [now]: every pending timeout that is
    due runs its callback, oldest first, and is pending no more. *)
Definition run_timers (now : nat) (st : state) : state :=
  let due_now := filter (fun t => (due t <=? now)%nat) (timers st) in
  let later := filter (fun t => negb (due t <=? now)%nat) (timers st) in
  fold_left (fun s t => fetchVendorSuggestions (term t) s) due_now
    {| doc := doc st;
       autocompleteTimeout := autocompleteTimeout st;
       timers := later;
       next_timer_id := next_timer_id st;
       fetched := fetched st |}.

(** A sequence of input events, each with its time and the value the field
    holds then; the timeouts due by the time of an event run before it. *)
Definition keystrokes (evs : list (nat * string)) (st : state) : state :=
  fold_left (fun s ev => on_input (fst ev) (snd ev) (run_timers (fst ev) s)) evs st.

(** The state when the page has loaded. *)
Definition initial (d : document) : state :=
  {| doc := d;
     autocompleteTimeout := None;
     timers := [];
     next_timer_id := 1%positive;
     fetched := [] |}.

(** One row of the suggestion list, as the template of
    [fetchVendorSuggestions] writes it: the vendor name is interpolated
    twice, as it came. *)
Definition suggestion_row (vendor : string) : string :=
  "<a " ++ attr "href" "#" ++ " "
  ++ attr "class" "list-group-item list-group-item-action vendor-suggestion" ++ " "
  ++ attr "data-vendor" vendor ++ ">" ++ vendor ++ "</a>".

Definition no_vendors_html : string :=
  "<div " ++ attr "class" "list-group-item text-muted" ++ ">No vendors found</div>".

(** The [then] callback of [fetchVendorSuggestions] on the parsed body. *)
Definition fetchVendorSuggestions_then (data : suggestions) (st : state) : state :=
  if truthy_opt (s_error data) then st
  else
    let vs := match vendors data with Some l => l | None => [] end in
    match vs with
    | [] =>
        with_doc (fun d => set_display "vendorAutocomplete" true
                             (set_html "vendorAutocomplete" no_vendors_html d)) st
    | _ =>
        with_doc (fun d => set_display "vendorAutocomplete" true
                             (set_html "vendorAutocomplete" (concat_map suggestion_row vs) d)) st
    end.

(** [showVendorError(message)]. *)
Definition showVendorError (msg : string) : js state unit :=
  modify (with_doc (fun d => set_display "vendorErrorAlert" true
                               (set_text "vendorErrorMessage" msg d))).

(** The discount badge of a renewal row:
    [discount > 15 ? 'success' : discount > 5 ? 'info' : 'secondary']. *)
Definition discountClass (discount : Q) : string :=
  if num_gt discount 15 then "success"
  else if num_gt discount 5 then "info"
  else "secondary".

(** [mrc ? mrc.toFixed(2) + ' ' + currency : 'N/A']. *)
Definition mrc_cell (mrc : option Q) (currency : string) : string :=
  match mrc with
  | Some v => if truthy_num v then toFixed 2 v ++ " " ++ currency else "N/A"
  | None => "N/A"
  end.

(** [const discount = renewal.discount_percent || 0] and the class of
    its badge. *)
Definition row_discount (r : renewal) : Q := num_or (discount_percent r) 0.
Definition row_discountClass (r : renewal) : string := discountClass (row_discount r).

(** One [<tr>] of the renewal history table. *)
Definition renewal_row (r : renewal) : string :=
  let discount := row_discount r in
  "<tr>"
  ++ "<td><strong>" ++ str_or (r_service_id r) "N/A" ++ "</strong></td>"
  ++ "<td>" ++ str_or (renewal_date r) "N/A" ++ "</td>"
  ++ "<td>" ++ mrc_cell (original_mrc r) (str_or (r_currency r) "USD") ++ "</td>"
  ++ "<td>" ++ mrc_cell (renewed_mrc r) (str_or (r_currency r) "USD") ++ "</td>"
  ++ "<td><span " ++ attr "class" ("badge bg-" ++ row_discountClass r) ++ ">"
  ++ toFixed 1 discount ++ "%</span></td>"
  ++ "<td>" ++ str_or (r_status r) "N/A" ++ "</td>"
  ++ "</tr>".

Definition table_open (headers : list string) : string :=
  "<div " ++ attr "class" "table-responsive" ++ "><table "
  ++ attr "class" "table table-hover table-sm" ++ ">"
  ++ "<thead " ++ attr "class" "table-light" ++ ">"
  ++ "<tr>" ++ concat_map (fun h => "<th>" ++ h ++ "</th>") headers ++ "</tr>"
  ++ "</thead>"
  ++ "<tbody>".

Definition table_close : string := "</tbody></table></div>".

Definition alert_info (msg : string) : string :=
  "<div " ++ attr "class" "alert alert-info" ++ ">" ++ msg ++ "</div>".

(** [displayRenewalHistory(renewals)]. *)
Definition displayRenewalHistory (renewals : list renewal) (d : document) : document :=
  let d1 := set_text "renewalHistoryCount" (digits (Z.of_nat (List.length renewals))) d in
  match renewals with
  | [] => set_html "renewalHistoryContainer"
            (alert_info "No renewal history found for this vendor") d1
  | _ => set_html "renewalHistoryContainer"
           (table_open ["Service ID"; "Date"; "Original MRC"; "Renewed MRC"; "Discount"; "Status"]
            ++ concat_map renewal_row renewals
            ++ table_close) d1
  end.

(** One [<tr>] of the new contract history table. *)
Definition contract_row (c : contract) : string :=
  "<tr>"
  ++ "<td><strong>" ++ str_or (quote_id c) "N/A" ++ "</strong></td>"
  ++ "<td>" ++ str_or (quote_date c) "N/A" ++ "</td>"
  ++ "<td>" ++ str_or (c_service_id c) "N/A" ++ "</td>"
  ++ "<td>" ++ str_or (c_bandwidth c) "N/A" ++ "</td>"
  ++ "<td>" ++ match c_mrc c with
               | Some v => if truthy_num v then toFixed 2 v ++ " USD" else "N/A"
               | None => "N/A"
               end ++ "</td>"
  ++ "<td><span " ++ attr "class" "badge bg-primary" ++ ">"
  ++ str_or (c_status c) "Active" ++ "</span></td>"
  ++ "</tr>".

(** [displayNewContractHistory(contracts)]. *)
Definition displayNewContractHistory (contracts : list contract) (d : document) : document :=
  let d1 := set_text "newContractHistoryCount" (digits (Z.of_nat (List.length contracts))) d in
  match contracts with
  | [] => set_html "newContractHistoryContainer"
            (alert_info "No new contract history found for this vendor") d1
  | _ => set_html "newContractHistoryContainer"
           (table_open ["Quote ID"; "Date"; "Service ID"; "Bandwidth"; "MRC"; "Status"]
            ++ concat_map contract_row contracts
            ++ table_close) d1
  end.

(** A count of the summary: [n || 0] as a text node shows it (counts are
    whole numbers). *)
Definition count_text (n : option Q) : string := toFixed 0 (num_or n 0).

Definition percent_text (x : option Q) : string := toFixed 1 (num_or x 0) ++ "%".

(** [displayVendorResults(data)]. *)
Definition displayVendorResults (data : payload) : js state unit :=
  let summary :=
    match summary data with
    | Some s => s
    | None => {| total_renewals := None; total_new_contracts := None;
                 avg_discount := None; success_rate := None |}
    end in
  let renewalHistory := match renewal_history data with Some l => l | None => [] end in
  let newContractHistory := match new_contract_history data with Some l => l | None => [] end in
  modify (with_doc (fun d =>
    let d := set_text "statRenewals" (count_text (total_renewals summary)) d in
    let d := set_text "statNewContracts" (count_text (total_new_contracts summary)) d in
    let d := set_text "statAvgDiscount" (percent_text (avg_discount summary)) d in
    let d := set_text "vendorDisplayName" (match vendor_name data with Some n => n | None => "" end) d in
    let d := set_text "totalRenewals" (count_text (total_renewals summary)) d in
    let d := set_text "totalNewContracts" (count_text (total_new_contracts summary)) d in
    let d := set_text "avgDiscountRate" (percent_text (avg_discount summary)) d in
    let d := set_text "successRate" (percent_text (success_rate summary)) d in
    let d := displayRenewalHistory renewalHistory d in
    let d := displayNewContractHistory newContractHistory d in
    let d := set_display "vendorQuickSummary" true d in
    set_display "vendorResults" true d)).

(** [analyzeVendor(vendorName)] up to its [fetch]. *)
Definition analyzeVendor_start (vendorName : string) (st : state) : state :=
  fetch (PostAnalyzeVendor vendorName)
    (with_doc (fun d =>
       let d := set_display "vendorLoadingSpinner" true d in
       let d := set_display "vendorErrorAlert" false d in
       let d := set_display "vendorWelcomeMessage" false d in
       set_display "vendorResults" false d) st).

(** The promise chain [.then(response => response.json()).then(...).catch(...)]
    of [analyzeVendor] once the call has settled as [r]. *)
Definition analyzeVendor_chain (r : fetch_result payload) : js state unit :=
  try_catch
    (response <- await_fetch r ;;
     data <- await_json (snd response) ;;
     modify (with_doc (set_display "vendorLoadingSpinner" false)) ;;
     if truthy_opt (error data) then
       showVendorError (str_or (error data) "")
     else
       displayVendorResults data)
    (fun e =>
     modify (with_doc (set_display "vendorLoadingSpinner" false)) ;;
     showVendorError ("Failed to analyze vendor: " ++ message e)).

Definition analyzeVendor_settle (r : fetch_result payload) (st : state) : state :=
  exec (analyzeVendor_chain r) st.

(** [analyzeVendor(vendorName)] run to the end with the call settling as [r]. *)
Definition analyzeVendor (vendorName : string) (r : fetch_result payload) (st : state) : state :=
  analyzeVendor_settle r (analyzeVendor_start vendorName st).

(** The submit handler of [analyzeVendorForm], the field holding [value]. *)
Definition on_submit (value : string) (st : state) : state :=
  let vendorName := trim value in
  if truthy_str vendorName then
    analyzeVendor_start vendorName
      (with_doc (set_display "vendorAutocomplete" false) st)
  else st.

End Vendor.

(* ------------------------------------------------------------------ *)
(** ** [analyze.js]: service analysis and the strategy request *)
(* ------------------------------------------------------------------ *)

Module Analyze.
Import JS.
Local Open Scope js_scope.

Record negotiation_stats : Type := {
  total_negotiations : Q;
  ns_success_rate : Q;
  ns_avg_discount : Q
}.

Record renewal_stats : Type := {
  rs_total_renewals : Q;
  rs_successful_renewals : Q;
  rs_success_rate : Q;
  rs_avg_discount : Q
}.

(** [projected_with_negotiation]: the average-case projection ([mrc], [gm],
    [avg_discount]) and, when the backend has one, the best case. *)
Record projection : Type := {
  p_mrc : option Q;
  p_gm : Q;
  avg_discount : Q;
  best_discount : option Q;
  best_mrc : option Q;
  best_gm : option Q
}.

(** A vendor quote of [vendor_quotes] or [nearby_quotes].
    [is_same_vendor] is a field of nearby quotes that no function of this
    script reads. *)
Record quote : Type := {
  vendor_name : option string;
  gm : option Q;
  mrc : option Q;
  mrc_currency : option string;
  bandwidth : option string;
  status : option string;
  lead_time : option string;
  quickbase_id : option string;
  date_created : option string;
  has_negotiation_history : bool;
  negotiation_stats_of : option negotiation_stats;
  has_renewal_history : bool;
  renewal_stats_of : option renewal_stats;
  projected_with_negotiation : option projection;
  distance_meters : option Q;
  is_same_vendor : bool
}.

Record vpl_option : Type := {
  o_bandwidth : option string;
  o_service_type : option string;
  o_mrc : option Q;
  o_nrc : option Q;
  o_gm : Q
}.

Record vpl_vendor : Type := {
  v_vendor_name : option string;
  v_negotiation_stats : option negotiation_stats;
  options : option (list vpl_option)
}.

Record service_info : Type := {
  service_id : option string;
  customer : option string;
  bandwidth_display : option string;
  client_mrc : option Q;
  currency : option string;
  address : option string
}.

Record counts_info : Type := {
  associated : option Q;
  nearby : option Q;
  vpl : option Q
}.

(** The body of [/api/analyze]; a failure carries [error]. *)
Record analysis : Type := {
  error : option string;
  service : option service_info;
  counts : option counts_info;
  vendor_quotes : option (list quote);
  nearby_quotes : option (list quote);
  vpl_options : option (list vpl_vendor)
}.

Inductive request : Type :=
| PostAnalyze (service_id : string)
| PostStrategy (serviceId : string) (vqQbId : string)
    (vpl_options : option (list vpl_vendor)).

(** The two projection blocks of a card. *)
Record projection_block : Type := {
  pb_avg_discount : Q;
  pb_mrc : option Q;
  pb_badge : string;
  pb_gm : Q
}.

Record best_case_block : Type := {
  bb_discount : Q;
  bb_mrc : option Q;
  bb_badge : string;
  bb_gm : option Q
}.

(** What the template of a quote card interpolates, part by part. *)
Record card : Type := {
  card_class : string;
  card_vendor : string;
  card_distance : option distance_badge;
  card_history_badge : bool;
  card_renewal_badge : option string;
  card_gm_badge : string;
  card_gm_text : string;
  card_gm : option Q;
  card_bandwidth : string;
  card_status : string;
  card_lead_time : string;
  card_projection : option projection_block;
  card_best_case : option best_case_block;
  (** The arguments of the [showStrategy] call of the button:
      [currentServiceId] as it is when the card is built, and the
      [quickbase_id] of the quote. *)
  card_strategy : option string * option string;
  card_negotiations : option (Q * Q)
}.

(** One vendor group of the VPL list. *)
Record vpl_group : Type := {
  vg_vendor : string;
  vg_history : option negotiation_stats;
  vg_options : list (string * string)
}.

(** What a container holds: nothing, the placeholder alert, or the
    elements appended to it. *)
Inductive container (A : Type) : Type :=
| Placeholder (msg : string)
| Items (l : list A).
Arguments Placeholder {A} msg.
Arguments Items {A} l.

Definition append_item {A} (x : A) (c : container A) : container A :=
  match c with
  | Placeholder _ => Items [x]
  | Items l => Items (l ++ [x])
  end.

Record state : Type := {
  doc : document;
  vendorQuotesContainer : container card;
  nearbyQuotesContainer : container card;
  vplOptionsContainer : container vpl_group;
  (** Fade-outs of the error alert that [Utils.showError] has scheduled. *)
  error_timeouts : nat;
  (** [let currentServiceData = null; let currentServiceId = null;] *)
  currentServiceData : option analysis;
  currentServiceId : option string;
  (** The network calls issued so far, oldest first. *)
  fetched : list request
}.

Definition with_doc (f : document -> document) (st : state) : state :=
  {| doc := f (doc st);
     vendorQuotesContainer := vendorQuotesContainer st;
     nearbyQuotesContainer := nearbyQuotesContainer st;
     vplOptionsContainer := vplOptionsContainer st;
     error_timeouts := error_timeouts st;
     currentServiceData := currentServiceData st;
     currentServiceId := currentServiceId st;
     fetched := fetched st |}.

Definition with_vendorQuotes (f : container card -> container card) (st : state) : state :=
  {| doc := doc st;
     vendorQuotesContainer := f (vendorQuotesContainer st);
     nearbyQuotesContainer := nearbyQuotesContainer st;
     vplOptionsContainer := vplOptionsContainer st;
     error_timeouts := error_timeouts st;
     currentServiceData := currentServiceData st;
     currentServiceId := currentServiceId st;
     fetched := fetched st |}.

Definition with_nearbyQuotes (f : container card -> container card) (st : state) : state :=
  {| doc := doc st;
     vendorQuotesContainer := vendorQuotesContainer st;
     nearbyQuotesContainer := f (nearbyQuotesContainer st);
     vplOptionsContainer := vplOptionsContainer st;
     error_timeouts := error_timeouts st;
     currentServiceData := currentServiceData st;
     currentServiceId := currentServiceId st;
     fetched := fetched st |}.

Definition with_vplOptions (f : container vpl_group -> container vpl_group) (st : state) : state :=
  {| doc := doc st;
     vendorQuotesContainer := vendorQuotesContainer st;
     nearbyQuotesContainer := nearbyQuotesContainer st;
     vplOptionsContainer := f (vplOptionsContainer st);
     error_timeouts := error_timeouts st;
     currentServiceData := currentServiceData st;
     currentServiceId := currentServiceId st;
     fetched := fetched st |}.

Definition set_currentServiceData (data : analysis) (st : state) : state :=
  {| doc := doc st;
     vendorQuotesContainer := vendorQuotesContainer st;
     nearbyQuotesContainer := nearbyQuotesContainer st;
     vplOptionsContainer := vplOptionsContainer st;
     error_timeouts := error_timeouts st;
     currentServiceData := Some data;
     currentServiceId := currentServiceId st;
     fetched := fetched st |}.

Definition set_currentServiceId (serviceId : string) (st : state) : state :=
  {| doc := doc st;
     vendorQuotesContainer := vendorQuotesContainer st;
     nearbyQuotesContainer := nearbyQuotesContainer st;
     vplOptionsContainer := vplOptionsContainer st;
     error_timeouts := error_timeouts st;
     currentServiceData := currentServiceData st;
     currentServiceId := Some serviceId;
     fetched := fetched st |}.

Definition fetch (r : request) (st : state) : state :=
  {| doc := doc st;
     vendorQuotesContainer := vendorQuotesContainer st;
     nearbyQuotesContainer := nearbyQuotesContainer st;
     vplOptionsContainer := vplOptionsContainer st;
     error_timeouts := error_timeouts st;
     currentServiceData := currentServiceData st;
     currentServiceId := currentServiceId st;
     fetched := fetched st ++ [r] |}.

(** [Utils.showError(message)]: the text is set, the alert fades in, and a
    fade-out is scheduled for five seconds later. *)
Definition showError (msg : string) (st : state) : state :=
  let st1 := with_doc (fun d => set_display "errorAlert" true
                                  (set_text "errorMessage" msg d)) st in
  {| doc := doc st1;
     vendorQuotesContainer := vendorQuotesContainer st1;
     nearbyQuotesContainer := nearbyQuotesContainer st1;
     vplOptionsContainer := vplOptionsContainer st1;
     error_timeouts := S (error_timeouts st1);
     currentServiceData := currentServiceData st1;
     currentServiceId := currentServiceId st1;
     fetched := fetched st1 |}.

(** [Utils.hideError()]. *)
Definition hideError (st : state) : state :=
  with_doc (set_display "errorAlert" false) st.

(** [$(id).text(value)]: a getter, with no effect, when the value is
    [undefined]. *)
Definition jq_text (id : string) (value : option string) (d : document) : document :=
  match value with
  | Some v => set_text id v d
  | None => d
  end.

(** [proj.best_discount && proj.best_discount > proj.avg_discount]: the
    condition under which the template of a projection includes the
    best-case block. *)
Definition shows_best_case (proj : projection) : bool :=
  match best_discount proj with
  | Some best => truthy_num best && num_gt best (avg_discount proj)
  | None => false
  end.

(** The projection blocks of a quote: [projectionHtml]. *)
Definition projection_blocks (vq : quote)
  : option projection_block * option best_case_block :=
  match projected_with_negotiation vq with
  | None => (None, None)
  | Some proj =>
      let projGmBadge := Utils.getGMStatusClass (p_gm proj) in
      let bestGmBadge :=
        match best_gm proj with
        | Some g => if truthy_num g then Utils.getGMStatusClass g else ""
        | None => ""
        end in
      (Some {| pb_avg_discount := avg_discount proj;
               pb_mrc := p_mrc proj;
               pb_badge := projGmBadge;
               pb_gm := p_gm proj |},
       if shows_best_case proj then
         Some {| bb_discount := match best_discount proj with Some b => b | None => 0 end;
                 bb_mrc := best_mrc proj;
                 bb_badge := bestGmBadge;
                 bb_gm := best_gm proj |}
       else None)
  end.

(** The renewal badge of a vendor quote card. *)
Definition renewal_badge (vq : quote) : option string :=
  if has_renewal_history vq then
    match renewal_stats_of vq with
    | Some rs =>
        Some (if num_ge (rs_success_rate rs) 50 then "bg-success"
              else if num_ge (rs_success_rate rs) 25 then "bg-warning"
              else "bg-secondary")
    | None => None
    end
  else None.

(** The card of a quote, in [displayVendorQuotes] ([nearby = false]) and
    in [displayNearbyQuotes] ([nearby = true]), with [currentServiceId]
    as it is then and the negotiation counts when the quote has a history. *)
Definition card_of (serviceId : option string) (nearby : bool) (vq : quote)
    (negotiations : option (Q * Q)) : card :=
  let gmClass := Utils.getGMCardClass (num_or (gm vq) 0) in
  let gmBadgeClass := Utils.getGMStatusClass (num_or (gm vq) 0) in
  let gmStatusText := Utils.getGMStatusText (num_or (gm vq) 0) in
  let distanceMeters := num_or (distance_meters vq) 0 in
  {| card_class := "vendor-quote-card " ++ gmClass;
     card_vendor := Utils.escapeHtml (vendor_name vq);
     card_distance := if nearby then Some (MetersAway distanceMeters) else None;
     card_history_badge := has_negotiation_history vq;
     card_renewal_badge := if nearby then None else renewal_badge vq;
     card_gm_badge := gmBadgeClass;
     card_gm_text := gmStatusText;
     card_gm := gm vq;
     card_bandwidth := Utils.escapeHtml (bandwidth vq);
     card_status := Utils.escapeHtml (Some (str_or (status vq) "N/A"));
     card_lead_time := Utils.escapeHtml (Some (str_or (lead_time vq) "N/A"));
     card_projection := fst (projection_blocks vq);
     card_best_case := snd (projection_blocks vq);
     card_strategy := (serviceId, quickbase_id vq);
     card_negotiations := negotiations |}.

(** The body of the [forEach] up to the card: reading
    [vq.negotiation_stats.total_negotiations] throws when the quote is
    flagged as having a history and carries no statistics. *)
Definition quote_card (nearby : bool) (vq : quote) : js state card :=
  st <- get_state ;;
  negotiations <-
    (if has_negotiation_history vq then
       stats <- required "total_negotiations" (negotiation_stats_of vq) ;;
       ret (Some (total_negotiations stats, ns_success_rate stats))
     else ret None) ;;
  ret (card_of (currentServiceId st) nearby vq negotiations).

Definition no_vendor_quotes : string := "No vendor quotes found for this service.".
Definition no_nearby_quotes : string :=
  "No nearby vendor quotes found (within 1000m, last 12 months).".
Definition no_vpl_options : string := "No VPL options found for this location.".

(** [displayVendorQuotes(vendorQuotes, clientMrc)]. *)
Definition displayVendorQuotes (vendorQuotes : option (list quote)) : js state unit :=
  modify (with_vendorQuotes (fun _ => Items [])) ;;
  match vendorQuotes with
  | None | Some [] => modify (with_vendorQuotes (fun _ => Placeholder no_vendor_quotes))
  | Some l =>
      forEach l (fun vq =>
        c <- quote_card false vq ;;
        modify (with_vendorQuotes (append_item c)))
  end.

(** [displayNearbyQuotes(nearbyQuotes, clientMrc)]: the quotes are
    rendered in the order of the array, one card each. *)
Definition displayNearbyQuotes (nearbyQuotes : option (list quote)) : js state unit :=
  modify (with_nearbyQuotes (fun _ => Items [])) ;;
  match nearbyQuotes with
  | None | Some [] => modify (with_nearbyQuotes (fun _ => Placeholder no_nearby_quotes))
  | Some l =>
      forEach l (fun vq =>
        c <- quote_card true vq ;;
        modify (with_nearbyQuotes (append_item c)))
  end.

(** [displayVPLOptions(vplOptions, clientMrc)]: [vendor.options.map]
    throws on a vendor without options. *)
Definition displayVPLOptions (vplOptions : option (list vpl_vendor)) : js state unit :=
  modify (with_vplOptions (fun _ => Items [])) ;;
  match vplOptions with
  | None | Some [] => modify (with_vplOptions (fun _ => Placeholder no_vpl_options))
  | Some l =>
      forEach l (fun vendor =>
        opts <- required "map" (options vendor) ;;
        modify (with_vplOptions (append_item
          {| vg_vendor := Utils.escapeHtml (v_vendor_name vendor);
             vg_history := v_negotiation_stats vendor;
             vg_options := map (fun opt => (Utils.getGMStatusClass (o_gm opt),
                                            Utils.getGMStatusText (o_gm opt))) opts |})))
  end.

(** A count as [.text(n)] writes it. *)
Definition count_text (n : Q) : string := toFixed 0 n.

(** [displayResults(data)]; the lines that format the client MRC and the
    coordinates write two more texts and cannot throw. *)
Definition displayResults (data : analysis) : js state unit :=
  svc <- required "service_id" (service data) ;;
  modify (with_doc (fun d =>
    let d := jq_text "infoServiceId" (service_id svc) d in
    let d := jq_text "infoCustomer" (customer svc) d in
    let d := jq_text "infoBandwidth" (bandwidth_display svc) d in
    jq_text "infoAddress" (address svc) d)) ;;
  cnt <- required "associated" (counts data) ;;
  modify (with_doc (fun d =>
    let d := jq_text "vqCount" (option_map count_text (associated cnt)) d in
    let d := jq_text "nearbyCount" (Some (count_text (num_or (nearby cnt) 0))) d in
    let d := jq_text "vplCount" (option_map count_text (vpl cnt)) d in
    let d := jq_text "statVendorQuotes" (option_map count_text (associated cnt)) d in
    let d := jq_text "statNearbyQuotes" (Some (count_text (num_or (nearby cnt) 0))) d in
    jq_text "statVplOptions" (option_map count_text (vpl cnt)) d)) ;;
  displayVendorQuotes (vendor_quotes data) ;;
  displayNearbyQuotes (Some (match nearby_quotes data with Some l => l | None => [] end)) ;;
  displayVPLOptions (vpl_options data) ;;
  modify (with_doc (fun d =>
    set_display "quickStats" true (set_display "resultsContainer" true d))).

(** [analyzeService(serviceId)] up to its [fetch]: the view is reset,
    [currentServiceId] is assigned and the call is issued. *)
Definition analyzeService_start (serviceId : string) (st : state) : state :=
  let st := hideError st in
  let st := with_doc (fun d =>
    let d := set_display "welcomeMessage" false d in
    let d := set_display "resultsContainer" false d in
    let d := set_display "loadingSpinner" true d in
    set_display "quickStats" false d) st in
  let st := set_currentServiceId serviceId st in
  fetch (PostAnalyze serviceId) st.

(** The [try] block of [analyzeService] after the call has settled as [r]. *)
Definition analyzeService_try (r : fetch_result analysis) : js state unit :=
  response <- await_fetch r ;;
  if negb (fst response) then
    err <- await_json (snd response) ;;
    throw (Error (str_or (error err) "Failed to analyze service"))
  else
    data <- await_json (snd response) ;;
    modify (set_currentServiceData data) ;;
    displayResults data.

(** Its [catch] and [finally] blocks. *)
Definition analyzeService_catch (e : exn) : js state unit :=
  modify (showError (message e)) ;;
  modify (with_doc (set_display "welcomeMessage" true)).

Definition analyzeService_finally : js state unit :=
  modify (with_doc (set_display "loadingSpinner" false)).

Definition analyzeService_settle (r : fetch_result analysis) (st : state) : state :=
  exec (try_finally (try_catch (analyzeService_try r) analyzeService_catch)
                    analyzeService_finally) st.

(** [analyzeService(serviceId)] run to the end with the call settling as [r]. *)
Definition analyzeService (serviceId : string) (r : fetch_result analysis) (st : state) : state :=
  analyzeService_settle r (analyzeService_start serviceId st).

(** The submit handler of [analyzeForm], the field holding [value]. *)
Definition on_submit (value : string) (st : state) : state :=
  let serviceId := trim value in
  if truthy_str serviceId then analyzeService_start serviceId st else st.

(** [showStrategy(serviceId, vqQbId)] up to its [fetch]: the modal is
    reset, and the request carries the VPL options of
    [currentServiceData] (an empty list when there is no payload). *)
Definition showStrategy_start (serviceId vqQbId : string) (st : state) : state :=
  let st := with_doc (fun d =>
    let d := set_display "strategyModal" true d in
    let d := set_display "strategyLoading" true d in
    set_html "strategyContent" "" (set_display "strategyContent" false d)) st in
  let vplOptions :=
    match currentServiceData st with
    | Some data => vpl_options data
    | None => Some []
    end in
  fetch (PostStrategy serviceId vqQbId vplOptions) st.

End Analyze.

(* ------------------------------------------------------------------ *)
(** ** The renewal tab ([renewal.js], in its version with nearby quotes) *)
(* ------------------------------------------------------------------ *)

Module Renewal.
Import JS.
Local Open Scope js_scope.

Record service_info : Type := {
  service_id : option string;
  customer : option string;
  bandwidth_display : option string;
  client_mrc : Q;
  currency : option string
}.

Record voc_line_info : Type := {
  voc_vendor_name : option string;
  vendor_mrc : Q;
  vendor_mrc_usd : Q;
  current_gm_percent : Q;
  voc_status : option string
}.

Record stats_block : Type := {
  total : Q;
  successful : Q;
  success_rate : Q;
  avg_discount : Q;
  max_discount : option Q
}.

Record vendor_stats : Type := {
  renewal_stats : option stats_block;
  negotiation_stats : option stats_block
}.

(** A nearby quote of the renewal payload.  The comparator of the sort
    reads [is_same_vendor] as a boolean and [distance_meters] as a
    number. *)
Record nearby_quote : Type := {
  vendor_name : option string;
  gm : option Q;
  mrc : option Q;
  distance_meters : Q;
  is_same_vendor : bool;
  nq_service_id : option string;
  nq_bandwidth : option string;
  nq_service_type : option string;
  date_created : option string
}.

Record recommendation : Type := {
  priority : Q;
  confidence : option string;
  strategy : option string;
  rationale : option string
}.

Record vpl_option : Type := {
  is_current_vendor : bool;
  vpl_vendor_name : option string;
  vpl_mrc : Q;
  vpl_nrc : Q;
  vpl_gm : Q
}.

(** The body of [/api/analyze-renewal]. *)
Record payload : Type := {
  error : option string;
  service : option service_info;
  voc_line : option voc_line_info;
  current_vendor_stats : option vendor_stats;
  nearby_quotes : option (list nearby_quote);
  recommendations : option (list recommendation);
  vpl_options : option (list vpl_option)
}.

Inductive request : Type :=
| PostAnalyzeRenewal (service_id : string).

(** What the template of a nearby quote card interpolates. *)
Record nearby_card : Type := {
  nc_card_class : string;
  nc_vendor_badge : string;
  nc_vendor : string;
  nc_label : string;
  nc_distance : distance_badge;
  nc_mrc : string;
  nc_gm_class : string;
  nc_gm : string
}.

Record state : Type := {
  doc : document;
  (** The cards of [renewalNearbyQuotesContainer]. *)
  renewalNearbyQuotesContainer : list nearby_card;
  (** The network calls issued so far, oldest first. *)
  fetched : list request
}.

Definition with_doc (f : document -> document) (st : state) : state :=
  {| doc := f (doc st);
     renewalNearbyQuotesContainer := renewalNearbyQuotesContainer st;
     fetched := fetched st |}.

Definition set_cards (l : list nearby_card) (st : state) : state :=
  {| doc := doc st;
     renewalNearbyQuotesContainer := l;
     fetched := fetched st |}.

Definition fetch (r : request) (st : state) : state :=
  {| doc := doc st;
     renewalNearbyQuotesContainer := renewalNearbyQuotesContainer st;
     fetched := fetched st ++ [r] |}.

(** [showRenewalError(message)]. *)
Definition showRenewalError (msg : string) : js state unit :=
  modify (with_doc (fun d => set_display "renewalErrorAlert" true
                               (set_text "renewalErrorMessage" msg d))).

(** The comparator of [displayNearbyQuotes]: same-vendor quotes first,
    then by distance. *)
Definition compareNearby (a b : nearby_quote) : Q :=
  if negb (Bool.eqb (is_same_vendor a) (is_same_vendor b)) then
    bool_num (is_same_vendor b) - bool_num (is_same_vendor a)
  else
    distance_meters a - distance_meters b.

(** [const sortedQuotes = [...nearbyQuotes].sort(...)]. *)
Definition sortedQuotes (nearbyQuotes : list nearby_quote) : list nearby_quote :=
  sort compareNearby nearbyQuotes.

(** The distance badge of a nearby quote:
    [((vq.distance_meters || 0) / 1000).toFixed(1)] followed by [km away];
    the division is the division of doubles. *)
Definition distanceBadge (vq : nearby_quote) : distance_badge :=
  KmAway (toFixed 1 (div (num_or (Some (distance_meters vq)) 0) 1000)).

(** The card of a nearby quote whose [mrc] is [m]. *)
Definition card_of (vq : nearby_quote) (m : Q) : nearby_card :=
  let g := num_or (gm vq) 0 in
  let gmClass := if num_ge g 50 then "success"
                 else if num_ge g 40 then "warning" else "danger" in
  let isSameVendor := is_same_vendor vq in
  {| nc_card_class := if isSameVendor then "border-success" else "border-info";
     nc_vendor_badge := if isSameVendor then "bg-success" else "bg-info";
     nc_vendor := str_or (vendor_name vq) "Unknown";
     nc_label := if isSameVendor then "(Current Vendor)" else "(Alternative Vendor)";
     nc_distance := distanceBadge vq;
     nc_mrc := toFixed 2 m;
     nc_gm_class := gmClass;
     nc_gm := toFixed 1 g |}.

(** The body of the [forEach] over the sorted quotes; [vq.mrc.toFixed]
    throws on a quote without [mrc]. *)
Definition nearby_quote_card (vq : nearby_quote) : js state nearby_card :=
  m <- required "toFixed" (mrc vq) ;;
  ret (card_of vq m).

Fixpoint build_cards (l : list nearby_quote) : js state (list nearby_card) :=
  match l with
  | [] => ret []
  | vq :: r =>
      c <- nearby_quote_card vq ;;
      cs <- build_cards r ;;
      ret (c :: cs)
  end.

(** [displayNearbyQuotes(data)].  On a list with an entry,
    [data.service.currency] and [data.voc_line.vendor_name] are read before
    the sort and throw on a body without [service] or [voc_line]; nothing is
    written before every card is built. *)
Definition displayNearbyQuotes (data : payload) : js state unit :=
  let nearbyQuotes := match nearby_quotes data with Some l => l | None => [] end in
  match nearbyQuotes with
  | [] => modify (with_doc (set_display "renewalNearbyQuotesSection" false))
  | _ =>
      svc <- required "currency" (service data) ;;
      voc <- required "vendor_name" (voc_line data) ;;
      cards <- build_cards (sortedQuotes nearbyQuotes) ;;
      modify (set_cards cards) ;;
      modify (with_doc (set_display "renewalNearbyQuotesSection" true))
  end.

(** [displayRecommendations(data)], as far as it can throw:
    [rec.confidence.toUpperCase()] on a recommendation without confidence. *)
Definition displayRecommendations (data : payload) : js state unit :=
  match recommendations data with
  | None | Some [] => ret tt
  | Some l => forEach l (fun r => c <- required "toUpperCase" (confidence r) ;; ret tt)
  end.

(** [displayRenewalResults(data)]: the reads that throw on a body without
    [service], [voc_line] or [current_vendor_stats], and the elements
    shown on the way; the markup written into them is left out. *)
Definition displayRenewalResults (data : payload) : js state unit :=
  svc <- required "currency" (service data) ;;
  voc <- required "vendor_name" (voc_line data) ;;
  modify (with_doc (fun d =>
    let d := set_text "currentVendorName"
               (match voc_vendor_name voc with Some n => n | None => "" end) d in
    let d := set_text "currentGm" (toFixed 1 (current_gm_percent voc) ++ "%") d in
    set_display "renewalQuickSummary" true d)) ;;
  modify (with_doc (set_display "vocLineInfo" true)) ;;
  stats <- required "renewal_stats" (current_vendor_stats data) ;;
  displayNearbyQuotes data ;;
  displayRecommendations data ;;
  (match vpl_options data with
   | Some (_ :: _) => modify (with_doc (set_display "renewalVplSection" true))
   | _ => ret tt
   end) ;;
  modify (with_doc (set_display "renewalResults" true)).

(** [analyzeRenewal(serviceId)] up to its [fetch]. *)
Definition analyzeRenewal_start (serviceId : string) (st : state) : state :=
  fetch (PostAnalyzeRenewal serviceId)
    (with_doc (fun d =>
       let d := set_display "renewalLoadingSpinner" true d in
       let d := set_display "renewalErrorAlert" false d in
       let d := set_display "renewalQuickSummary" false d in
       let d := set_display "vocLineInfo" false d in
       set_display "renewalResults" false d) st).

(** The promise chain of [analyzeRenewal] once the call has settled as [r]. *)
Definition analyzeRenewal_chain (r : fetch_result payload) : js state unit :=
  try_catch
    (response <- await_fetch r ;;
     data <- await_json (snd response) ;;
     modify (with_doc (set_display "renewalLoadingSpinner" false)) ;;
     if truthy_opt (error data) then
       showRenewalError (str_or (error data) "")
     else
       displayRenewalResults data)
    (fun e =>
     modify (with_doc (set_display "renewalLoadingSpinner" false)) ;;
     showRenewalError ("Network error: " ++ message e)).

Definition analyzeRenewal_settle (r : fetch_result payload) (st : state) : state :=
  exec (analyzeRenewal_chain r) st.

(** [analyzeRenewal(serviceId)] run to the end with the call settling as [r]. *)
Definition analyzeRenewal (serviceId : string) (r : fetch_result payload) (st : state) : state :=
  analyzeRenewal_settle r (analyzeRenewal_start serviceId st).

(** The submit handler of [analyzeRenewalForm], the field holding [value]. *)
Definition on_submit (value : string) (st : state) : state :=
  let serviceId := trim value in
  if truthy_str serviceId then analyzeRenewal_start serviceId st else st.

End Renewal.

(* ------------------------------------------------------------------ *)
(** ** [main.js]: the badges of a recommendation *)
(* ------------------------------------------------------------------ *)

Module Badges.
Import JS.

Definition star (style icon : string) : string :=
  "<i " ++ attr "class" (style ++ " " ++ icon ++ " text-warning") ++ "></i>".

(** [getPriorityIcon(priority)]: the entry of [icons] under the key the
    priority converts to, the empty string when there is none.  A number
    converts to one of the keys 1, 2, 3 exactly when it equals it. *)
Definition getPriorityIcon (priority : option Q) : string :=
  match priority with
  | None => ""
  | Some p =>
      if Qeq_bool p 1 then star "fas" "fa-star"
      else if Qeq_bool p 2 then star "fas" "fa-star-half-alt"
      else if Qeq_bool p 3 then star "far" "fa-star"
      else ""
  end.

(** [labels[strength] || strength] of [getStrengthBadge], for a strength
    token that is no name of a member of [Object.prototype]. *)
Definition strengthLabel (strength : string) : string :=
  if String.eqb strength "very_high" then "Very High"
  else if String.eqb strength "high" then "High"
  else if String.eqb strength "medium" then "Medium"
  else if String.eqb strength "low" then "Low"
  else strength.

(** What a template writes for a string that may be [undefined]. *)
Definition interpolate (s : option string) : string :=
  match s with Some v => v | None => "undefined" end.

(** [getStrengthBadge(strength)]. *)
Definition getStrengthBadge (strength : option string) : string :=
  "<span " ++ attr "class" ("strength-badge strength-" ++ interpolate strength) ++ ">"
  ++ strengthLabel (interpolate strength) ++ "</span>".

End Badges.

(* ------------------------------------------------------------------ *)
(** ** [analyze.js]: the strategy modal *)
(* ------------------------------------------------------------------ *)

Module Strategy.
Import JS.
Local Open Scope js_scope.

Record service_info : Type := {
  service_id : option string;
  customer : option string;
  bandwidth_display : option string;
  client_mrc : option Q
}.

Record vendor_quote : Type := {
  vendor_name : option string;
  quickbase_id : option string;
  current_mrc : option Q;
  current_gm : Q;
  lead_time : option string;
  status : option string
}.

Record history : Type := {
  total_negotiations : Q;
  successful_negotiations : Q;
  success_rate : Q;
  avg_discount : Q;
  projected_mrc : option Q;
  projected_gm : Q
}.

Record target : Type := {
  target_mrc : option Q;
  discount_needed : option Q
}.

Record targets_info : Type := {
  gm_40 : option target;
  gm_50 : option target
}.

Record vpl_entry : Type := {
  vpl_bandwidth : option string;
  vpl_service_type : option string;
  vpl_mrc : option Q;
  vpl_nrc : option Q;
  savings : option Q;
  savings_percent : option Q;
  vpl_gm : Q
}.

Record alternative : Type := {
  alt_vendor_name : option string;
  alt_bandwidth : option string;
  alt_service_type : option string;
  alt_mrc : option Q;
  alt_gm : Q
}.

Record action : Type := { text : option string }.

Record recommendation : Type := {
  priority : option Q;
  strength : option string;
  title : option string;
  actions : option (list action)
}.

(** The body of [/api/strategy/{serviceId}/{vendorQuoteId}]. *)
Record payload : Type := {
  error : option string;
  service : option service_info;
  quote : option vendor_quote;
  negotiation_history : option history;
  targets : option targets_info;
  vendor_vpl : option (list vpl_entry);
  alternatives : option (list alternative);
  recommendations : option (list recommendation)
}.

(** One card of the recommendation list. *)
Record recommendation_card : Type := {
  rc_class : string;
  rc_icon : string;
  rc_title : string;
  rc_badge : string;
  rc_actions : list string
}.

(** The blocks [displayStrategy] appends to [html], each with what its
    template interpolates. *)
Inductive section : Type :=
| CurrentSituation (service customer bandwidth : string) (client_mrc : option Q)
    (vendor : string) (quickbase_id : string) (current_mrc : option Q)
    (gm_badge gm_text lead_time status : string)
| NegotiationHistory (vendor : string) (h : history) (projected_badge : string)
| NoHistoryNotice
| TargetMargins (for_40 for_50 : target)
| VendorPriceList (entries : list (vpl_entry * string)) (published current : option Q)
| AlternativeVendors (entries : list (string * string * string))
| RecommendedStrategy (cards : list recommendation_card).

(** What [strategyContent] holds. *)
Inductive content : Type :=
| Blank
| ErrorAlert (message : string)
| Sections (html : list section).

Record state : Type := {
  page : Analyze.state;
  strategyContent : content
}.

Definition with_page (f : Analyze.state -> Analyze.state) (st : state) : state :=
  {| page := f (page st); strategyContent := strategyContent st |}.

Definition set_content (c : content) (st : state) : state :=
  {| page := page st; strategyContent := c |}.

(** The handler of [hidden.bs.modal]: the modal is put back as it is
    before a strategy is loaded. *)
Definition on_modal_hidden (st : state) : state :=
  set_content Blank
    (with_page (Analyze.with_doc (fun d =>
       set_display "strategyContent" false (set_display "strategyLoading" true d))) st).

(** [showStrategy(serviceId, vqQbId)] up to its [fetch]. *)
Definition showStrategy_start (serviceId vqQbId : string) (st : state) : state :=
  set_content Blank (with_page (Analyze.showStrategy_start serviceId vqQbId) st).

(** The card of one recommendation; [rec.actions.forEach] throws on a
    recommendation without actions. *)
Definition recommendation_card_of (r : recommendation) : js state recommendation_card :=
  acts <- required "forEach" (actions r) ;;
  ret {| rc_class := "recommendation-card strength-" ++ Badges.interpolate (strength r);
         rc_icon := Badges.getPriorityIcon (priority r);
         rc_title := Utils.escapeHtml (title r);
         rc_badge := Badges.getStrengthBadge (strength r);
         rc_actions := map (fun a => Badges.interpolate (text a)) acts |}.

Fixpoint recommendation_cards (l : list recommendation) : js state (list recommendation_card) :=
  match l with
  | [] => ret []
  | r :: rest =>
      c <- recommendation_card_of r ;;
      cs <- recommendation_cards rest ;;
      ret (c :: cs)
  end.

(** The blocks that are shown only when their list has an entry. *)
Definition vpl_block (data : payload) (q : vendor_quote) : list section :=
  match vendor_vpl data with
  | Some (best :: rest) =>
      [VendorPriceList
         (map (fun v => (v, Utils.getGMStatusClass (vpl_gm v))) (best :: rest))
         (vpl_mrc best) (current_mrc q)]
  | _ => []
  end.

Definition alternatives_block (data : payload) : list section :=
  match alternatives data with
  | Some (a :: rest) =>
      [AlternativeVendors
         (map (fun alt => (Utils.escapeHtml (alt_vendor_name alt),
                           Utils.escapeHtml (alt_service_type alt),
                           Utils.getGMStatusClass (alt_gm alt))) (a :: rest))]
  | _ => []
  end.

(** [displayStrategy(data)]: the markup is built in a local variable and
    written at the end; the reads of [data.vendor_quote], [data.service],
    [data.targets] and its two targets throw when the object is missing. *)
Definition displayStrategy (data : payload) : js state unit :=
  q <- required "current_gm" (quote data) ;;
  let gmBadgeClass := Utils.getGMStatusClass (current_gm q) in
  let gmStatusText := Utils.getGMStatusText (current_gm q) in
  svc <- required "service_id" (service data) ;;
  let situation :=
    CurrentSituation
      (Utils.escapeHtml (service_id svc)) (Utils.escapeHtml (customer svc))
      (Utils.escapeHtml (bandwidth_display svc)) (client_mrc svc)
      (Utils.escapeHtml (vendor_name q)) (Badges.interpolate (quickbase_id q))
      (current_mrc q) gmBadgeClass gmStatusText
      (Utils.escapeHtml (lead_time q)) (Utils.escapeHtml (status q)) in
  let hist :=
    match negotiation_history data with
    | Some h => NegotiationHistory (Utils.escapeHtml (vendor_name q)) h
                  (Utils.getGMStatusClass (projected_gm h))
    | None => NoHistoryNotice
    end in
  ts <- required "gm_40" (targets data) ;;
  t40 <- required "target_mrc" (gm_40 ts) ;;
  t50 <- required "target_mrc" (gm_50 ts) ;;
  cards <-
    (match recommendations data with
     | Some (r :: rest) =>
         cs <- recommendation_cards (r :: rest) ;;
         ret [RecommendedStrategy cs]
     | _ => ret []
     end) ;;
  modify (fun st =>
    with_page (Analyze.with_doc (set_display "strategyContent" true))
      (set_content
         (Sections ([situation; hist; TargetMargins t40 t50]
                    ++ vpl_block data q ++ alternatives_block data ++ cards))
         st)).

(** The [try] block of [showStrategy] once the call has settled as [r]. *)
Definition showStrategy_try (r : fetch_result payload) : js state unit :=
  response <- await_fetch r ;;
  if negb (fst response) then
    err <- await_json (snd response) ;;
    throw (Error (str_or (error err) "Failed to load strategy"))
  else
    data <- await_json (snd response) ;;
    displayStrategy data.

(** Its [catch] block writes the message into the content and shows it;
    its [finally] block hides the loading indicator. *)
Definition showStrategy_catch (e : exn) : js state unit :=
  modify (fun st =>
    with_page (Analyze.with_doc (set_display "strategyContent" true))
      (set_content (ErrorAlert (message e)) st)).

Definition showStrategy_finally : js state unit :=
  modify (with_page (Analyze.with_doc (set_display "strategyLoading" false))).

Definition showStrategy_settle (r : fetch_result payload) (st : state) : state :=
  exec (try_finally (try_catch (showStrategy_try r) showStrategy_catch)
                    showStrategy_finally) st.

(** [showStrategy(serviceId, vqQbId)] run to the end with the call
    settling as [r]. *)
Definition showStrategy (serviceId vqQbId : string) (r : fetch_result payload)
    (st : state) : state :=
  showStrategy_settle r (showStrategy_start serviceId vqQbId st).




End Strategy.

(* ------------------------------------------------------------------ *)
(** ** The renewal tab: margin classes and the price list tables *)
(* ------------------------------------------------------------------ *)

Module RenewalViews.
Import JS.

(** [gmClass] of [displayVocLineInfo], from [voc.current_gm_percent]. *)
Definition vocGmClass (voc : Renewal.voc_line_info) : string :=
  if num_ge (Renewal.current_gm_percent voc) 50 then "success"
  else if num_ge (Renewal.current_gm_percent voc) 40 then "warning"
  else "danger".

(** [successClass] of the renewal statistics and of the negotiation
    statistics in [displayVendorStats]. *)
Definition renewalSuccessClass (rs : Renewal.stats_block) : string :=
  if num_ge (Renewal.success_rate rs) 70 then "success"
  else if num_ge (Renewal.success_rate rs) 50 then "warning"
  else "danger".

Definition negotiationSuccessClass (ns : Renewal.stats_block) : string :=
  if num_ge (Renewal.success_rate ns) 50 then "success"
  else if num_ge (Renewal.success_rate ns) 30 then "warning"
  else "danger".

(** One option of [vpl_options], with all that [displayRenewalVplOptions]
    reads of it. *)
Record vpl : Type := {
  is_current_vendor : bool;
  vendor_name : option string;
  bandwidth : option string;
  mrc : Q;
  mrc_currency : option string;
  nrc : Q;
  gm : Q;
  gm_status : option string;
  service_type : option string
}.

(** One [<tr>] of a price list table. *)
Record vpl_row : Type := {
  row_class : string;
  row_vendor : string;
  row_bandwidth : string;
  row_mrc : string;
  row_nrc : string;
  row_badge : string;
  row_gm : string;
  row_service_type : string
}.

(** [gmClass] of a row: it follows [vpl.gm_status]. *)
Definition statusClass (gm_status : option string) : string :=
  match gm_status with
  | Some s => if String.eqb s "success" then "success"
              else if String.eqb s "warning" then "warning"
              else "danger"
  | None => "danger"
  end.

Definition row_of (row_class : string) (v : vpl) : vpl_row :=
  {| row_class := row_class;
     row_vendor := Badges.interpolate (vendor_name v);
     row_bandwidth := Badges.interpolate (bandwidth v);
     row_mrc := toFixed 2 (mrc v) ++ " " ++ Badges.interpolate (mrc_currency v);
     row_nrc := toFixed 2 (nrc v);
     row_badge := "bg-" ++ statusClass (gm_status v);
     row_gm := toFixed 1 (gm v) ++ "%";
     row_service_type := Badges.interpolate (service_type v) |}.

(** The two filters of [displayRenewalVplOptions]. *)
Definition currentVendorVpls (vplOptions : list vpl) : list vpl :=
  filter (fun v => is_current_vendor v) vplOptions.

Definition alternativeVendorVpls (vplOptions : list vpl) : list vpl :=
  filter (fun v => negb (is_current_vendor v)) vplOptions.

(** What [renewalVplList] holds: the table of the current vendor and the
    table of the other vendors, each absent when it would have no row. *)
Record tables : Type := {
  current_table : option (list vpl_row);
  alternative_table : option (list vpl_row)
}.

Definition table_of (row_class : string) (l : list vpl) : option (list vpl_row) :=
  match l with
  | [] => None
  | _ => Some (map (row_of row_class) l)
  end.

Record state : Type := {
  doc : document;
  renewalVplList : option tables
}.

(** [displayRenewalVplOptions(data)]: nothing is done on a list that is
    absent or empty; otherwise the tables are written and the section is
    shown. *)
Definition displayRenewalVplOptions (vplOptions : option (list vpl)) (st : state) : state :=
  match vplOptions with
  | None | Some [] => st
  | Some l =>
      {| doc := set_display "renewalVplSection" true (doc st);
         renewalVplList :=
           Some {| current_table := table_of "table-success" (currentVendorVpls l);
                   alternative_table := table_of "table-info" (alternativeVendorVpls l) |} |}
  end.

End RenewalViews.

(* ------------------------------------------------------------------ *)
(** ** The views as the specification words them *)
(* ------------------------------------------------------------------ *)

Module Spec.
Import JS.

(** The distance badge in the words of the specification: meters below
    1000, kilometers to one decimal otherwise. *)
Definition distance_badge (d : Q) : JS.distance_badge :=
  if num_gt 1000 d then MetersAway d
  else KmAway (toFixed 1 (d / 1000)).

(** The discount tier in the words of the specification: high from 15,
    medium above 5, neutral otherwise. *)
Definition discount_tier (d : Q) : string :=
  if num_ge d 15 then "success"
  else if num_gt d 5 then "info"
  else "secondary".

(** The two-key order in the words of the specification: a quote of the
    same vendor goes before one of another vendor; among quotes of one
    kind the nearer goes first. *)
Definition nearby_before (a b : Renewal.nearby_quote) : Prop :=
  (Renewal.is_same_vendor a = true /\ Renewal.is_same_vendor b = false)
  \/ (Renewal.is_same_vendor a = Renewal.is_same_vendor b
      /\ Renewal.distance_meters a <= Renewal.distance_meters b).

(** The quotes that have both keys of [a]. *)
Definition same_keys (a b : Renewal.nearby_quote) : bool :=
  Bool.eqb (Renewal.is_same_vendor b) (Renewal.is_same_vendor a)
  && Qeq_bool (Renewal.distance_meters b) (Renewal.distance_meters a).


(** A failed call in the words of the specification: a network failure,
    a response that is no success or whose body cannot be read, or a body
    with an error field. *)
Definition failed {B} (error : B -> option string) (r : fetch_result B) : Prop :=
  match r with
  | Rejected => True
  | Resolved _ NotJson => True
  | Resolved ok (JsonBody b) => ok = false \/ error b <> None
  end.

(** The failures the service controller reports: a network failure, a
    body that is not JSON, and every response whose status is no success. *)
Definition reported_by_status {B} (r : fetch_result B) : Prop :=
  match r with
  | Rejected => True
  | Resolved _ NotJson => True
  | Resolved ok (JsonBody _) => ok = false
  end.

(** The failures the renewal and vendor controllers report: a network
    failure, a body that is not JSON, and every body that carries a
    non-empty error string. *)
Definition reported_by_body {B} (error : B -> option string) (r : fetch_result B) : Prop :=
  match r with
  | Rejected => True
  | Resolved _ NotJson => True
  | Resolved _ (JsonBody b) => truthy_opt (error b) = true
  end.

(** The five characters that [escapeHtml] replaces, and the entities it
    writes for them. *)
Definition special (c : ascii) : bool :=
  let n := nat_of_ascii c in
  ((n =? 38) || (n =? 60) || (n =? 62) || (n =? 34) || (n =? 39))%nat.

Definition entities : list string :=
  ["&amp;"; "&lt;"; "&gt;"; "&quot;"; "&#039;"].

(** Markup that is safe to interpolate: a sequence of entities and of
    characters that are none of the five. *)
Definition safe_token (t : string) : Prop :=
  In t entities \/ exists c, t = String c EmptyString /\ special c = false.

(** An identifier that is empty or consists only of white space. *)
Fixpoint only_white_space (s : string) : bool :=
  match s with
  | EmptyString => true
  | String c r => is_white_space c && only_white_space r
  end.

(** Keystrokes that follow a keystroke made at the time [t], each less
    than 300ms after the one before. *)
Fixpoint within_300ms (t : nat) (evs : list (nat * string)) : Prop :=
  match evs with
  | [] => True
  | ev :: r => (t <= fst ev)%nat /\ (fst ev < t + 300)%nat /\ within_300ms (fst ev) r
  end.

(** The invariant of the autocomplete controller: a pending timeout is the
    one whose id [autocompleteTimeout] holds. *)
Definition one_pending (st : Vendor.state) : Prop :=
  Forall (fun x => Vendor.autocompleteTimeout st = Some (Vendor.timer_id x))
         (Vendor.timers st).

(** What is pending after a keystroke: nothing when the trimmed value is
    shorter than two characters, else the lookup of the trimmed value,
    due 300ms later. *)
Definition pending_after (id : positive) (ev : nat * string) : list Vendor.timer :=
  if (String.length (trim (snd ev)) <? 2)%nat then []
  else [ {| Vendor.timer_id := id; Vendor.due := fst ev + 300;
         Vendor.term := trim (snd ev) |} ].

(** The negotiation counts the card of a quote shows, and the [mrc] it
    formats. *)
Definition negotiations_of (vq : Analyze.quote) : option (Q * Q) :=
  if Analyze.has_negotiation_history vq then
    option_map (fun s => (Analyze.total_negotiations s, Analyze.ns_success_rate s))
               (Analyze.negotiation_stats_of vq)
  else None.

Definition mrc_of (vq : Renewal.nearby_quote) : Q :=
  match Renewal.mrc vq with Some m => m | None => 0 end.


End Spec.

(* ------------------------------------------------------------------ *)
(** ** Sample payloads *)
(* ------------------------------------------------------------------ *)

Module Sample.

(** A renewal row with the given discount. *)
Definition renewal_with (d : option Q) : Vendor.renewal :=
  {| Vendor.r_service_id := Some "SVC-1";
     Vendor.renewal_date := Some "2025-01-31";
     Vendor.original_mrc := Some 100;
     Vendor.renewed_mrc := Some 85;
     Vendor.r_currency := None;
     Vendor.discount_percent := d;
     Vendor.r_status := Some "Renewed" |}.

(** A projection with the given average and best-case discounts. *)
Definition projection_with (avg : Q) (best : option Q) : Analyze.projection :=
  {| Analyze.p_mrc := Some 90;
     Analyze.p_gm := 45;
     Analyze.avg_discount := avg;
     Analyze.best_discount := best;
     Analyze.best_mrc := Some 80;
     Analyze.best_gm := Some 52 |}.

(** A quote of the service analysis with the given vendor flag, distance
    and projection. *)
Definition quote_with (same : bool) (dist : option Q)
    (proj : option Analyze.projection) : Analyze.quote :=
  {| Analyze.vendor_name := Some "Acme";
     Analyze.gm := Some 42;
     Analyze.mrc := Some 100;
     Analyze.mrc_currency := Some "USD";
     Analyze.bandwidth := Some "100 Mbps";
     Analyze.status := Some "Active";
     Analyze.lead_time := Some "30";
     Analyze.quickbase_id := Some "17";
     Analyze.date_created := None;
     Analyze.has_negotiation_history := false;
     Analyze.negotiation_stats_of := None;
     Analyze.has_renewal_history := false;
     Analyze.renewal_stats_of := None;
     Analyze.projected_with_negotiation := proj;
     Analyze.distance_meters := dist;
     Analyze.is_same_vendor := same |}.

(** A nearby quote of the renewal analysis with the given vendor flag and
    distance. *)
Definition nearby_with (name : string) (same : bool) (dist : Q) : Renewal.nearby_quote :=
  {| Renewal.vendor_name := Some name;
     Renewal.gm := Some 42;
     Renewal.mrc := Some 100;
     Renewal.distance_meters := dist;
     Renewal.is_same_vendor := same;
     Renewal.nq_service_id := None;
     Renewal.nq_bandwidth := None;
     Renewal.nq_service_type := None;
     Renewal.date_created := None |}.

(** The two nearby quotes of the specification: A of the same vendor at
    500 meters, B of another vendor at 100 meters. *)
Definition nearbyA : Renewal.nearby_quote := nearby_with "A" true 500.
Definition nearbyB : Renewal.nearby_quote := nearby_with "B" false 100.
Definition quoteA : Analyze.quote := quote_with true (Some 500) None.
Definition quoteB : Analyze.quote := quote_with false (Some 100) None.

(** A renewal body that has all the renderer reads and no error field. *)
Definition renewal_complete : Renewal.payload :=
  {| Renewal.error := None;
     Renewal.service := Some {| Renewal.service_id := Some "SVC-1";
                                Renewal.customer := Some "Customer";
                                Renewal.bandwidth_display := Some "100 Mbps";
                                Renewal.client_mrc := 500;
                                Renewal.currency := Some "USD" |};
     Renewal.voc_line := Some {| Renewal.voc_vendor_name := Some "Acme";
                                 Renewal.vendor_mrc := 300;
                                 Renewal.vendor_mrc_usd := 300;
                                 Renewal.current_gm_percent := 40;
                                 Renewal.voc_status := Some "Active" |};
     Renewal.current_vendor_stats := Some {| Renewal.renewal_stats := None;
                                             Renewal.negotiation_stats := None |};
     Renewal.nearby_quotes := None;
     Renewal.recommendations := None;
     Renewal.vpl_options := None |}.

(** The same body with the given nearby quotes. *)
Definition renewal_with_nearby (l : option (list Renewal.nearby_quote)) : Renewal.payload :=
  {| Renewal.error := None;
     Renewal.service := Renewal.service renewal_complete;
     Renewal.voc_line := Renewal.voc_line renewal_complete;
     Renewal.current_vendor_stats := Renewal.current_vendor_stats renewal_complete;
     Renewal.nearby_quotes := l;
     Renewal.recommendations := None;
     Renewal.vpl_options := None |}.

(** A vendor body with the given error field and nothing else. *)
Definition vendor_body (e : option string) : Vendor.payload :=
  {| Vendor.error := e;
     Vendor.vendor_name := None;
     Vendor.summary := None;
     Vendor.renewal_history := None;
     Vendor.new_contract_history := None |}.

(** A service analysis body with the given error field, vendor quotes
    and VPL options, a service, its counts and no nearby quotes. *)
Definition analysis_body (e : option string) (qs : list Analyze.quote)
    (v : option (list Analyze.vpl_vendor)) : Analyze.analysis :=
  {| Analyze.error := e;
     Analyze.service := Some {| Analyze.service_id := Some "SVC-1";
                                Analyze.customer := Some "Customer";
                                Analyze.bandwidth_display := Some "100 Mbps";
                                Analyze.client_mrc := Some 500;
                                Analyze.currency := Some "USD";
                                Analyze.address := None |};
     Analyze.counts := Some {| Analyze.associated := Some 0;
                               Analyze.nearby := None;
                               Analyze.vpl := Some 1 |};
     Analyze.vendor_quotes := Some qs;
     Analyze.nearby_quotes := None;
     Analyze.vpl_options := v |}.

(** One vendor of a price list, with one option. *)
Definition vpl_of (name : string) : Analyze.vpl_vendor :=
  {| Analyze.v_vendor_name := Some name;
     Analyze.v_negotiation_stats := None;
     Analyze.options := Some [ {| Analyze.o_bandwidth := Some "100";
                                  Analyze.o_service_type := Some "DIA";
                                  Analyze.o_mrc := Some 200;
                                  Analyze.o_nrc := Some 0;
                                  Analyze.o_gm := 60 |} ] |}.

(** A document with nothing displayed and no text, and the three tabs
    before anything was submitted. *)
Definition blank : JS.document :=
  {| JS.display := fun _ => false;
     JS.textContent := fun _ => EmptyString;
     JS.innerHTML := fun _ => EmptyString |}.

Definition analyze0 : Analyze.state :=
  {| Analyze.doc := blank;
     Analyze.vendorQuotesContainer := Analyze.Items [];
     Analyze.nearbyQuotesContainer := Analyze.Items [];
     Analyze.vplOptionsContainer := Analyze.Items [];
     Analyze.error_timeouts := 0;
     Analyze.currentServiceData := None;
     Analyze.currentServiceId := None;
     Analyze.fetched := [] |}.

Definition renewal0 : Renewal.state :=
  {| Renewal.doc := blank;
     Renewal.renewalNearbyQuotesContainer := [];
     Renewal.fetched := [] |}.

Definition vendor0 : Vendor.state := Vendor.initial blank.

End Sample.

(* ------------------------------------------------------------------ *)
(** ** Predicates on texts and payloads *)
(* ------------------------------------------------------------------ *)

Module Props.
Import JS.

(** A text with none of the five characters that [escapeHtml] replaces. *)
Fixpoint plain (s : string) : bool :=
  match s with
  | EmptyString => true
  | String c r => negb (Spec.special c) && plain r
  end.

(** A text with no white space at its start, and at its end. *)
Definition starts_clean (s : string) : bool :=
  match s with
  | EmptyString => true
  | String c _ => negb (is_white_space c)
  end.

Fixpoint ends_clean (s : string) : bool :=
  match s with
  | EmptyString => true
  | String c EmptyString => negb (is_white_space c)
  | String _ r => ends_clean r
  end.


(** A lookup the autocomplete controller may issue after the keystrokes
    [evs]: the trimmed value of one of them, of two characters or more. *)
Definition lookup_of (evs : list (nat * string)) (searchTerm : string) : Prop :=
  (2 <= String.length searchTerm)%nat
  /\ exists ev, In ev evs /\ searchTerm = trim (snd ev).

(** The invariant of the autocomplete controller after the keystrokes
    [evs]: at most one timeout is pending, it is the one
    [autocompleteTimeout] holds, what is pending and what was issued are
    lookups of [evs], and there are no more of them than keystrokes. *)
Definition debounced (evs : list (nat * string)) (st : Vendor.state) : Prop :=
  Spec.one_pending st
  /\ (List.length (Vendor.timers st) <= 1)%nat
  /\ Forall (fun x => lookup_of evs (Vendor.term x)) (Vendor.timers st)
  /\ Forall (fun r => exists searchTerm,
                r = Vendor.GetVendorAutocomplete searchTerm /\ lookup_of evs searchTerm)
            (Vendor.fetched st)
  /\ (List.length (Vendor.fetched st) + List.length (Vendor.timers st)
      <= List.length evs)%nat.


(** An exception thrown by reading a property of [undefined]. *)
Definition type_error (e : exn) : Prop := exists prop, e = UndefinedProperty prop.

(** [throws_type_errors m]: whatever [m] throws is such an exception. *)
Definition throws_type_errors {S A} (m : js S A) : Prop :=
  forall s e, fst (m s) = Abrupt e -> type_error e.

(** [decides m b]: [m] returns when [b] is true and throws when it is
    false, from every state. *)
Definition decides {S A} (m : js S A) (b : bool) : Prop :=
  forall s, match fst (m s) with
            | Normal _ => b = true
            | Abrupt _ => b = false
            end.

(** [changes_on_return obs F m]: when [m] returns, it has changed the
    observation [obs] of the state by [F]; when it throws, it has left the
    observation as it was. *)
Definition changes_on_return {S X A} (obs : S -> X) (F : X -> X) (m : js S A) : Prop :=
  forall s, match fst (m s) with
            | Normal _ => obs (snd (m s)) = F (obs s)
            | Abrupt _ => obs (snd (m s)) = obs s
            end.

(** Whether an optional value is present. *)
Definition present {A} (x : option A) : bool :=
  match x with Some _ => true | None => false end.

(** The list of an optional array, empty when it is absent. *)
Definition items {A} (l : option (list A)) : list A :=
  match l with Some v => v | None => [] end.

(** A quote the service tab can build a card for: it carries its
    negotiation statistics when it is flagged as having a history. *)
Definition quote_ok (vq : Analyze.quote) : bool :=
  negb (Analyze.has_negotiation_history vq) || present (Analyze.negotiation_stats_of vq).

(** A payload [displayResults] renders to the end: it has a service and
    counts, its quotes are as above and each vendor of its price lists has
    its options. *)
Definition renderable (data : Analyze.analysis) : bool :=
  present (Analyze.service data)
  && present (Analyze.counts data)
  && forallb quote_ok (items (Analyze.vendor_quotes data))
  && forallb quote_ok (items (Analyze.nearby_quotes data))
  && forallb (fun v => present (Analyze.options v)) (items (Analyze.vpl_options data)).

(** The cards a container holds, none when it holds the placeholder. *)
Definition cards_of {A} (c : Analyze.container A) : list A :=
  match c with
  | Analyze.Placeholder _ => []
  | Analyze.Items l => l
  end.


(** What a container of quote cards holds once its list was rendered with
    [currentServiceId] as [sid]: the placeholder for an absent or empty list,
    else one card for each quote in the order of the list. *)
Definition rendered (nearby : bool) (placeholder : string) (sid : option string)
    (l : list Analyze.quote) : Analyze.container Analyze.card :=
  match l with
  | [] => Analyze.Placeholder placeholder
  | _ => Analyze.Items (map (fun q => Analyze.card_of sid nearby q (Spec.negotiations_of q)) l)
  end.


(** The kinds of block of the strategy modal. *)
Inductive block : Type :=
| Situation | History | Notice | Targets | PriceList | Alternatives | Recommendations.

Definition kind (s : Strategy.section) : block :=
  match s with
  | Strategy.CurrentSituation _ _ _ _ _ _ _ _ _ _ _ => Situation
  | Strategy.NegotiationHistory _ _ _ => History
  | Strategy.NoHistoryNotice => Notice
  | Strategy.TargetMargins _ _ => Targets
  | Strategy.VendorPriceList _ _ _ => PriceList
  | Strategy.AlternativeVendors _ => Alternatives
  | Strategy.RecommendedStrategy _ => Recommendations
  end.

(** Whether an optional array has an entry. *)
Definition has_entry {A} (l : option (list A)) : bool :=
  match l with Some (_ :: _) => true | _ => false end.

(** The blocks of a strategy in the order of the page: the current
    situation, the negotiation history or the notice that there is none, the
    target margins, and a block for each of the price list, the alternatives
    and the recommendations that has an entry. *)
Definition blocks_of (data : Strategy.payload) : list block :=
  ([Situation;
    if present (Strategy.negotiation_history data) then History else Notice;
    Targets]
   ++ (if has_entry (Strategy.vendor_vpl data) then [PriceList] else [])
   ++ (if has_entry (Strategy.alternatives data) then [Alternatives] else [])
   ++ (if has_entry (Strategy.recommendations data) then [Recommendations] else []))%list.

(** A strategy payload [displayStrategy] renders to the end: it has its
    quote, its service and both targets, and each recommendation has its
    actions. *)
Definition strategy_renderable (data : Strategy.payload) : bool :=
  present (Strategy.quote data)
  && present (Strategy.service data)
  && match Strategy.targets data with
     | Some ts => present (Strategy.gm_40 ts) && present (Strategy.gm_50 ts)
     | None => false
     end
  && forallb (fun r => present (Strategy.actions r)) (items (Strategy.recommendations data)).

End Props.

(* ------------------------------------------------------------------ *)
(** ** More sample payloads *)
(* ------------------------------------------------------------------ *)

Module Cases.

(** An option of a renewal price list of the given vendor. *)
Definition vpl_of (name : string) (current : bool) : RenewalViews.vpl :=
  {| RenewalViews.is_current_vendor := current;
     RenewalViews.vendor_name := Some name;
     RenewalViews.bandwidth := Some "100 Mbps";
     RenewalViews.mrc := 200;
     RenewalViews.mrc_currency := Some "USD";
     RenewalViews.nrc := 0;
     RenewalViews.gm := 60;
     RenewalViews.gm_status := Some "success";
     RenewalViews.service_type := Some "DIA" |}.

Definition views0 : RenewalViews.state :=
  {| RenewalViews.doc := Sample.blank; RenewalViews.renewalVplList := None |}.

(** A quote flagged as having a negotiation history, with or without
    its statistics. *)
Definition quote_with_history (name : string) (stats : option Analyze.negotiation_stats)
  : Analyze.quote :=
  {| Analyze.vendor_name := Some name;
     Analyze.gm := Some 42;
     Analyze.mrc := Some 100;
     Analyze.mrc_currency := Some "USD";
     Analyze.bandwidth := Some "100 Mbps";
     Analyze.status := Some "Active";
     Analyze.lead_time := Some "30";
     Analyze.quickbase_id := Some "17";
     Analyze.date_created := None;
     Analyze.has_negotiation_history := true;
     Analyze.negotiation_stats_of := stats;
     Analyze.has_renewal_history := false;
     Analyze.renewal_stats_of := None;
     Analyze.projected_with_negotiation := None;
     Analyze.distance_meters := None;
     Analyze.is_same_vendor := false |}.

Definition stats3 : Analyze.negotiation_stats :=
  {| Analyze.total_negotiations := 3;
     Analyze.ns_success_rate := 50;
     Analyze.ns_avg_discount := 10 |}.

(** A nearby quote of the renewal payload without [mrc]. *)
Definition nearby_without_mrc : Renewal.nearby_quote :=
  {| Renewal.vendor_name := Some "C";
     Renewal.gm := Some 42;
     Renewal.mrc := None;
     Renewal.distance_meters := 50;
     Renewal.is_same_vendor := false;
     Renewal.nq_service_id := None;
     Renewal.nq_bandwidth := None;
     Renewal.nq_service_type := None;
     Renewal.date_created := None |}.

(** The strategy modal before anything was loaded. *)
Definition strategy0 : Strategy.state :=
  {| Strategy.page := Sample.analyze0; Strategy.strategyContent := Strategy.Blank |}.

End Cases.

(* ------------------------------------------------------------------ *)
(** * Properties *)
(* ------------------------------------------------------------------ *)

(** ** The model on concrete values *)

Example toFixed_half : JS.toFixed 1 (500 / 1000) = "0.5".
Proof. reflexivity. Qed.

Example toFixed_rounds : JS.toFixed 1 (1234 / 1000) = "1.2".
Proof. reflexivity. Qed.

Example toFixed_negative : JS.toFixed 2 (- (5 # 1000)) = "-0.01".
Proof. reflexivity. Qed.

Example toFixed_integer : JS.toFixed 1 15 = "15.0".
Proof. reflexivity. Qed.

Example trim_both_ends : JS.trim "  ab c  " = "ab c".
Proof. reflexivity. Qed.

Example renewal_row_example :
  Vendor.renewal_row (Sample.renewal_with (Some 15))
  = "<tr><td><strong>SVC-1</strong></td><td>2025-01-31</td><td>100.00 USD</td>"
    ++ "<td>85.00 USD</td><td><span class=" ++ JS.dq ++ "badge bg-info" ++ JS.dq
    ++ ">15.0%</span></td><td>Renewed</td></tr>".
Proof. reflexivity. Qed.

(** ** Comparisons on numbers *)

Lemma num_ge_true (a b : Q) : JS.num_ge a b = true <-> b <= a.
Proof. unfold JS.num_ge. apply Qle_bool_iff. Qed.

Lemma num_ge_false (a b : Q) : JS.num_ge a b = false <-> a < b.
Proof.
  unfold JS.num_ge. split; intro H.
  - apply Qnot_le_lt. intro Hle. apply Qle_bool_iff in Hle. congruence.
  - destruct (Qle_bool b a) eqn:E; [|reflexivity].
    apply Qle_bool_iff in E. exfalso. exact (Qlt_not_le _ _ H E).
Qed.

Lemma num_gt_true (a b : Q) : JS.num_gt a b = true <-> b < a.
Proof.
  unfold JS.num_gt. rewrite negb_true_iff. apply (num_ge_false b a).
Qed.

Lemma num_gt_false (a b : Q) : JS.num_gt a b = false <-> a <= b.
Proof.
  unfold JS.num_gt. rewrite negb_false_iff. apply (num_ge_true b a).
Qed.

Lemma truthy_num_true (x : Q) : JS.truthy_num x = true <-> ~ x == 0.
Proof.
  unfold JS.truthy_num. rewrite negb_true_iff. split; intro H.
  - intro E. apply Qeq_bool_iff in E. congruence.
  - destruct (Qeq_bool x 0) eqn:E; [|reflexivity].
    apply Qeq_bool_iff in E. contradiction.
Qed.

(** ** Rounding to a double *)

Lemma pow2_pos (e : Z) : 0 < JS.pow2 e.
Proof. apply Qpower_0_lt. reflexivity. Qed.

Lemma pow2_plus (a b : Z) : JS.pow2 (a + b) == JS.pow2 a * JS.pow2 b.
Proof. apply Qpower_plus. discriminate. Qed.

Lemma pow2_succ (a : Z) : JS.pow2 (a + 1) == 2 * JS.pow2 a.
Proof. rewrite pow2_plus. change (JS.pow2 1) with 2%Q. ring. Qed.

Lemma pow2_Z (z : Z) : (0 <= z)%Z -> JS.pow2 z == inject_Z (2 ^ z).
Proof. intro H. unfold JS.pow2. rewrite Zpower_Qpower by exact H. reflexivity. Qed.

Lemma pow2_le (a b : Z) : (a <= b)%Z -> JS.pow2 a <= JS.pow2 b.
Proof.
  intro H. replace b with (a + (b - a))%Z by lia.
  rewrite pow2_plus.
  assert (H1 : 1 <= JS.pow2 (b - a)).
  { apply Qpower_1_le; [discriminate | lia]. }
  pose proof (pow2_pos a). nra.
Qed.

(** The integer [round_half_even] returns is within one half of its
    argument. *)
Lemma round_half_even_near (q : Q) :
  Qabs (inject_Z (JS.round_half_even q) - q) <= 1 # 2.
Proof.
  unfold JS.round_half_even.
  pose proof (Qfloor_le q) as Hl. pose proof (Qlt_floor q) as Hu.
  rewrite inject_Z_plus in Hu. change (inject_Z 1) with 1%Q in Hu.
  apply Qabs_Qle_condition.
  destruct (Qcompare (q - inject_Z (Qfloor q)) (1 # 2)) eqn:E.
  - apply Qeq_alt in E.
    destruct (Z.even (Qfloor q)); [|rewrite inject_Z_plus; change (inject_Z 1) with 1%Q].
    all: split; lra.
  - apply Qlt_alt in E. split; lra.
  - apply Qgt_alt in E. rewrite inject_Z_plus. change (inject_Z 1) with 1%Q.
    split; lra.
Qed.

Lemma round_half_even_nonneg (q : Q) : 0 <= q -> (0 <= JS.round_half_even q)%Z.
Proof.
  intro H. unfold JS.round_half_even.
  assert (H0 : (0 <= Qfloor q)%Z).
  { change 0%Z with (Qfloor 0). apply Qfloor_resp_le. exact H. }
  destruct (Qcompare (q - inject_Z (Qfloor q)) (1 # 2)); [destruct (Z.even (Qfloor q))| |]; lia.
Qed.

(** [ilog2] is the exponent of the binade. *)
Lemma ilog2_spec (x : Q) :
  0 < x -> JS.pow2 (JS.ilog2 x) <= x /\ x < JS.pow2 (JS.ilog2 x + 1).
Proof.
  intro Hx. unfold JS.ilog2.
  destruct x as [n d]. simpl Qnum. simpl Qden.
  assert (Hn : (0 < n)%Z).
  { unfold Qlt in Hx. simpl in Hx. lia. }
  set (a := Z.log2 n). set (b := Z.log2 (Z.pos d)).
  destruct (Z.log2_spec n Hn) as [Ha1 Ha2]. fold a in Ha1, Ha2.
  destruct (Z.log2_spec (Z.pos d) ltac:(lia)) as [Hb1 Hb2]. fold b in Hb1, Hb2.
  assert (Ha0 : (0 <= a)%Z) by apply Z.log2_nonneg.
  assert (Hb0 : (0 <= b)%Z) by apply Z.log2_nonneg.
  assert (HA : JS.pow2 a == inject_Z (2 ^ a)) by (apply pow2_Z; exact Ha0).
  assert (HB : JS.pow2 b == inject_Z (2 ^ b)) by (apply pow2_Z; exact Hb0).
  assert (HP : JS.pow2 (a - b) * JS.pow2 b == JS.pow2 a).
  { rewrite <- pow2_plus. replace (a - b + b)%Z with a by lia. reflexivity. }
  pose proof (pow2_pos (a - b)) as HPpos.
  pose proof (pow2_pos b) as HBpos.
  assert (HxD : (n # d) * inject_Z (Z.pos d) == inject_Z n).
  { unfold Qeq, Qmult, inject_Z. simpl. lia. }
  assert (HD : 0 < inject_Z (Z.pos d)) by (unfold Qlt, inject_Z; simpl; lia).
  assert (Hn1 : inject_Z (2 ^ a) <= inject_Z n) by (rewrite <- Zle_Qle; exact Ha1).
  assert (Hn2 : inject_Z n < inject_Z (2 ^ Z.succ a)) by (rewrite <- Zlt_Qlt; exact Ha2).
  assert (Hd1 : inject_Z (2 ^ b) <= inject_Z (Z.pos d)) by (rewrite <- Zle_Qle; exact Hb1).
  assert (Hd2 : inject_Z (Z.pos d) < inject_Z (2 ^ Z.succ b)) by (rewrite <- Zlt_Qlt; exact Hb2).
  rewrite Z.pow_succ_r in Hn2, Hd2 by assumption.
  rewrite inject_Z_mult in Hn2, Hd2. change (inject_Z 2) with 2%Q in Hn2, Hd2.
  rewrite <- HA in Hn1, Hn2. rewrite <- HB in Hd1, Hd2.
  set (X := n # d) in *. set (D := inject_Z (Z.pos d)) in *. set (N := inject_Z n) in *.
  set (P := JS.pow2 (a - b)) in *. set (B := JS.pow2 b) in *. set (A := JS.pow2 a) in *.
  destruct (Qle_bool P X) eqn:E.
  - apply Qle_bool_iff in E. split; [exact E|].
    rewrite pow2_succ. fold P. nra.
  - assert (E' : X < P).
    { apply Qnot_le_lt. intro H. apply Qle_bool_iff in H. congruence. }
    replace (a - b - 1 + 1)%Z with (a - b)%Z by lia. fold P. split; [|exact E'].
    assert (HP1 : 2 * JS.pow2 (a - b - 1) == P).
    { rewrite <- pow2_succ. replace (a - b - 1 + 1)%Z with (a - b)%Z by lia. reflexivity. }
    nra.
Qed.

Lemma ilog2_ge (x : Q) (k : Z) : 0 < x -> JS.pow2 k <= x -> (k <= JS.ilog2 x)%Z.
Proof.
  intros Hx Hk. destruct (ilog2_spec x Hx) as [_ Hu].
  destruct (Z_le_gt_dec k (JS.ilog2 x)) as [H|H]; [exact H|].
  exfalso. assert (Hle : JS.pow2 (JS.ilog2 x + 1) <= JS.pow2 k) by (apply pow2_le; lia).
  lra.
Qed.

Lemma ilog2_lt (x : Q) (k : Z) : 0 < x -> x < JS.pow2 k -> (JS.ilog2 x < k)%Z.
Proof.
  intros Hx Hk. destruct (ilog2_spec x Hx) as [Hl _].
  destruct (Z_lt_ge_dec (JS.ilog2 x) k) as [H|H]; [exact H|].
  exfalso. assert (Hle : JS.pow2 k <= JS.pow2 (JS.ilog2 x)) by (apply pow2_le; lia).
  lra.
Qed.


Lemma double_abs_nonneg (x : Q) : 0 < x -> 0 <= JS.double_abs x.
Proof.
  intro Hx. unfold JS.double_abs.
  set (e := Z.max (JS.ilog2 x - 52) (-1074)).
  pose proof (pow2_pos e) as HP.
  assert (H : (0 <= JS.round_half_even (x / JS.pow2 e))%Z).
  { apply round_half_even_nonneg. apply Qle_shift_div_l; [exact HP | lra]. }
  rewrite Zle_Qle in H. change (inject_Z 0) with 0%Q in H. nra.
Qed.





(** *** A double rounds to itself *)

Lemma ilog2_unique (x : Q) (k : Z) :
  JS.pow2 k <= x -> x < JS.pow2 (k + 1) -> JS.ilog2 x = k.
Proof.
  intros Hl Hu. pose proof (pow2_pos k) as Hk.
  assert (Hx : 0 < x) by lra.
  pose proof (ilog2_ge x k Hx Hl). pose proof (ilog2_lt x (k + 1) Hx Hu). lia.
Qed.

Lemma ilog2_comp (x y : Q) : 0 < x -> x == y -> JS.ilog2 x = JS.ilog2 y.
Proof.
  intros Hx E. destruct (ilog2_spec x Hx) as [Hl Hu].
  symmetry. apply ilog2_unique; rewrite <- E; assumption.
Qed.

Lemma round_half_even_int (q : Q) (k : Z) : q == inject_Z k -> JS.round_half_even q = k.
Proof.
  intro E. unfold JS.round_half_even.
  assert (Ef : Qfloor q = k) by (rewrite (Qfloor_comp _ _ E); apply Qfloor_Z).
  rewrite Ef.
  assert (Ec : Qcompare (q - inject_Z k) (1 # 2) = Lt).
  { apply Qlt_alt. rewrite E. unfold Qminus. rewrite Qplus_opp_r. reflexivity. }
  rewrite Ec. reflexivity.
Qed.

Lemma round_half_even_comp (p q : Q) :
  p == q -> JS.round_half_even p = JS.round_half_even q.
Proof.
  intro E. unfold JS.round_half_even. rewrite (Qfloor_comp _ _ E).
  assert (Ec : Qcompare (p - inject_Z (Qfloor q)) (1 # 2)
               = Qcompare (q - inject_Z (Qfloor q)) (1 # 2))
    by (rewrite E; reflexivity).
  rewrite Ec. reflexivity.
Qed.

Lemma double_abs_comp (x y : Q) : 0 < x -> x == y -> JS.double_abs x == JS.double_abs y.
Proof.
  intros Hx E. unfold JS.double_abs. rewrite (ilog2_comp x y Hx E).
  rewrite (round_half_even_comp (x / JS.pow2 (Z.max (JS.ilog2 y - 52) (-1074)))
             (y / JS.pow2 (Z.max (JS.ilog2 y - 52) (-1074)))) by (rewrite E; reflexivity).
  reflexivity.
Qed.

(** The significand of the double nearest to [x > 0] has 53 bits at most. *)
Lemma significand_bound (x : Q) :
  0 < x ->
  (0 <= JS.round_half_even (x / JS.pow2 (Z.max (JS.ilog2 x - 52) (-1074))) <= 2 ^ 53)%Z.
Proof.
  intro Hx. set (e := Z.max (JS.ilog2 x - 52) (-1074)).
  pose proof (pow2_pos e) as HP.
  split.
  - apply round_half_even_nonneg. apply Qle_shift_div_l; [exact HP | lra].
  - destruct (ilog2_spec x Hx) as [_ Hu].
    assert (Hle : JS.pow2 (JS.ilog2 x + 1) <= JS.pow2 (53 + e)) by (apply pow2_le; lia).
    assert (H53 : JS.pow2 (53 + e) == inject_Z (2 ^ 53) * JS.pow2 e).
    { rewrite pow2_plus. apply Qmult_comp; [apply pow2_Z; lia | reflexivity]. }
    assert (Hy : x / JS.pow2 e < inject_Z (2 ^ 53)).
    { apply Qlt_shift_div_r; [exact HP | lra]. }
    pose proof (round_half_even_near (x / JS.pow2 e)) as Hr.
    apply Qabs_Qle_condition in Hr.
    apply Z.lt_succ_r. rewrite Zlt_Qlt. unfold Z.succ. rewrite inject_Z_plus.
    change (inject_Z 1) with 1%Q. lra.
Qed.

(** A multiple [m * 2^e] of a unit in the last place, with a significand
    of 53 bits at most and [e] no less than -1074, is the double nearest
    to itself. *)
Lemma double_abs_fixed (m e : Z) :
  (0 < m <= 2 ^ 53)%Z -> (-1074 <= e)%Z ->
  JS.double_abs (inject_Z m * JS.pow2 e) == inject_Z m * JS.pow2 e.
Proof.
  intros Hm He. pose proof (pow2_pos e) as HP.
  assert (Hm0 : 0 < inject_Z m)
    by (change 0%Q with (inject_Z 0); rewrite <- Zlt_Qlt; lia).
  set (y := inject_Z m * JS.pow2 e).
  assert (Hy : 0 < y) by (unfold y; nra).
  assert (H53 : JS.pow2 (53 + e) == inject_Z (2 ^ 53) * JS.pow2 e).
  { rewrite pow2_plus. apply Qmult_comp; [apply pow2_Z; lia | reflexivity]. }
  destruct (Z.eq_dec m (2 ^ 53)) as [Em|Nm].
  - assert (Ey : y == JS.pow2 (53 + e)) by (unfold y; rewrite H53, Em; reflexivity).
    assert (El : JS.ilog2 y = (53 + e)%Z).
    { apply ilog2_unique; rewrite Ey; [apply Qle_refl|].
      rewrite (pow2_succ (53 + e)). pose proof (pow2_pos (53 + e)). lra. }
    unfold JS.double_abs. fold y. rewrite El.
    replace (Z.max (53 + e - 52) (-1074)) with (e + 1)%Z by lia.
    assert (Eq : y / JS.pow2 (e + 1) == inject_Z (2 ^ 52)).
    { rewrite Ey, H53, pow2_succ. change (inject_Z (2 ^ 53)) with (2 * inject_Z (2 ^ 52)).
      field. lra. }
    rewrite (round_half_even_int _ _ Eq).
    rewrite Ey, H53, pow2_succ. change (inject_Z (2 ^ 53)) with (2 * inject_Z (2 ^ 52)).
    ring.
  - assert (Hlt : y < JS.pow2 (53 + e)).
    { unfold y. rewrite H53.
      assert (inject_Z m < inject_Z (2 ^ 53)) by (rewrite <- Zlt_Qlt; lia). nra. }
    pose proof (ilog2_lt y (53 + e) Hy Hlt) as Hl.
    unfold JS.double_abs. fold y.
    set (e' := Z.max (JS.ilog2 y - 52) (-1074)).
    assert (He' : (e' <= e)%Z) by (unfold e'; lia).
    pose proof (pow2_pos e') as HP'.
    assert (Ee : JS.pow2 e == inject_Z (2 ^ (e - e')) * JS.pow2 e').
    { rewrite <- pow2_Z by lia. rewrite <- pow2_plus.
      replace (e - e' + e')%Z with e by lia. reflexivity. }
    assert (Eq : y / JS.pow2 e' == inject_Z (m * 2 ^ (e - e'))).
    { unfold y. rewrite Ee, inject_Z_mult. field. lra. }
    rewrite (round_half_even_int _ _ Eq).
    unfold y. rewrite Ee, inject_Z_mult. ring.
Qed.

Lemma double_abs_idempotent (x : Q) :
  0 < x -> 0 < JS.double_abs x -> JS.double_abs (JS.double_abs x) == JS.double_abs x.
Proof.
  intros Hx Hpos. pose proof (significand_bound x Hx) as [Hm0 Hm].
  unfold JS.double_abs at 2 3. unfold JS.double_abs in Hpos.
  set (e := Z.max (JS.ilog2 x - 52) (-1074)) in *.
  set (m := JS.round_half_even (x / JS.pow2 e)) in *.
  apply double_abs_fixed; [|unfold e; lia].
  split; [|exact Hm].
  destruct (Z.eq_dec m 0) as [E|N]; [|lia].
  exfalso. rewrite E in Hpos. change (inject_Z 0) with 0%Q in Hpos. lra.
Qed.

(** The double nearest to a double is the double: the receiver of
    [toFixed] is the quotient as the division has rounded it. *)
Lemma double_idempotent (x : Q) : JS.double (JS.double x) == JS.double x.
Proof.
  unfold JS.double at 2 3.
  destruct (Qcompare x 0) eqn:E.
  - reflexivity.
  - apply Qlt_alt in E. assert (Hx : 0 < - x) by lra.
    pose proof (double_abs_nonneg (- x) Hx) as H0.
    unfold JS.double.
    destruct (Qcompare (- JS.double_abs (- x)) 0) eqn:E2.
    + apply Qeq_alt in E2. rewrite E2. reflexivity.
    + apply Qlt_alt in E2.
      assert (Hp : 0 < JS.double_abs (- x)) by lra.
      rewrite (double_abs_comp (- - JS.double_abs (- x)) (JS.double_abs (- x)))
        by (try lra; ring).
      rewrite (double_abs_idempotent (- x) Hx Hp). reflexivity.
    + apply Qgt_alt in E2. lra.
  - apply Qgt_alt in E.
    pose proof (double_abs_nonneg x E) as H0.
    unfold JS.double.
    destruct (Qcompare (JS.double_abs x) 0) eqn:E2.
    + apply Qeq_alt in E2. rewrite E2. reflexivity.
    + apply Qlt_alt in E2. lra.
    + apply Qgt_alt in E2. apply double_abs_idempotent; assumption.
Qed.

(** [JS.div] on whole numbers of meters and the division of binary64
    numbers of the Standard Library give the same quotient. *)
Example div_as_binary64 :
  forallb (fun d => Qeq_bool (JS.div (inject_Z d) 1000) (Binary64.div d 1000))
    [0; 1; 49; 50; 150; 250; 350; 450; 850; 950; 1150; 12345; 99999;
     123456789; 9007199254740991]%Z
  = true.
Proof. vm_compute. reflexivity. Qed.

(** [toFixed] formats the double: 8.45 is the double just below it, 1.005
    likewise, and 2.5 is a tie that goes up. *)
Example toFixed_of_doubles :
  JS.toFixed 1 (845 # 100) = "8.4"
  /\ JS.toFixed 2 (1005 # 1000) = "1.00"
  /\ JS.toFixed 0 (25 # 10) = "3"
  /\ JS.toFixed 2 (1 # 3) = "0.33".
Proof. vm_compute. repeat split. Qed.

(** ** The text of [toFixed] *)

Lemma string_length_app (s1 s2 : string) :
  String.length (s1 ++ s2) = (String.length s1 + String.length s2)%nat.
Proof. induction s1 as [|c r IH]; simpl; [reflexivity | rewrite IH; reflexivity]. Qed.









(** ** The division by 1000 and the distance it shows *)








(** ** The margin tiers (C1) *)

Section MarginTiers.

Variable m : Q.

(** The three outcomes of the two comparisons against 50 and 40. *)
Lemma margin_cases :
  (50 <= m /\ JS.num_ge m 50 = true)
  \/ (40 <= m /\ m < 50 /\ JS.num_ge m 50 = false /\ JS.num_ge m 40 = true)
  \/ (m < 40 /\ JS.num_ge m 50 = false /\ JS.num_ge m 40 = false).
Proof.
  destruct (JS.num_ge m 50) eqn:H50.
  - left. split; [apply num_ge_true; exact H50 | reflexivity].
  - right. apply num_ge_false in H50.
    destruct (JS.num_ge m 40) eqn:H40.
    + left. apply num_ge_true in H40. auto.
    + right. apply num_ge_false in H40. auto.
Qed.

Lemma lt_40_lt_50 : m < 40 -> m < 50.
Proof. intro H. apply Qlt_trans with 40; [exact H | reflexivity]. Qed.

Lemma ge_50_ge_40 : 50 <= m -> 40 <= m.
Proof. intro H. apply Qle_trans with 50; [discriminate | exact H]. Qed.

End MarginTiers.

(** Two comparisons that contradict each other. *)
Ltac q_contra :=
  exfalso;
  match goal with
  | H1 : ?a < ?b, H2 : ?b <= ?a |- _ => exact (Qlt_not_le _ _ H1 H2)
  end.

Ltac margin_tiers m :=
  destruct (margin_cases m) as [[H50 E50] | [[H40 [H50 [E50 E40]]] | [H40 [E50 E40]]]];
  try rewrite E50; try rewrite E40;
  try (pose proof (lt_40_lt_50 m H40));
  try (pose proof (ge_50_ge_40 m H50));
  repeat split; intros;
  repeat match goal with H : _ /\ _ |- _ => destruct H end;
  try reflexivity; try discriminate; try assumption; try q_contra.

(** C1. For every margin [m], [getGMStatusText] answers Excellent exactly
    when [m >= 50], Acceptable exactly when [40 <= m < 50] and Needs Action
    exactly when [m < 40]; 40 is Acceptable and 50 is Excellent; and the
    colour class of [getGMStatusClass] follows the same three intervals. *)
Theorem margin_classification (m : Q) :
  (Utils.getGMStatusText m = "Excellent" <-> 50 <= m)
  /\ (Utils.getGMStatusText m = "Acceptable" <-> 40 <= m /\ m < 50)
  /\ (Utils.getGMStatusText m = "Needs Action" <-> m < 40)
  /\ Utils.getGMStatusText 40 = "Acceptable"
  /\ Utils.getGMStatusText 50 = "Excellent"
  /\ (Utils.getGMStatusClass m = "bg-success" <-> 50 <= m)
  /\ (Utils.getGMStatusClass m = "bg-warning" <-> 40 <= m /\ m < 50)
  /\ (Utils.getGMStatusClass m = "bg-danger" <-> m < 40).
Proof.
  unfold Utils.getGMStatusText, Utils.getGMStatusClass.
  margin_tiers m.
Qed.

(** ** The discount tier of a renewal row (C7) *)

(** C7, as stated, fails: a row whose discount is exactly 15 gets the
    medium class [info], where the specification puts the high tier. *)
Lemma discount_tier_at_15 :
  Vendor.row_discount (Sample.renewal_with (Some 15)) == 15
  /\ Spec.discount_tier 15 = "success"
  /\ Vendor.row_discountClass (Sample.renewal_with (Some 15)) = "info".
Proof. repeat split. Qed.

(** C7, amended. For every row of the renewal history table, with the
    discount read as 0 when it is absent, the class of the badge is the
    high one exactly when the discount is above 15, the medium one exactly
    when it is above 5 and at most 15, and the neutral one exactly when it
    is at most 5. *)
Theorem discount_tier_strict (r : Vendor.renewal) :
  (Vendor.row_discountClass r = "success" <-> 15 < Vendor.row_discount r)
  /\ (Vendor.row_discountClass r = "info"
      <-> 5 < Vendor.row_discount r /\ Vendor.row_discount r <= 15)
  /\ (Vendor.row_discountClass r = "secondary" <-> Vendor.row_discount r <= 5)
  /\ Vendor.row_discount r = JS.num_or (Vendor.discount_percent r) 0.
Proof.
  assert (Habsent : Vendor.row_discount r = JS.num_or (Vendor.discount_percent r) 0)
    by reflexivity.
  revert Habsent.
  unfold Vendor.row_discountClass, Vendor.discountClass.
  generalize (Vendor.row_discount r) as d. intros d Habsent.
  assert (H515 : (5 : Q) <= 15) by discriminate.
  destruct (JS.num_gt d 15) eqn:E15.
  - apply num_gt_true in E15.
    assert (5 < d) by (apply Qle_lt_trans with 15; assumption).
    repeat split; intros;
      repeat match goal with H : _ /\ _ |- _ => destruct H end;
      try reflexivity; try discriminate; try assumption; try q_contra; auto.
  - apply num_gt_false in E15.
    destruct (JS.num_gt d 5) eqn:E5.
    + apply num_gt_true in E5.
      repeat split; intros;
        repeat match goal with H : _ /\ _ |- _ => destruct H end;
        try reflexivity; try discriminate; try assumption; try q_contra; auto.
    + apply num_gt_false in E5.
      assert (d <= 15) by (apply Qle_trans with 5; assumption).
      repeat split; intros;
        repeat match goal with H : _ /\ _ |- _ => destruct H end;
        try reflexivity; try discriminate; try assumption; try q_contra; auto.
Qed.

(** ** The distance badge (C6) *)

(** The division is the division of doubles: 150 meters are the double
    just below 0.15 and show as 0.1, 250 meters are 0.25 exactly, a tie that
    goes up, and 350 meters show as 0.3. *)
Example distance_badge_of_doubles :
  map (fun d => Renewal.distanceBadge (Sample.nearby_with "Acme" false d))
      [0; 49; 150; 250; 350; 1150; 12345]
  = map JS.KmAway ["0.0"; "0.0"; "0.1"; "0.3"; "0.3"; "1.1"; "12.3"].
Proof. vm_compute. reflexivity. Qed.



(** ** The order of the nearby quotes (C5) *)

Section SortSpec.

Context {A : Type}.
Variable compare : A -> A -> Q.

(** [before a b]: the order allows [a] in front of [b]. *)
Variable before : A -> A -> Prop.
Hypothesis before_trans : forall a b c, before a b -> before b c -> before a c.
Hypothesis compare_le : forall a b, JS.num_gt (compare a b) 0 = false -> before a b.
Hypothesis compare_gt : forall a b, JS.num_gt (compare a b) 0 = true -> before b a.

Lemma sort_insert_perm (x : A) (l : list A) :
  Permutation (x :: l) (JS.sort_insert compare x l).
Proof.
  induction l as [|y r IH]; simpl.
  - apply Permutation_refl.
  - destruct (JS.num_gt (compare x y) 0).
    + apply perm_trans with (y :: x :: r); [apply perm_swap|].
      apply perm_skip. exact IH.
    + apply Permutation_refl.
Qed.

Lemma sort_perm (l : list A) : Permutation l (JS.sort compare l).
Proof.
  induction l as [|x r IH]; simpl.
  - apply perm_nil.
  - apply perm_trans with (x :: JS.sort compare r).
    + apply perm_skip. exact IH.
    + apply sort_insert_perm.
Qed.

Lemma sort_insert_sorted (x : A) (l : list A) :
  StronglySorted before l -> StronglySorted before (JS.sort_insert compare x l).
Proof.
  induction 1 as [|y r Hr IH Hy]; simpl.
  - constructor; constructor.
  - destruct (JS.num_gt (compare x y) 0) eqn:E.
    + constructor; [exact IH|].
      apply Forall_forall. intros z Hz.
      apply (Permutation_in z (Permutation_sym (sort_insert_perm x r))) in Hz.
      destruct Hz as [<- | Hz].
      * apply compare_gt. exact E.
      * rewrite Forall_forall in Hy. apply Hy. exact Hz.
    + constructor; [constructor; assumption|].
      constructor; [apply compare_le; exact E|].
      apply Forall_forall. intros z Hz. rewrite Forall_forall in Hy.
      apply before_trans with y; [apply compare_le; exact E | apply Hy; exact Hz].
Qed.

Lemma sort_sorted (l : list A) : StronglySorted before (JS.sort compare l).
Proof.
  induction l as [|x r IH]; simpl.
  - constructor.
  - apply sort_insert_sorted. exact IH.
Qed.

(** Stability.  [p] selects a class of elements that the comparator holds
    equal: the sort keeps the order the class has in the array. *)
Variable p : A -> bool.
Hypothesis p_equal : forall a b, p a = true -> p b = true ->
  JS.num_gt (compare a b) 0 = false.

Lemma sort_insert_filter (x : A) (l : list A) :
  filter p (JS.sort_insert compare x l) = filter p (x :: l).
Proof.
  induction l as [|y r IH]; simpl.
  - reflexivity.
  - destruct (JS.num_gt (compare x y) 0) eqn:E; [|reflexivity].
    simpl. rewrite IH. simpl.
    destruct (p x) eqn:Px; [|reflexivity].
    destruct (p y) eqn:Py; [|reflexivity].
    rewrite (p_equal x y Px Py) in E. discriminate.
Qed.

Lemma sort_stable (l : list A) : filter p (JS.sort compare l) = filter p l.
Proof.
  induction l as [|x r IH]; simpl.
  - reflexivity.
  - rewrite sort_insert_filter. simpl. rewrite IH. reflexivity.
Qed.

End SortSpec.

Lemma nearby_before_trans (a b c : Renewal.nearby_quote) :
  Spec.nearby_before a b -> Spec.nearby_before b c -> Spec.nearby_before a c.
Proof.
  unfold Spec.nearby_before.
  intros [[Ha Hb] | [Hab Dab]] [[Hb' Hc] | [Hbc Dbc]].
  - congruence.
  - left. split; congruence.
  - left. split; congruence.
  - right. split; [congruence | apply Qle_trans with (Renewal.distance_meters b); assumption].
Qed.

Lemma sub_gt_0 (x y : Q) : JS.num_gt (x - y) 0 = true <-> y < x.
Proof.
  rewrite num_gt_true. split; intro H.
  - apply Qplus_lt_l with (z := - y). rewrite Qplus_opp_r. exact H.
  - apply Qplus_lt_l with (z := - y) in H. rewrite Qplus_opp_r in H. exact H.
Qed.

Lemma compareNearby_le (a b : Renewal.nearby_quote) :
  JS.num_gt (Renewal.compareNearby a b) 0 = false -> Spec.nearby_before a b.
Proof.
  unfold Renewal.compareNearby, Spec.nearby_before.
  destruct (Renewal.is_same_vendor a), (Renewal.is_same_vendor b); simpl; intro H.
  - right. split; [reflexivity|].
    destruct (JS.num_gt (Renewal.distance_meters a - Renewal.distance_meters b) 0) eqn:E;
      [discriminate|].
    apply Qnot_lt_le. intro Hlt. apply sub_gt_0 in Hlt. congruence.
  - left. auto.
  - discriminate.
  - right. split; [reflexivity|].
    apply Qnot_lt_le. intro Hlt. apply sub_gt_0 in Hlt. congruence.
Qed.

Lemma compareNearby_gt (a b : Renewal.nearby_quote) :
  JS.num_gt (Renewal.compareNearby a b) 0 = true -> Spec.nearby_before b a.
Proof.
  unfold Renewal.compareNearby, Spec.nearby_before.
  destruct (Renewal.is_same_vendor a), (Renewal.is_same_vendor b); simpl; intro H.
  - right. split; [reflexivity|]. apply sub_gt_0 in H. apply Qlt_le_weak. exact H.
  - discriminate.
  - left. auto.
  - right. split; [reflexivity|]. apply sub_gt_0 in H. apply Qlt_le_weak. exact H.
Qed.

Lemma same_keys_equal (k a b : Renewal.nearby_quote) :
  Spec.same_keys k a = true -> Spec.same_keys k b = true ->
  JS.num_gt (Renewal.compareNearby a b) 0 = false.
Proof.
  unfold Spec.same_keys. rewrite !andb_true_iff.
  intros [Sa Da] [Sb Db].
  apply eqb_prop in Sa. apply eqb_prop in Sb.
  apply Qeq_bool_iff in Da. apply Qeq_bool_iff in Db.
  unfold Renewal.compareNearby. rewrite Sa, Sb, eqb_reflx. simpl.
  apply num_gt_false. rewrite Da, Db. unfold Qminus. rewrite Qplus_opp_r.
  apply Qle_refl.
Qed.

(** ** Equations of the monad *)

Lemma bind_normal {S A B} (m : JS.js S A) (k : A -> JS.js S B) (s s' : S) (a : A) :
  m s = (JS.Normal a, s') -> JS.bind m k s = k a s'.
Proof. intro H. unfold JS.bind. rewrite H. reflexivity. Qed.

Lemma bind_abrupt {S A B} (m : JS.js S A) (k : A -> JS.js S B) (s s' : S) (e : JS.exn) :
  m s = (JS.Abrupt e, s') -> JS.bind m k s = (JS.Abrupt e, s').
Proof. intro H. unfold JS.bind. rewrite H. reflexivity. Qed.


Lemma bind_required_some {S A B} (prop : string) (a : A) (k : A -> JS.js S B) (s : S) :
  JS.bind (JS.required prop (Some a)) k s = k a s.
Proof. reflexivity. Qed.

Lemma forEach_cons {S A} (x : A) (r : list A) (f : A -> JS.js S unit) (s : S) :
  JS.forEach (x :: r) f s
  = match f x s with
    | (JS.Normal _, s') => JS.forEach r f s'
    | (JS.Abrupt e, s') => (JS.Abrupt e, s')
    end.
Proof. reflexivity. Qed.

(** The cards of the renewal view, when every quote has an [mrc]. *)
Lemma build_cards_normal (l : list Renewal.nearby_quote) (st : Renewal.state) :
  Forall (fun q => Renewal.mrc q <> None) l ->
  Renewal.build_cards l st
  = (JS.Normal (map (fun q => Renewal.card_of q (Spec.mrc_of q)) l), st).
Proof.
  induction 1 as [|q r Hq Hr IH]; simpl.
  - reflexivity.
  - unfold JS.bind, Renewal.nearby_quote_card, JS.required, Spec.mrc_of in *.
    destruct (Renewal.mrc q) as [m|]; [|congruence].
    simpl. rewrite IH. reflexivity.
Qed.

(** The card of the service view, when the quote can be rendered. *)
Lemma quote_card_normal (nearby : bool) (vq : Analyze.quote) (st : Analyze.state) :
  (Analyze.has_negotiation_history vq = true -> Analyze.negotiation_stats_of vq <> None) ->
  Analyze.quote_card nearby vq st
  = (JS.Normal (Analyze.card_of (Analyze.currentServiceId st) nearby vq
                  (Spec.negotiations_of vq)), st).
Proof.
  intro H. unfold Analyze.quote_card, Spec.negotiations_of, JS.bind, JS.get_state.
  destruct (Analyze.has_negotiation_history vq); [|reflexivity].
  destruct (Analyze.negotiation_stats_of vq) as [s|]; [reflexivity|].
  exfalso. apply H; reflexivity.
Qed.

Lemma forEach_nearby_cards (l : list Analyze.quote) :
  forall (st : Analyze.state) (acc : list Analyze.card),
  Analyze.nearbyQuotesContainer st = Analyze.Items acc ->
  Forall (fun q => Analyze.has_negotiation_history q = true ->
                   Analyze.negotiation_stats_of q <> None) l ->
  Analyze.nearbyQuotesContainer
    (JS.exec (JS.forEach l (fun vq =>
       JS.bind (Analyze.quote_card true vq) (fun c =>
         JS.modify (Analyze.with_nearbyQuotes (Analyze.append_item c))))) st)
  = Analyze.Items
      (acc ++ map (fun q => Analyze.card_of (Analyze.currentServiceId st) true q
                              (Spec.negotiations_of q)) l)%list.
Proof.
  induction l as [|q r IH]; intros st acc Hacc Hall.
  - simpl. rewrite app_nil_r. exact Hacc.
  - inversion Hall as [|? ? Hq Hr]; subst.
    unfold JS.exec in *.
    rewrite forEach_cons.
    rewrite (bind_normal _ _ _ _ _ (quote_card_normal true q st Hq)).
    unfold JS.modify at 1.
    rewrite (IH _ (acc ++ [Analyze.card_of (Analyze.currentServiceId st) true q
                             (Spec.negotiations_of q)])%list).
    + simpl. rewrite <- app_assoc. reflexivity.
    + simpl. rewrite Hacc. reflexivity.
    + exact Hr.
Qed.

(** C5, as stated, fails in the service view: with B (another vendor,
    100 meters) before A (same vendor, 500 meters) in the payload, the card
    of B is rendered before the card of A. *)
Lemma service_nearby_quotes_in_payload_order :
  Analyze.is_same_vendor Sample.quoteA = true
  /\ Analyze.is_same_vendor Sample.quoteB = false
  /\ Analyze.nearbyQuotesContainer
       (JS.exec (Analyze.displayNearbyQuotes (Some [Sample.quoteB; Sample.quoteA]))
                Sample.analyze0)
     = Analyze.Items
         [Analyze.card_of None true Sample.quoteB None;
          Analyze.card_of None true Sample.quoteA None].
Proof. repeat split. Qed.

(** [displayNearbyQuotes] of the renewal tab on a list with an entry, in
    a body that has its service and its contract line. *)
Lemma renewal_displayNearbyQuotes_body (data : Renewal.payload)
    (q : Renewal.nearby_quote) (r : list Renewal.nearby_quote) (st : Renewal.state) :
  Renewal.nearby_quotes data = Some (q :: r) ->
  Renewal.service data <> None -> Renewal.voc_line data <> None ->
  Renewal.displayNearbyQuotes data st
  = JS.bind (Renewal.build_cards (Renewal.sortedQuotes (q :: r))) (fun cards =>
      JS.bind (JS.modify (Renewal.set_cards cards)) (fun _ =>
        JS.modify (Renewal.with_doc (JS.set_display "renewalNearbyQuotesSection" true))))
      st.
Proof.
  intros Hl Hs Hv. unfold Renewal.displayNearbyQuotes. rewrite Hl.
  destruct (Renewal.service data); [|congruence].
  destruct (Renewal.voc_line data); [|congruence].
  reflexivity.
Qed.

(** C5, amended. On a body that has its service and its contract line
    and whose nearby quotes each have an [mrc], the renewal view renders
    the nearby quotes sorted by the stable two-key order: its cards are
    those of a permutation of the payload list that is sorted with
    same-vendor quotes first and then by ascending distance, quotes with
    equal keys keeping their payload order; in particular A (same vendor,
    500) comes before B (another vendor, 100) whichever comes first in the
    payload.  The service view renders the nearby quotes, each flagged with
    a history carrying its statistics, in the order of the payload. *)
Theorem nearby_quotes_order
    (data : Renewal.payload) (l : list Renewal.nearby_quote) (st : Renewal.state)
    (qs : list Analyze.quote) (ast : Analyze.state) :
  Renewal.nearby_quotes data = Some l -> l <> [] ->
  Renewal.service data <> None -> Renewal.voc_line data <> None ->
  Forall (fun q => Renewal.mrc q <> None) l ->
  qs <> [] ->
  Forall (fun q => Analyze.has_negotiation_history q = true ->
                   Analyze.negotiation_stats_of q <> None) qs ->
  Renewal.renewalNearbyQuotesContainer (JS.exec (Renewal.displayNearbyQuotes data) st)
  = map (fun q => Renewal.card_of q (Spec.mrc_of q)) (Renewal.sortedQuotes l)
  /\ Permutation l (Renewal.sortedQuotes l)
  /\ StronglySorted Spec.nearby_before (Renewal.sortedQuotes l)
  /\ (forall k, filter (Spec.same_keys k) (Renewal.sortedQuotes l)
                = filter (Spec.same_keys k) l)
  /\ Renewal.sortedQuotes [Sample.nearbyA; Sample.nearbyB] = [Sample.nearbyA; Sample.nearbyB]
  /\ Renewal.sortedQuotes [Sample.nearbyB; Sample.nearbyA] = [Sample.nearbyA; Sample.nearbyB]
  /\ Analyze.nearbyQuotesContainer (JS.exec (Analyze.displayNearbyQuotes (Some qs)) ast)
     = Analyze.Items
         (map (fun q => Analyze.card_of (Analyze.currentServiceId ast) true q
                          (Spec.negotiations_of q)) qs).
Proof.
  intros Hdata Hl Hsvc Hvoc Hmrc Hqs Hren.
  assert (Hperm : Permutation l (Renewal.sortedQuotes l)) by apply sort_perm.
  split; [|split; [exact Hperm|split; [|split; [|split; [|split]]]]].
  - destruct l as [|q r]; [congruence|].
    unfold JS.exec.
    rewrite (renewal_displayNearbyQuotes_body data q r st Hdata Hsvc Hvoc).
    unfold JS.bind.
    rewrite build_cards_normal; [reflexivity|].
    apply (Permutation_Forall Hperm). exact Hmrc.
  - apply sort_sorted.
    + exact nearby_before_trans.
    + exact compareNearby_le.
    + exact compareNearby_gt.
  - intro k. apply sort_stable. apply same_keys_equal.
  - reflexivity.
  - reflexivity.
  - unfold Analyze.displayNearbyQuotes.
    destruct qs as [|q r]; [congruence|].
    unfold JS.exec. unfold JS.bind at 1. unfold JS.modify at 1.
    pose proof (forEach_nearby_cards (q :: r)
                  (Analyze.with_nearbyQuotes (fun _ => Analyze.Items []) ast) []
                  eq_refl Hren) as H.
    unfold JS.exec in H. exact H.
Qed.

(** C5 on the payload of the specification, B before A, in a body with
    its service and its contract line: the renewal view renders A first, the
    service view B first. *)
Lemma nearby_quotes_order_witness :
  Renewal.renewalNearbyQuotesContainer
    (JS.exec (Renewal.displayNearbyQuotes
                (Sample.renewal_with_nearby (Some [Sample.nearbyB; Sample.nearbyA])))
             Sample.renewal0)
  = [Renewal.card_of Sample.nearbyA 100; Renewal.card_of Sample.nearbyB 100]
  /\ Analyze.nearbyQuotesContainer
       (JS.exec (Analyze.displayNearbyQuotes (Some [Sample.quoteB; Sample.quoteA]))
                Sample.analyze0)
     = Analyze.Items [Analyze.card_of None true Sample.quoteB None;
                      Analyze.card_of None true Sample.quoteA None].
Proof.
  destruct (nearby_quotes_order
              (Sample.renewal_with_nearby (Some [Sample.nearbyB; Sample.nearbyA]))
              [Sample.nearbyB; Sample.nearbyA] Sample.renewal0
              [Sample.quoteB; Sample.quoteA] Sample.analyze0)
    as (Hr & _ & _ & _ & _ & _ & Ha).
  - reflexivity.
  - discriminate.
  - discriminate.
  - discriminate.
  - repeat constructor; discriminate.
  - discriminate.
  - repeat constructor; discriminate.
  - split; [exact Hr | exact Ha].
Defined.

(** ** The quote cards of the service tab *)

Lemma quote_ok_renders (vq : Analyze.quote) :
  Props.quote_ok vq = true ->
  Analyze.has_negotiation_history vq = true -> Analyze.negotiation_stats_of vq <> None.
Proof.
  unfold Props.quote_ok. intros H Hh. rewrite Hh in H. simpl in H.
  destruct (Analyze.negotiation_stats_of vq); [discriminate | discriminate].
Qed.

Lemma with_vendorQuotes_append (c : Analyze.card) (acc : list Analyze.card)
    (st : Analyze.state) :
  Analyze.with_vendorQuotes (Analyze.append_item c)
    (Analyze.with_vendorQuotes (fun _ => Analyze.Items acc) st)
  = Analyze.with_vendorQuotes (fun _ => Analyze.Items (acc ++ [c])) st.
Proof. reflexivity. Qed.

Lemma with_nearbyQuotes_append (c : Analyze.card) (acc : list Analyze.card)
    (st : Analyze.state) :
  Analyze.with_nearbyQuotes (Analyze.append_item c)
    (Analyze.with_nearbyQuotes (fun _ => Analyze.Items acc) st)
  = Analyze.with_nearbyQuotes (fun _ => Analyze.Items (acc ++ [c])) st.
Proof. reflexivity. Qed.

(** The loop of [displayVendorQuotes] over quotes that can be rendered:
    it returns, and it has changed the container only, appending one card
    for each quote. *)
Lemma forEach_vendor_rendered (l : list Analyze.quote) :
  forall (st : Analyze.state) (acc : list Analyze.card),
  forallb Props.quote_ok l = true ->
  JS.forEach l (fun vq =>
    JS.bind (Analyze.quote_card false vq) (fun c =>
      JS.modify (Analyze.with_vendorQuotes (Analyze.append_item c))))
    (Analyze.with_vendorQuotes (fun _ => Analyze.Items acc) st)
  = (JS.Normal tt,
     Analyze.with_vendorQuotes
       (fun _ => Analyze.Items
          (acc ++ map (fun q => Analyze.card_of (Analyze.currentServiceId st) false q
                                  (Spec.negotiations_of q)) l)%list) st).
Proof.
  induction l as [|q r IH]; intros st acc Hall.
  - simpl. rewrite app_nil_r. reflexivity.
  - simpl in Hall. apply andb_true_iff in Hall. destruct Hall as [Hq Hr].
    rewrite forEach_cons.
    rewrite (bind_normal _ _ _ _ _
               (quote_card_normal false q _ (quote_ok_renders q Hq))).
    unfold JS.modify at 1. rewrite with_vendorQuotes_append.
    rewrite (IH st _ Hr). simpl. rewrite <- app_assoc. reflexivity.
Qed.

Lemma forEach_nearby_rendered (l : list Analyze.quote) :
  forall (st : Analyze.state) (acc : list Analyze.card),
  forallb Props.quote_ok l = true ->
  JS.forEach l (fun vq =>
    JS.bind (Analyze.quote_card true vq) (fun c =>
      JS.modify (Analyze.with_nearbyQuotes (Analyze.append_item c))))
    (Analyze.with_nearbyQuotes (fun _ => Analyze.Items acc) st)
  = (JS.Normal tt,
     Analyze.with_nearbyQuotes
       (fun _ => Analyze.Items
          (acc ++ map (fun q => Analyze.card_of (Analyze.currentServiceId st) true q
                                  (Spec.negotiations_of q)) l)%list) st).
Proof.
  induction l as [|q r IH]; intros st acc Hall.
  - simpl. rewrite app_nil_r. reflexivity.
  - simpl in Hall. apply andb_true_iff in Hall. destruct Hall as [Hq Hr].
    rewrite forEach_cons.
    rewrite (bind_normal _ _ _ _ _
               (quote_card_normal true q _ (quote_ok_renders q Hq))).
    unfold JS.modify at 1. rewrite with_nearbyQuotes_append.
    rewrite (IH st _ Hr). simpl. rewrite <- app_assoc. reflexivity.
Qed.

(** [displayVendorQuotes] and [displayNearbyQuotes] on quotes that can be
    rendered: the container is emptied and filled, nothing else changes. *)
Lemma displayVendorQuotes_renders (l : option (list Analyze.quote)) (st : Analyze.state) :
  forallb Props.quote_ok (Props.items l) = true ->
  Analyze.displayVendorQuotes l st
  = (JS.Normal tt,
     Analyze.with_vendorQuotes
       (fun _ => Props.rendered false Analyze.no_vendor_quotes
                   (Analyze.currentServiceId st) (Props.items l)) st).
Proof.
  intro H. unfold Analyze.displayVendorQuotes.
  destruct l as [[|q r]|]; try reflexivity.
  unfold JS.bind at 1. unfold JS.modify at 1.
  rewrite (forEach_vendor_rendered (q :: r) st [] H). reflexivity.
Qed.

Lemma displayNearbyQuotes_renders (l : option (list Analyze.quote)) (st : Analyze.state) :
  forallb Props.quote_ok (Props.items l) = true ->
  Analyze.displayNearbyQuotes l st
  = (JS.Normal tt,
     Analyze.with_nearbyQuotes
       (fun _ => Props.rendered true Analyze.no_nearby_quotes
                   (Analyze.currentServiceId st) (Props.items l)) st).
Proof.
  intro H. unfold Analyze.displayNearbyQuotes.
  destruct l as [[|q r]|]; try reflexivity.
  unfold JS.bind at 1. unfold JS.modify at 1.
  rewrite (forEach_nearby_rendered (q :: r) st [] H). reflexivity.
Qed.

(** ** The best-case projection block (C8) *)

(** The condition of the template:
    [proj.best_discount && proj.best_discount > proj.avg_discount]. *)
Lemma shows_best_case_spec (proj : Analyze.projection) :
  Analyze.shows_best_case proj = true
  <-> exists best, Analyze.best_discount proj = Some best
                   /\ ~ best == 0
                   /\ Analyze.avg_discount proj < best.
Proof.
  unfold Analyze.shows_best_case.
  destruct (Analyze.best_discount proj) as [best|].
  - rewrite andb_true_iff, num_gt_true, truthy_num_true. split.
    + intros [H0 H]. exists best. auto.
    + intros [b [Hb [H0 H]]]. injection Hb as <-. auto.
  - split; [discriminate|]. intros [b [Hb _]]. discriminate.
Qed.

(** C8, as stated, fails.  A best-case discount of 0 strictly exceeds an
    average-case discount of -5, and the card has no best-case block: the
    template tests the best-case discount for truthiness first.  And a quote
    with a projection whose best case is above its average gets no card at
    all, and so no block, when a quote before it in the list is flagged as
    having a negotiation history and carries no statistics. *)
Lemma best_case_zero_omitted :
  Analyze.avg_discount (Sample.projection_with (- (5)) (Some 0)) < 0
  /\ Analyze.vendorQuotesContainer
       (JS.exec (Analyze.displayVendorQuotes
                   (Some [Sample.quote_with false None
                            (Some (Sample.projection_with (- (5)) (Some 0)))]))
                Sample.analyze0)
     = Analyze.Items
         [Analyze.card_of None false
            (Sample.quote_with false None
               (Some (Sample.projection_with (- (5)) (Some 0)))) None]
  /\ Analyze.card_best_case
       (Analyze.card_of None false
          (Sample.quote_with false None
             (Some (Sample.projection_with (- (5)) (Some 0)))) None)
     = None
  /\ Analyze.vendorQuotesContainer
       (JS.exec (Analyze.displayVendorQuotes
                   (Some [Cases.quote_with_history "B" None;
                          Sample.quote_with false None
                            (Some (Sample.projection_with 10 (Some 15)))]))
                Sample.analyze0)
     = Analyze.Items [].
Proof. repeat split. Qed.

(** C8, amended. For every list of quotes that can be rendered -- each
    quote flagged as having a negotiation history carries its statistics --
    [displayVendorQuotes] and [displayNearbyQuotes] write one card for each
    quote, in the order of the list; and for every quote carrying a
    projection, the best-case block of its card is rendered exactly when the
    projection has a best-case discount that is not zero and is strictly
    above the average-case one; with the two equal there is no best-case
    block. *)
Theorem best_case_block_iff (qs : list Analyze.quote) (st : Analyze.state) :
  forallb Props.quote_ok qs = true ->
  Analyze.vendorQuotesContainer (JS.exec (Analyze.displayVendorQuotes (Some qs)) st)
  = Props.rendered false Analyze.no_vendor_quotes (Analyze.currentServiceId st) qs
  /\ Analyze.nearbyQuotesContainer (JS.exec (Analyze.displayNearbyQuotes (Some qs)) st)
     = Props.rendered true Analyze.no_nearby_quotes (Analyze.currentServiceId st) qs
  /\ (forall (vq : Analyze.quote) (proj : Analyze.projection)
             (sid : option string) (nearby : bool) (neg : option (Q * Q)),
        Analyze.projected_with_negotiation vq = Some proj ->
        (Analyze.card_best_case (Analyze.card_of sid nearby vq neg) <> None
         <-> exists best, Analyze.best_discount proj = Some best
                          /\ ~ best == 0
                          /\ Analyze.avg_discount proj < best)
        /\ (forall best, Analyze.best_discount proj = Some best ->
              best == Analyze.avg_discount proj ->
              Analyze.card_best_case (Analyze.card_of sid nearby vq neg) = None)).
Proof.
  intro Hok. split; [|split].
  - unfold JS.exec. rewrite (displayVendorQuotes_renders (Some qs) st Hok). reflexivity.
  - unfold JS.exec. rewrite (displayNearbyQuotes_renders (Some qs) st Hok). reflexivity.
  - intros vq proj sid nearby neg Hproj.
    unfold Analyze.card_of, Analyze.projection_blocks. simpl. rewrite Hproj. simpl.
    pose proof (shows_best_case_spec proj) as Hspec.
    destruct (Analyze.shows_best_case proj) eqn:E.
    + split.
      * split; [intros _; apply Hspec; reflexivity | discriminate].
      * intros best Hb Heq. exfalso.
        destruct (proj1 Hspec eq_refl) as [b [Hb' [_ Hlt]]].
        rewrite Hb in Hb'. injection Hb' as <-.
        rewrite Heq in Hlt. exact (Qlt_irrefl _ Hlt).
    + split.
      * split; [intro H; exfalso; apply H; reflexivity|].
        intro H. apply Hspec in H. discriminate.
      * reflexivity.
Qed.

(** C8 on a list of two quotes: one whose projection has 10 as average
    and 15 as best case, one whose best case equals its average. *)
Lemma best_case_block_iff_witness :
  map Analyze.card_best_case
    (Props.cards_of
       (Analyze.vendorQuotesContainer
          (JS.exec (Analyze.displayVendorQuotes
                      (Some [Sample.quote_with false None
                               (Some (Sample.projection_with 10 (Some 15)));
                             Sample.quote_with false None
                               (Some (Sample.projection_with 10 (Some 10)))]))
                   Sample.analyze0)))
  = [Some {| Analyze.bb_discount := 15; Analyze.bb_mrc := Some 80;
             Analyze.bb_badge := "bg-success"; Analyze.bb_gm := Some 52 |};
     None].
Proof.
  rewrite (proj1 (best_case_block_iff
                    [Sample.quote_with false None
                       (Some (Sample.projection_with 10 (Some 15)));
                     Sample.quote_with false None
                       (Some (Sample.projection_with 10 (Some 10)))]
                    Sample.analyze0 eq_refl)).
  reflexivity.
Defined.

(** A projection whose best case equals its average has no best-case
    block; one whose best case is higher has it. *)
Example best_case_equal_omitted :
  Analyze.card_best_case
    (Analyze.card_of None true
       (Sample.quote_with false None (Some (Sample.projection_with 10 (Some 10)))) None)
  = None.
Proof. reflexivity. Qed.

Example best_case_higher_shown :
  Analyze.card_best_case
    (Analyze.card_of None true
       (Sample.quote_with false None (Some (Sample.projection_with 10 (Some 15)))) None)
  = Some {| Analyze.bb_discount := 15; Analyze.bb_mrc := Some 80;
            Analyze.bb_badge := "bg-success"; Analyze.bb_gm := Some 52 |}.
Proof. reflexivity. Qed.

(** ** What a computation leaves alone *)

Section Frame.

Context {S X : Type}.
Variable obs : S -> X.

Lemma keeps_ret {A} (a : A) : JS.keeps obs (JS.ret a).
Proof. intro s. reflexivity. Qed.

Lemma keeps_throw {A} (e : JS.exn) : JS.keeps obs (@JS.throw S A e).
Proof. intro s. reflexivity. Qed.

Lemma keeps_get_state : JS.keeps obs (@JS.get_state S).
Proof. intro s. reflexivity. Qed.

Lemma keeps_required {A} (prop : string) (x : option A) : JS.keeps obs (JS.required prop x).
Proof. intro s. destruct x; reflexivity. Qed.

Lemma keeps_modify (f : S -> S) : (forall s, obs (f s) = obs s) -> JS.keeps obs (JS.modify f).
Proof. intros H s. simpl. apply H. Qed.

Lemma keeps_bind {A B} (m : JS.js S A) (k : A -> JS.js S B) :
  JS.keeps obs m -> (forall a, JS.keeps obs (k a)) -> JS.keeps obs (JS.bind m k).
Proof.
  intros Hm Hk s. unfold JS.bind.
  specialize (Hm s). destruct (m s) as [[a|e] s']; simpl in *.
  - rewrite Hk. exact Hm.
  - exact Hm.
Qed.

Lemma keeps_forEach {A} (l : list A) (f : A -> JS.js S unit) :
  (forall x, JS.keeps obs (f x)) -> JS.keeps obs (JS.forEach l f).
Proof.
  intro Hf. induction l as [|x r IH]; simpl.
  - apply keeps_ret.
  - apply keeps_bind; [apply Hf | intros _; exact IH].
Qed.

Lemma keeps_if {A} (b : bool) (m1 m2 : JS.js S A) :
  JS.keeps obs m1 -> JS.keeps obs m2 -> JS.keeps obs (if b then m1 else m2).
Proof. destruct b; auto. Qed.

End Frame.

Ltac keeps_step :=
  first
    [ apply keeps_ret
    | apply keeps_throw
    | apply keeps_get_state
    | apply keeps_required
    | apply keeps_if
    | apply keeps_bind; [|intro]
    | apply keeps_forEach; intro
    | apply keeps_modify; intro; reflexivity ].

(** *** The renderers of the renewal tab *)

Lemma keeps_build_cards {X} (obs : Renewal.state -> X) (l : list Renewal.nearby_quote) :
  JS.keeps obs (Renewal.build_cards l).
Proof.
  induction l as [|q r IH]; simpl.
  - apply keeps_ret.
  - unfold Renewal.nearby_quote_card. repeat keeps_step. exact IH.
Qed.

(** [displayRenewalResults] hides nothing: an element other than the
    five it shows keeps its display. *)
Lemma displayRenewalResults_keeps (id : string) (data : Renewal.payload) :
  id <> "renewalQuickSummary" -> id <> "vocLineInfo" ->
  id <> "renewalNearbyQuotesSection" -> id <> "renewalVplSection" ->
  id <> "renewalResults" ->
  JS.keeps (fun st => JS.display (Renewal.doc st) id) (Renewal.displayRenewalResults data).
Proof.
  intros H1 H2 H3 H4 H5.
  apply String.eqb_neq in H1, H2, H3, H4, H5.
  unfold Renewal.displayRenewalResults, Renewal.displayNearbyQuotes,
    Renewal.displayRecommendations.
  repeat first
    [ keeps_step
    | apply keeps_build_cards
    | apply keeps_modify; intro; simpl; unfold JS.upd;
      rewrite ?H1, ?H2, ?H3, ?H4, ?H5; reflexivity
    | match goal with
      | |- JS.keeps _ (match ?x with _ => _ end) => destruct x
      end ].
Qed.

(** ** The request controllers once the call has settled (C3) *)

(** C3 at a failed call the code lets through.  A response with status
    500 whose JSON body has no error field is a failed call.  The service
    controller tests [response.ok] and reports it: error banner, results
    hidden.  The vendor and the renewal controller do not test the status:
    the vendor controller renders the body as a result (an empty body
    suffices), and so does the renewal controller when the body is
    complete: no error banner, results displayed. *)
Lemma failed_status_rendered_as_result :
  Spec.failed Vendor.error (JS.Resolved false (JS.JsonBody (Sample.vendor_body None)))
  /\ JS.display (Vendor.doc (Vendor.analyzeVendor "Acme"
                   (JS.Resolved false (JS.JsonBody (Sample.vendor_body None)))
                   Sample.vendor0)) "vendorErrorAlert" = false
  /\ JS.display (Vendor.doc (Vendor.analyzeVendor "Acme"
                   (JS.Resolved false (JS.JsonBody (Sample.vendor_body None)))
                   Sample.vendor0)) "vendorResults" = true
  /\ Spec.failed Renewal.error (JS.Resolved false (JS.JsonBody Sample.renewal_complete))
  /\ JS.display (Renewal.doc (Renewal.analyzeRenewal "SVC-1"
                   (JS.Resolved false (JS.JsonBody Sample.renewal_complete))
                   Sample.renewal0)) "renewalErrorAlert" = false
  /\ JS.display (Renewal.doc (Renewal.analyzeRenewal "SVC-1"
                   (JS.Resolved false (JS.JsonBody Sample.renewal_complete))
                   Sample.renewal0)) "renewalResults" = true
  /\ JS.display (Analyze.doc (Analyze.analyzeService "SVC-1"
                   (JS.Resolved false (JS.JsonBody (Sample.analysis_body None [] None)))
                   Sample.analyze0)) "errorAlert" = true
  /\ JS.textContent (Analyze.doc (Analyze.analyzeService "SVC-1"
                   (JS.Resolved false (JS.JsonBody (Sample.analysis_body None [] None)))
                   Sample.analyze0)) "errorMessage" = "Failed to analyze service"
  /\ JS.display (Analyze.doc (Analyze.analyzeService "SVC-1"
                   (JS.Resolved false (JS.JsonBody (Sample.analysis_body None [] None)))
                   Sample.analyze0)) "resultsContainer" = false.
Proof.
  repeat split; try (left; reflexivity).
Qed.

Lemma str_or_nonempty (s : option string) (d : string) :
  d <> "" -> JS.str_or s d <> "".
Proof.
  intro Hd. unfold JS.str_or. destruct s as [[|c v]|]; simpl; try exact Hd. discriminate.
Qed.

Lemma truthy_opt_str_or (s : option string) :
  JS.truthy_opt s = true -> JS.str_or s "" <> "".
Proof.
  destruct s as [[|c v]|]; simpl; intro H; try discriminate.
Qed.

(** The loading indicator of the service tab: the [finally] block hides
    it however the [try] and [catch] blocks went. *)
Lemma analyzeService_spinner (id : string) (r : JS.fetch_result Analyze.analysis)
    (st : Analyze.state) :
  JS.display (Analyze.doc (Analyze.analyzeService id r st)) "loadingSpinner" = false.
Proof.
  unfold Analyze.analyzeService, Analyze.analyzeService_settle, JS.exec, JS.try_finally.
  destruct (JS.try_catch (Analyze.analyzeService_try r) Analyze.analyzeService_catch
              (Analyze.analyzeService_start id st)) as [c s'].
  reflexivity.
Qed.

(** The promise chains on a body that was parsed: the [then] callback has
    hidden the loading indicator when it looks at the error field. *)
Lemma analyzeRenewal_chain_body (ok : bool) (data : Renewal.payload) (st : Renewal.state) :
  Renewal.analyzeRenewal_chain (JS.Resolved ok (JS.JsonBody data)) st
  = JS.try_catch
      (if JS.truthy_opt (Renewal.error data) then
         Renewal.showRenewalError (JS.str_or (Renewal.error data) "")
       else Renewal.displayRenewalResults data)
      (fun e =>
         JS.bind (JS.modify (Renewal.with_doc (JS.set_display "renewalLoadingSpinner" false)))
           (fun _ => Renewal.showRenewalError ("Network error: " ++ JS.message e)))
      (Renewal.with_doc (JS.set_display "renewalLoadingSpinner" false) st).
Proof. reflexivity. Qed.

Lemma analyzeVendor_chain_body (ok : bool) (data : Vendor.payload) (st : Vendor.state) :
  Vendor.analyzeVendor_chain (JS.Resolved ok (JS.JsonBody data)) st
  = JS.try_catch
      (if JS.truthy_opt (Vendor.error data) then
         Vendor.showVendorError (JS.str_or (Vendor.error data) "")
       else Vendor.displayVendorResults data)
      (fun e =>
         JS.bind (JS.modify (Vendor.with_doc (JS.set_display "vendorLoadingSpinner" false)))
           (fun _ => Vendor.showVendorError ("Failed to analyze vendor: " ++ JS.message e)))
      (Vendor.with_doc (JS.set_display "vendorLoadingSpinner" false) st).
Proof. reflexivity. Qed.

(** The loading indicator of the renewal tab. *)
Lemma analyzeRenewal_spinner (id : string) (r : JS.fetch_result Renewal.payload)
    (st : Renewal.state) :
  JS.display (Renewal.doc (Renewal.analyzeRenewal id r st)) "renewalLoadingSpinner" = false.
Proof.
  unfold Renewal.analyzeRenewal, Renewal.analyzeRenewal_settle, JS.exec,
    Renewal.analyzeRenewal_chain.
  destruct r as [|ok [|data]]; try reflexivity.
  fold (Renewal.analyzeRenewal_chain (JS.Resolved ok (JS.JsonBody data))).
  rewrite analyzeRenewal_chain_body. unfold JS.try_catch.
  destruct (JS.truthy_opt (Renewal.error data)); [reflexivity|].
  match goal with
  | |- context [Renewal.displayRenewalResults data ?s] =>
      pose proof (displayRenewalResults_keeps "renewalLoadingSpinner" data
                    ltac:(discriminate) ltac:(discriminate) ltac:(discriminate)
                    ltac:(discriminate) ltac:(discriminate) s) as Hk;
      destruct (Renewal.displayRenewalResults data s) as [[u|e] s']
  end.
  - simpl in *. rewrite Hk. reflexivity.
  - reflexivity.
Qed.

Lemma display_displayRenewalHistory (l : list Vendor.renewal) (d : JS.document) (id : string) :
  JS.display (Vendor.displayRenewalHistory l d) id = JS.display d id.
Proof. destruct l; reflexivity. Qed.

Lemma display_displayNewContractHistory (l : list Vendor.contract) (d : JS.document)
    (id : string) :
  JS.display (Vendor.displayNewContractHistory l d) id = JS.display d id.
Proof. destruct l; reflexivity. Qed.

(** The loading indicator of the vendor tab. *)
Lemma analyzeVendor_spinner (name : string) (r : JS.fetch_result Vendor.payload)
    (st : Vendor.state) :
  JS.display (Vendor.doc (Vendor.analyzeVendor name r st)) "vendorLoadingSpinner" = false.
Proof.
  unfold Vendor.analyzeVendor, Vendor.analyzeVendor_settle, JS.exec,
    Vendor.analyzeVendor_chain.
  destruct r as [|ok [|data]]; try reflexivity.
  fold (Vendor.analyzeVendor_chain (JS.Resolved ok (JS.JsonBody data))).
  rewrite analyzeVendor_chain_body. unfold JS.try_catch.
  destruct (JS.truthy_opt (Vendor.error data)); [reflexivity|].
  unfold Vendor.displayVendorResults, JS.modify. simpl.
  unfold JS.upd at 1. simpl. unfold JS.upd at 1. simpl.
  rewrite display_displayNewContractHistory, display_displayRenewalHistory.
  reflexivity.
Qed.

(** X16. For every analysis submission of the three controllers, once
    the network call has settled -- as a success, a failure or an
    exception -- the loading indicator is hidden.  The end state has the
    error banner visible with a non-empty message and the results container
    hidden for every call whose fetch is rejected or whose body is not JSON
    and, besides, in the service controller for every response whose status
    is no success, in the renewal and vendor controllers for every body that
    carries a non-empty error string. *)
Theorem analysis_settles (id : string)
    (ra : JS.fetch_result Analyze.analysis) (sa : Analyze.state)
    (rr : JS.fetch_result Renewal.payload) (sr : Renewal.state)
    (rv : JS.fetch_result Vendor.payload) (sv : Vendor.state) :
  JS.display (Analyze.doc (Analyze.analyzeService id ra sa)) "loadingSpinner" = false
  /\ JS.display (Renewal.doc (Renewal.analyzeRenewal id rr sr)) "renewalLoadingSpinner" = false
  /\ JS.display (Vendor.doc (Vendor.analyzeVendor id rv sv)) "vendorLoadingSpinner" = false
  /\ (Spec.reported_by_status ra ->
      JS.display (Analyze.doc (Analyze.analyzeService id ra sa)) "errorAlert" = true
      /\ JS.textContent (Analyze.doc (Analyze.analyzeService id ra sa)) "errorMessage" <> ""
      /\ JS.display (Analyze.doc (Analyze.analyzeService id ra sa)) "resultsContainer" = false)
  /\ (Spec.reported_by_body Renewal.error rr ->
      JS.display (Renewal.doc (Renewal.analyzeRenewal id rr sr)) "renewalErrorAlert" = true
      /\ JS.textContent (Renewal.doc (Renewal.analyzeRenewal id rr sr)) "renewalErrorMessage" <> ""
      /\ JS.display (Renewal.doc (Renewal.analyzeRenewal id rr sr)) "renewalResults" = false)
  /\ (Spec.reported_by_body Vendor.error rv ->
      JS.display (Vendor.doc (Vendor.analyzeVendor id rv sv)) "vendorErrorAlert" = true
      /\ JS.textContent (Vendor.doc (Vendor.analyzeVendor id rv sv)) "vendorErrorMessage" <> ""
      /\ JS.display (Vendor.doc (Vendor.analyzeVendor id rv sv)) "vendorResults" = false).
Proof.
  split; [apply analyzeService_spinner|].
  split; [apply analyzeRenewal_spinner|].
  split; [apply analyzeVendor_spinner|].
  split; [|split].
  - intro H. destruct ra as [|ok [|data]]; simpl in H.
    + repeat split. discriminate.
    + destruct ok; repeat split; discriminate.
    + subst ok. repeat split.
      change (JS.str_or (Analyze.error data) "Failed to analyze service" <> "").
      apply str_or_nonempty. discriminate.
  - intro H. destruct rr as [|ok [|data]]; simpl in H.
    + repeat split. discriminate.
    + repeat split. discriminate.
    + unfold Renewal.analyzeRenewal, Renewal.analyzeRenewal_settle, JS.exec.
      rewrite analyzeRenewal_chain_body, H.
      repeat split.
      change (JS.str_or (Renewal.error data) "" <> "").
      apply truthy_opt_str_or. exact H.
  - intro H. destruct rv as [|ok [|data]]; simpl in H.
    + repeat split. discriminate.
    + repeat split. discriminate.
    + unfold Vendor.analyzeVendor, Vendor.analyzeVendor_settle, JS.exec.
      rewrite analyzeVendor_chain_body, H.
      repeat split.
      change (JS.str_or (Vendor.error data) "" <> "").
      apply truthy_opt_str_or. exact H.
Qed.

(** X16 on a network failure in each of the three tabs. *)
Lemma analysis_settles_witness :
  (JS.display (Analyze.doc (Analyze.analyzeService "SVC-1" JS.Rejected Sample.analyze0))
     "errorAlert" = true
   /\ JS.textContent (Analyze.doc (Analyze.analyzeService "SVC-1" JS.Rejected Sample.analyze0))
        "errorMessage" <> ""
   /\ JS.display (Analyze.doc (Analyze.analyzeService "SVC-1" JS.Rejected Sample.analyze0))
        "resultsContainer" = false)
  /\ (JS.display (Renewal.doc (Renewal.analyzeRenewal "SVC-1" JS.Rejected Sample.renewal0))
        "renewalErrorAlert" = true
      /\ JS.textContent (Renewal.doc (Renewal.analyzeRenewal "SVC-1" JS.Rejected Sample.renewal0))
           "renewalErrorMessage" <> ""
      /\ JS.display (Renewal.doc (Renewal.analyzeRenewal "SVC-1" JS.Rejected Sample.renewal0))
           "renewalResults" = false)
  /\ (JS.display (Vendor.doc (Vendor.analyzeVendor "SVC-1" JS.Rejected Sample.vendor0))
        "vendorErrorAlert" = true
      /\ JS.textContent (Vendor.doc (Vendor.analyzeVendor "SVC-1" JS.Rejected Sample.vendor0))
           "vendorErrorMessage" <> ""
      /\ JS.display (Vendor.doc (Vendor.analyzeVendor "SVC-1" JS.Rejected Sample.vendor0))
           "vendorResults" = false).
Proof.
  destruct (analysis_settles "SVC-1" JS.Rejected Sample.analyze0
              JS.Rejected Sample.renewal0 JS.Rejected Sample.vendor0)
    as (_ & _ & _ & Ha & Hr & Hv).
  split; [apply Ha; exact I|].
  split; [apply Hr; exact I | apply Hv; exact I].
Defined.

(** ** Submitting a blank identifier (C4) *)

Lemma trimStart_blank (s : string) :
  Spec.only_white_space s = true -> JS.trimStart s = "".
Proof.
  induction s as [|c r IH]; simpl; [reflexivity|].
  intro H. apply andb_true_iff in H. destruct H as [Hc Hr].
  rewrite Hc. apply IH. exact Hr.
Qed.

Lemma trim_blank (s : string) : Spec.only_white_space s = true -> JS.trim s = "".
Proof. intro H. unfold JS.trim. rewrite (trimStart_blank s H). reflexivity. Qed.

(** C4. For every identifier that is empty or consists only of white
    space, the submit handler of each of the three controllers leaves the
    whole state as it was: no network call is added to those issued, and the
    document -- with its error banner -- is unchanged. *)
Theorem submit_blank_is_noop (value : string)
    (sa : Analyze.state) (sr : Renewal.state) (sv : Vendor.state) :
  Spec.only_white_space value = true ->
  (Analyze.on_submit value sa = sa
   /\ Analyze.fetched (Analyze.on_submit value sa) = Analyze.fetched sa
   /\ Analyze.doc (Analyze.on_submit value sa) = Analyze.doc sa)
  /\ (Renewal.on_submit value sr = sr
      /\ Renewal.fetched (Renewal.on_submit value sr) = Renewal.fetched sr
      /\ Renewal.doc (Renewal.on_submit value sr) = Renewal.doc sr)
  /\ (Vendor.on_submit value sv = sv
      /\ Vendor.fetched (Vendor.on_submit value sv) = Vendor.fetched sv
      /\ Vendor.doc (Vendor.on_submit value sv) = Vendor.doc sv).
Proof.
  intro H.
  unfold Analyze.on_submit, Renewal.on_submit, Vendor.on_submit.
  rewrite (trim_blank value H). simpl. repeat split.
Qed.

(** C4 on an identifier of blanks and a tab. *)
Lemma submit_blank_is_noop_witness :
  Analyze.on_submit (String " " (String (ascii_of_nat 9) " ")) Sample.analyze0 = Sample.analyze0
  /\ Renewal.on_submit (String " " (String (ascii_of_nat 9) " ")) Sample.renewal0
     = Sample.renewal0
  /\ Vendor.on_submit (String " " (String (ascii_of_nat 9) " ")) Sample.vendor0
     = Sample.vendor0.
Proof.
  destruct (submit_blank_is_noop (String " " (String (ascii_of_nat 9) " "))
              Sample.analyze0 Sample.renewal0 Sample.vendor0)
    as ((Ha & _) & (Hr & _) & (Hv & _)).
  - reflexivity.
  - split; [exact Ha | split; [exact Hr | exact Hv]].
Defined.

(** A submitted identifier that is not blank does issue the call. *)
Example submit_identifier_fetches :
  Analyze.fetched (Analyze.on_submit "  SVC-1 " Sample.analyze0)
  = [Analyze.PostAnalyze "SVC-1"].
Proof. reflexivity. Qed.

(** ** The two module variables of [analyze.js] (C10) *)

(** The renderers of the service tab leave the module variables and the
    issued calls alone. *)
Lemma displayResults_keeps_variables (data : Analyze.analysis) :
  JS.keeps (fun st => (Analyze.currentServiceData st, Analyze.currentServiceId st,
                    Analyze.fetched st))
        (Analyze.displayResults data).
Proof.
  unfold Analyze.displayResults, Analyze.displayVendorQuotes,
    Analyze.displayNearbyQuotes, Analyze.displayVPLOptions, Analyze.quote_card.
  repeat first
    [ keeps_step
    | match goal with
      | |- JS.keeps _ (match ?x with _ => _ end) => destruct x
      end ].
Qed.

(** The [try] block on a successful response: the payload is stored, then
    rendered. *)
Lemma analyzeService_try_ok (data : Analyze.analysis) (st : Analyze.state) :
  Analyze.analyzeService_try (JS.Resolved true (JS.JsonBody data)) st
  = Analyze.displayResults data (Analyze.set_currentServiceData data st).
Proof. reflexivity. Qed.

(** The variables after a submission has run to its end. *)
Lemma analyzeService_variables (id : string) (r : JS.fetch_result Analyze.analysis)
    (st : Analyze.state) :
  Analyze.currentServiceId (Analyze.analyzeService id r st) = Some id
  /\ Analyze.currentServiceData (Analyze.analyzeService id r st)
     = match r with
       | JS.Resolved true (JS.JsonBody data) => Some data
       | _ => Analyze.currentServiceData st
       end.
Proof.
  unfold Analyze.analyzeService, Analyze.analyzeService_settle, JS.exec,
    JS.try_finally, JS.try_catch.
  destruct r as [|ok [|data]]; try (split; reflexivity).
  - destruct ok; split; reflexivity.
  - destruct ok; [|split; reflexivity].
    rewrite analyzeService_try_ok.
    pose proof (displayResults_keeps_variables data
                  (Analyze.set_currentServiceData data
                     (Analyze.analyzeService_start id st))) as Hk.
    destruct (Analyze.displayResults data
                (Analyze.set_currentServiceData data
                   (Analyze.analyzeService_start id st))) as [[u|e] s'];
      simpl in *; injection Hk as Hd Hi _; rewrite Hd, Hi; split; reflexivity.
Qed.











(** The strategy button of a card carries [currentServiceId] as it was
    when the card was built: after a successful analysis of one service and
    a failed one of another, the cards are those of the first with its
    identifier; when the second submission starts before the first response
    arrives, the cards of the first payload carry the second identifier. *)
Example strategy_buttons_keep_render_id :
  Analyze.vendorQuotesContainer
    (Analyze.analyzeService "SVC-2" JS.Rejected
       (Analyze.analyzeService "SVC-1"
          (JS.Resolved true (JS.JsonBody (Sample.analysis_body None [Sample.quoteA] None)))
          Sample.analyze0))
  = Analyze.Items [Analyze.card_of (Some "SVC-1") false Sample.quoteA None].
Proof. reflexivity. Qed.

Example overlapping_submissions_mix_identifiers :
  Analyze.vendorQuotesContainer
    (Analyze.analyzeService_settle
       (JS.Resolved true (JS.JsonBody (Sample.analysis_body None [Sample.quoteA] None)))
       (Analyze.analyzeService_start "SVC-2"
          (Analyze.analyzeService_start "SVC-1" Sample.analyze0)))
  = Analyze.Items [Analyze.card_of (Some "SVC-2") false Sample.quoteA None].
Proof. reflexivity. Qed.

(** ** The autocomplete controller (C9) *)

Section Debounce.

Import Vendor.

Lemma Vendor_fold_fetch (l : list timer) (st : state) :
  fold_left (fun s t => fetchVendorSuggestions (term t) s) l st
  = {| doc := doc st;
       autocompleteTimeout := autocompleteTimeout st;
       timers := timers st;
       next_timer_id := next_timer_id st;
       fetched := fetched st ++ map (fun t => GetVendorAutocomplete (term t)) l |}.
Proof.
  revert st. induction l as [|t r IH]; intro st; simpl.
  - rewrite app_nil_r. destruct st; reflexivity.
  - rewrite IH. simpl. rewrite <- app_assoc. reflexivity.
Qed.

Lemma filter_due_none (now : nat) (l : list timer) :
  Forall (fun x => (now < due x)%nat) l ->
  filter (fun t => (due t <=? now)%nat) l = []
  /\ filter (fun t => negb (due t <=? now)%nat) l = l.
Proof.
  induction 1 as [|x r Hx Hr [IH1 IH2]]; simpl; [split; reflexivity|].
  apply Nat.leb_gt in Hx. rewrite Hx. simpl. rewrite IH2. split; [exact IH1 | reflexivity].
Qed.

Lemma filter_same_id (id : positive) (l : list timer) :
  Forall (fun x => Some id = Some (timer_id x)) l ->
  filter (fun t => negb (Pos.eqb (timer_id t) id)) l = [].
Proof.
  induction 1 as [|x r Hx Hr IH]; simpl; [reflexivity|].
  injection Hx as ->. rewrite Pos.eqb_refl. simpl. exact IH.
Qed.

(** When no pending timeout is due, the event loop runs none. *)
Lemma run_timers_none_due (now : nat) (st : state) :
  Forall (fun x => (now < due x)%nat) (timers st) -> run_timers now st = st.
Proof.
  intro H. unfold run_timers. rewrite Vendor_fold_fetch. simpl.
  destruct (filter_due_none now (timers st) H) as [E1 E2].
  rewrite E1, E2. simpl. rewrite app_nil_r. destruct st; reflexivity.
Qed.

Lemma run_timers_one_pending (now : nat) (st : state) :
  Spec.one_pending st -> Spec.one_pending (run_timers now st).
Proof.
  unfold Spec.one_pending, run_timers. rewrite Vendor_fold_fetch. simpl.
  intro H. apply Forall_forall. intros x Hx.
  apply filter_In in Hx. destruct Hx as [Hx _].
  rewrite Forall_forall in H. apply H. exact Hx.
Qed.

(** The handler first clears what is pending. *)
Lemma cleared_timers (st : state) :
  Spec.one_pending st ->
  timers (match autocompleteTimeout st with
          | Some id => clearTimeout id st
          | None => st
          end) = [].
Proof.
  unfold Spec.one_pending. intro H.
  destruct (autocompleteTimeout st) as [id|] eqn:E.
  - simpl. apply filter_same_id. exact H.
  - destruct (timers st) as [|x r]; [reflexivity|].
    inversion H; discriminate.
Qed.

(** The input handler, on a state that satisfies the invariant. *)
Lemma on_input_short (now : nat) (value : string) (st : state) :
  Spec.one_pending st ->
  (String.length (JS.trim value) < 2)%nat ->
  timers (on_input now value st) = []
  /\ JS.display (doc (on_input now value st)) "vendorAutocomplete" = false
  /\ fetched (on_input now value st) = fetched st.
Proof.
  intros Hwf Hlen. unfold on_input.
  apply Nat.ltb_lt in Hlen. rewrite Hlen.
  pose proof (cleared_timers st Hwf) as Hc.
  destruct (autocompleteTimeout st); simpl in *; auto.
Qed.

Lemma on_input_long (now : nat) (value : string) (st : state) :
  Spec.one_pending st ->
  (2 <= String.length (JS.trim value))%nat ->
  timers (on_input now value st)
  = [ {| timer_id := next_timer_id st; due := now + 300; term := JS.trim value |} ]
  /\ autocompleteTimeout (on_input now value st) = Some (next_timer_id st)
  /\ doc (on_input now value st) = doc st
  /\ fetched (on_input now value st) = fetched st.
Proof.
  intros Hwf Hlen. unfold on_input.
  apply Nat.ltb_ge in Hlen. rewrite Hlen.
  pose proof (cleared_timers st Hwf) as Hc.
  destruct (autocompleteTimeout st); simpl in *; rewrite Hc; auto.
Qed.

Lemma on_input_one_pending (now : nat) (value : string) (st : state) :
  Spec.one_pending st -> Spec.one_pending (on_input now value st).
Proof.
  intro Hwf. unfold Spec.one_pending.
  destruct (Nat.lt_ge_cases (String.length (JS.trim value)) 2) as [Hlen|Hlen].
  - destruct (on_input_short now value st Hwf Hlen) as [Ht _]. rewrite Ht. constructor.
  - destruct (on_input_long now value st Hwf Hlen) as (Ht & Ha & _). rewrite Ht, Ha.
    repeat constructor.
Qed.

Lemma keystrokes_one_pending (evs : list (nat * string)) (st : state) :
  Spec.one_pending st -> Spec.one_pending (keystrokes evs st).
Proof.
  unfold keystrokes. revert st. induction evs as [|ev r IH]; intros st H; simpl.
  - exact H.
  - apply IH. apply on_input_one_pending. apply run_timers_one_pending. exact H.
Qed.

Lemma last_cons_default {A} (r : list A) : forall a d : A, last (a :: r) d = last r a.
Proof.
  induction r as [|b r IH]; intros a d; [reflexivity|].
  change (last (a :: b :: r) d) with (last (b :: r) d).
  rewrite (IH b d), (IH b a). reflexivity.
Qed.

(** A burst: no call is issued while it lasts, and what is pending at its
    end is what its last keystroke left. *)
Lemma burst_pending (rest : list (nat * string)) :
  forall (ev : nat * string) (st : state),
  Spec.one_pending st ->
  Forall (fun x => (fst ev < due x)%nat) (timers st) ->
  Spec.within_300ms (fst ev) rest ->
  fetched (keystrokes (ev :: rest) st) = fetched st
  /\ exists id, timers (keystrokes (ev :: rest) st) = Spec.pending_after id (last rest ev).
Proof.
  induction rest as [|ev' r IH]; intros ev st Hwf Hdue Hgap.
  - unfold keystrokes. simpl. rewrite (run_timers_none_due _ _ Hdue).
    unfold Spec.pending_after.
    destruct (Nat.lt_ge_cases (String.length (JS.trim (snd ev))) 2) as [Hlen|Hlen].
    + destruct (on_input_short (fst ev) (snd ev) st Hwf Hlen) as (Ht & _ & Hf).
      apply Nat.ltb_lt in Hlen. rewrite Hlen, Ht. split; [exact Hf|].
      exists 1%positive. reflexivity.
    + destruct (on_input_long (fst ev) (snd ev) st Hwf Hlen) as (Ht & _ & _ & Hf).
      apply Nat.ltb_ge in Hlen. rewrite Hlen, Ht. split; [exact Hf|].
      exists (next_timer_id st). reflexivity.
  - destruct Hgap as (Hle & Hlt & Hgap).
    change (keystrokes (ev :: ev' :: r) st)
      with (keystrokes (ev' :: r) (on_input (fst ev) (snd ev) (run_timers (fst ev) st))).
    rewrite (run_timers_none_due _ _ Hdue).
    assert (Hwf' : Spec.one_pending (on_input (fst ev) (snd ev) st))
      by (apply on_input_one_pending; exact Hwf).
    assert (Hdue' : Forall (fun x => (fst ev' < due x)%nat)
                      (timers (on_input (fst ev) (snd ev) st))).
    { destruct (Nat.lt_ge_cases (String.length (JS.trim (snd ev))) 2) as [Hlen|Hlen].
      - destruct (on_input_short (fst ev) (snd ev) st Hwf Hlen) as (Ht & _).
        rewrite Ht. constructor.
      - destruct (on_input_long (fst ev) (snd ev) st Hwf Hlen) as (Ht & _).
        rewrite Ht. repeat constructor. simpl. exact Hlt. }
    destruct (IH ev' _ Hwf' Hdue' Hgap) as (Hf & id & Ht).
    split.
    + rewrite Hf.
      destruct (Nat.lt_ge_cases (String.length (JS.trim (snd ev))) 2) as [Hlen|Hlen].
      * apply (on_input_short (fst ev) (snd ev) st Hwf Hlen).
      * apply (on_input_long (fst ev) (snd ev) st Hwf Hlen).
    + exists id. rewrite Ht. rewrite last_cons_default. reflexivity.
Qed.

End Debounce.

(** C9. After every sequence of input events on the autocomplete field:
    an event whose trimmed value is shorter than two characters leaves no
    lookup pending and hides the panel; any other event leaves exactly one
    lookup pending, that of its trimmed value, due 300ms after it -- what
    was pending before is cancelled.  So a burst of keystrokes, each less
    than 300ms after the one before, that begins when no earlier lookup is
    due and ends on a value of at least two characters issues no call while
    it lasts and exactly one call once 300ms have passed, for the trimmed
    value of the last keystroke. *)
Theorem autocomplete_debounce (d : JS.document) (evs : list (nat * string))
    (ev : nat * string) (rest : list (nat * string)) (T : nat) :
  Forall (fun x => (fst ev < Vendor.due x)%nat)
         (Vendor.timers (Vendor.keystrokes evs (Vendor.initial d))) ->
  Spec.within_300ms (fst ev) rest ->
  (fst (last rest ev) + 300 <= T)%nat ->
  (2 <= String.length (JS.trim (snd (last rest ev))))%nat ->
  (forall now value,
     (String.length (JS.trim value) < 2)%nat ->
     Vendor.timers (Vendor.on_input now value
                      (Vendor.run_timers now (Vendor.keystrokes evs (Vendor.initial d)))) = []
     /\ JS.display (Vendor.doc (Vendor.on_input now value
                      (Vendor.run_timers now (Vendor.keystrokes evs (Vendor.initial d)))))
          "vendorAutocomplete" = false)
  /\ (forall now value,
        (2 <= String.length (JS.trim value))%nat ->
        exists id,
          Vendor.timers (Vendor.on_input now value
                           (Vendor.run_timers now (Vendor.keystrokes evs (Vendor.initial d))))
          = [ {| Vendor.timer_id := id; Vendor.due := now + 300;
                 Vendor.term := JS.trim value |} ])
  /\ Vendor.fetched (Vendor.keystrokes (ev :: rest) (Vendor.keystrokes evs (Vendor.initial d)))
     = Vendor.fetched (Vendor.keystrokes evs (Vendor.initial d))
  /\ Vendor.fetched (Vendor.run_timers T
       (Vendor.keystrokes (ev :: rest) (Vendor.keystrokes evs (Vendor.initial d))))
     = (Vendor.fetched (Vendor.keystrokes evs (Vendor.initial d))
        ++ [Vendor.GetVendorAutocomplete (JS.trim (snd (last rest ev)))])%list
  /\ Vendor.timers (Vendor.run_timers T
       (Vendor.keystrokes (ev :: rest) (Vendor.keystrokes evs (Vendor.initial d)))) = [].
Proof.
  intros Hdue Hgap HT Hlen.
  assert (Hwf : Spec.one_pending (Vendor.keystrokes evs (Vendor.initial d))).
  { apply keystrokes_one_pending. constructor. }
  split; [|split].
  - intros now value Hshort.
    destruct (on_input_short now value _ (run_timers_one_pending now _ Hwf) Hshort)
      as (Ht & Hd & _).
    split; assumption.
  - intros now value Hlong.
    destruct (on_input_long now value _ (run_timers_one_pending now _ Hwf) Hlong)
      as (Ht & _).
    eexists. exact Ht.
  - destruct (burst_pending rest ev _ Hwf Hdue Hgap) as (Hf & id & Ht).
    split; [exact Hf|].
    unfold Spec.pending_after in Ht.
    apply Nat.ltb_ge in Hlen. rewrite Hlen in Ht.
    apply Nat.leb_le in HT.
    remember (Vendor.keystrokes (ev :: rest) (Vendor.keystrokes evs (Vendor.initial d)))
      as stN eqn:EN.
    unfold Vendor.run_timers. rewrite Vendor_fold_fetch.
    cbn [Vendor.timers Vendor.fetched].
    rewrite Ht. cbn [filter Vendor.due]. rewrite HT.
    cbn [negb map Vendor.term]. rewrite Hf. split; reflexivity.
Qed.

(** C9 on three keystrokes within 300ms of one another after the page has
    loaded: one call, for the last value. *)
Lemma autocomplete_debounce_witness :
  Vendor.fetched (Vendor.run_timers 550%nat
    (Vendor.keystrokes [(0, "ac"); (100, "acm"); (250, "acme ")]%nat
       (Vendor.initial Sample.blank)))
  = [Vendor.GetVendorAutocomplete "acme"].
Proof.
  destruct (autocomplete_debounce Sample.blank [] (0%nat, "ac")
              [(100, "acm"); (250, "acme ")]%nat 550%nat)
    as (_ & _ & _ & H & _).
  - constructor.
  - simpl. lia.
  - simpl. lia.
  - simpl. lia.
  - exact H.
Defined.

(** Keystrokes that are 300ms apart or more each issue their own call. *)
Example slow_keystrokes_each_fetch :
  Vendor.fetched (Vendor.run_timers 1000%nat
    (Vendor.keystrokes [(0, "ac"); (300, "acm")]%nat (Vendor.initial Sample.blank)))
  = [Vendor.GetVendorAutocomplete "ac"; Vendor.GetVendorAutocomplete "acm"].
Proof. reflexivity. Qed.

(** ** Escaping (C2) *)

(** What [escapeHtml] writes for one character: an entity for each of the
    five, the character itself otherwise. *)
Lemma escapeChar_safe (c : ascii) : Spec.safe_token (Utils.escapeChar c).
Proof.
  unfold Spec.safe_token.
  destruct c as [[] [] [] [] [] [] [] []];
    first [ left; simpl; tauto
          | right; eexists; split; reflexivity ].
Qed.

(** X1. The output of [escapeHtml] is a sequence of entities and of
    characters that are none of the five, for every text; [null] and
    [undefined] give the empty string, and so does the empty text only. *)
Theorem escapeHtml_safe (text : option string) :
  (exists tokens,
     Utils.escapeHtml text = JS.concat_map (fun t => t) tokens
     /\ Forall Spec.safe_token tokens)
  /\ Utils.escapeHtml None = ""
  /\ (Utils.escapeHtml text = "" <-> text = None \/ text = Some "").
Proof.
  split; [|split; [reflexivity|]].
  - destruct text as [s|]; [|exists []; split; [reflexivity | constructor]].
    simpl. induction s as [|c r [tokens [E H]]].
    + exists []. split; [reflexivity | constructor].
    + exists (Utils.escapeChar c :: tokens). split.
      * simpl. rewrite E. reflexivity.
      * constructor; [apply escapeChar_safe | exact H].
  - destruct text as [[|c r]|]; simpl.
    + split; auto.
    + split.
      * intro H. exfalso.
        destruct c as [[] [] [] [] [] [] [] []]; discriminate H.
      * intros [H|H]; discriminate H.
    + split; auto.
Qed.

Example escapeHtml_example :
  Utils.escapeHtml (Some ("<a>&" ++ JS.dq ++ "'"))
  = "&lt;a&gt;&amp;&quot;&#039;".
Proof. reflexivity. Qed.

(** C2 at the autocomplete list: the vendor name of a suggestion reaches
    the markup of the panel as it came, twice, where [escapeHtml] would have
    written it with entities. *)
Theorem suggestion_markup_not_escaped :
  JS.innerHTML
    (Vendor.doc (Vendor.fetchVendorSuggestions_then
                   {| Vendor.s_error := None;
                      Vendor.vendors := Some ["<img src=x onerror=alert(1)>"] |}
                   Sample.vendor0))
    "vendorAutocomplete"
  = "<a href=" ++ JS.dq ++ "#" ++ JS.dq
    ++ " class=" ++ JS.dq ++ "list-group-item list-group-item-action vendor-suggestion" ++ JS.dq
    ++ " data-vendor=" ++ JS.dq ++ "<img src=x onerror=alert(1)>" ++ JS.dq
    ++ "><img src=x onerror=alert(1)></a>"
  /\ Utils.escapeHtml (Some "<img src=x onerror=alert(1)>")
     = "&lt;img src=x onerror=alert(1)&gt;".
Proof. split; reflexivity. Qed.

(* ------------------------------------------------------------------ *)
(** * Further properties of the code *)
(* ------------------------------------------------------------------ *)

(** ** [escapeHtml] on concatenations and on plain text *)

Lemma replaceSpecials_app (s1 s2 : string) :
  Utils.replaceSpecials (s1 ++ s2) = Utils.replaceSpecials s1 ++ Utils.replaceSpecials s2.
Proof.
  induction s1 as [|c r IH]; simpl; [reflexivity|].
  rewrite IH. generalize (Utils.escapeChar c) as e. intro e.
  induction e as [|a e IHe]; simpl; [reflexivity|]. rewrite IHe. reflexivity.
Qed.

Lemma escapeChar_length (c : ascii) :
  (Spec.special c = false /\ Utils.escapeChar c = String c EmptyString)
  \/ (Spec.special c = true /\ (4 <= String.length (Utils.escapeChar c))%nat).
Proof.
  destruct c as [[] [] [] [] [] [] [] []];
    first [ left; split; reflexivity | right; split; [reflexivity | simpl; lia] ].
Qed.

Lemma replaceSpecials_length (s : string) :
  (String.length s <= String.length (Utils.replaceSpecials s))%nat.
Proof.
  induction s as [|c r IH]; simpl; [lia|].
  rewrite string_length_app.
  destruct (escapeChar_length c) as [[_ E] | [_ H]]; [rewrite E; simpl; lia | lia].
Qed.

(** X2. Escaping distributes over concatenation -- escaping the pieces of
    a text and joining them is escaping the text -- and it returns a text
    unchanged exactly when the text has none of the five characters. *)
Theorem escapeHtml_concat_and_plain (s1 s2 : string) :
  Utils.escapeHtml (Some (s1 ++ s2))
  = Utils.escapeHtml (Some s1) ++ Utils.escapeHtml (Some s2)
  /\ (Utils.escapeHtml (Some s1) = s1 <-> Props.plain s1 = true).
Proof.
  split; [apply replaceSpecials_app|].
  simpl. induction s1 as [|c r IH]; simpl.
  - split; reflexivity.
  - destruct (escapeChar_length c) as [[Hs E] | [Hs H]]; rewrite Hs; simpl.
    + rewrite E. simpl. split; intro H.
      * injection H as H. apply IH. exact H.
      * f_equal. apply IH. exact H.
    + split; [|discriminate]. intro E. exfalso.
      assert (L : String.length (Utils.escapeChar c ++ Utils.replaceSpecials r)
                  = String.length (String c r)) by (rewrite E; reflexivity).
      rewrite string_length_app in L. simpl in L.
      pose proof (replaceSpecials_length r). lia.
Qed.

(** ** The priority icon *)

(** X3. A recommendation gets a priority icon exactly when its priority
    is present and equals 1, 2 or 3; an absent priority, 0, 4 or a fraction
    give no icon. *)
Theorem priority_icon_iff (priority : option Q) :
  Badges.getPriorityIcon priority <> ""
  <-> exists p, priority = Some p /\ (p == 1 \/ p == 2 \/ p == 3).
Proof.
  unfold Badges.getPriorityIcon. destruct priority as [p|].
  - destruct (Qeq_bool p 1) eqn:E1; [|destruct (Qeq_bool p 2) eqn:E2;
      [|destruct (Qeq_bool p 3) eqn:E3]].
    + apply Qeq_bool_iff in E1. split; [|discriminate]. intros _. exists p. auto.
    + apply Qeq_bool_iff in E2. split; [|discriminate]. intros _. exists p. auto.
    + apply Qeq_bool_iff in E3. split; [|discriminate]. intros _. exists p. auto.
    + split; [intro H; exfalso; apply H; reflexivity|].
      intros [q [Hq H]]. injection Hq as <-.
      destruct H as [H | [H | H]]; apply Qeq_bool_iff in H; congruence.
  - split; [intro H; exfalso; apply H; reflexivity|].
    intros [q [Hq _]]. discriminate.
Qed.

(** ** Submitting an identifier that is not blank *)

Lemma trimStart_starts_clean (s : string) : Props.starts_clean (JS.trimStart s) = true.
Proof.
  induction s as [|c r IH]; simpl; [reflexivity|].
  destruct (JS.is_white_space c) eqn:E; [exact IH|]. simpl. rewrite E. reflexivity.
Qed.

Lemma trimStart_not_blank (s : string) :
  Spec.only_white_space s = false ->
  exists c r, JS.trimStart s = String c r /\ JS.is_white_space c = false.
Proof.
  induction s as [|c r IH]; simpl; [discriminate|].
  destruct (JS.is_white_space c) eqn:E; simpl; intro H.
  - apply IH. exact H.
  - exists c, r. auto.
Qed.

Lemma trimEnd_cons (c : ascii) (r : string) :
  JS.is_white_space c = false ->
  exists r', JS.trimEnd (String c r) = String c r'.
Proof.
  intro E. simpl. destruct (JS.trimEnd r) as [|a t].
  - rewrite E. exists EmptyString. reflexivity.
  - exists (String a t). reflexivity.
Qed.

Lemma trimEnd_ends_clean (s : string) : Props.ends_clean (JS.trimEnd s) = true.
Proof.
  induction s as [|c r IH]; simpl; [reflexivity|].
  destruct (JS.trimEnd r) as [|a t] eqn:E.
  - destruct (JS.is_white_space c) eqn:Ec; simpl; [reflexivity | rewrite Ec; reflexivity].
  - exact IH.
Qed.

Lemma trim_not_blank (s : string) :
  Spec.only_white_space s = false ->
  JS.trim s <> "" /\ Props.starts_clean (JS.trim s) = true
  /\ Props.ends_clean (JS.trim s) = true.
Proof.
  intro H. unfold JS.trim.
  destruct (trimStart_not_blank s H) as (c & r & E & Hc). rewrite E.
  destruct (trimEnd_cons c r Hc) as [r' E'].
  split; [rewrite E'; discriminate|].
  split; [rewrite E'; simpl; rewrite Hc; reflexivity | apply trimEnd_ends_clean].
Qed.

(** X4. For every value that is not blank, the submit handler of each of
    the three controllers issues exactly one call, for the trimmed value,
    and shows its loading indicator; the identifier it sends is not empty
    and has no white space at its start or its end. *)
Theorem submit_identifier_issues_one_call (value : string)
    (sa : Analyze.state) (sr : Renewal.state) (sv : Vendor.state) :
  Spec.only_white_space value = false ->
  (JS.trim value <> "" /\ Props.starts_clean (JS.trim value) = true
   /\ Props.ends_clean (JS.trim value) = true)
  /\ (Analyze.fetched (Analyze.on_submit value sa)
      = (Analyze.fetched sa ++ [Analyze.PostAnalyze (JS.trim value)])%list
      /\ JS.display (Analyze.doc (Analyze.on_submit value sa)) "loadingSpinner" = true)
  /\ (Renewal.fetched (Renewal.on_submit value sr)
      = (Renewal.fetched sr ++ [Renewal.PostAnalyzeRenewal (JS.trim value)])%list
      /\ JS.display (Renewal.doc (Renewal.on_submit value sr)) "renewalLoadingSpinner" = true)
  /\ (Vendor.fetched (Vendor.on_submit value sv)
      = (Vendor.fetched sv ++ [Vendor.PostAnalyzeVendor (JS.trim value)])%list
      /\ JS.display (Vendor.doc (Vendor.on_submit value sv)) "vendorLoadingSpinner" = true
      /\ JS.display (Vendor.doc (Vendor.on_submit value sv)) "vendorAutocomplete" = false).
Proof.
  intro H. pose proof (trim_not_blank value H) as Ht.
  split; [exact Ht|].
  destruct Ht as [Hne _].
  unfold Analyze.on_submit, Renewal.on_submit, Vendor.on_submit.
  destruct (JS.trim value) as [|c r]; [congruence|].
  simpl. repeat split.
Qed.

(** X4 on an identifier between blanks. *)
Lemma submit_identifier_issues_one_call_witness :
  Analyze.fetched (Analyze.on_submit "  SVC-1 " Sample.analyze0)
  = [Analyze.PostAnalyze "SVC-1"]
  /\ Renewal.fetched (Renewal.on_submit "  SVC-1 " Sample.renewal0)
     = [Renewal.PostAnalyzeRenewal "SVC-1"]
  /\ Vendor.fetched (Vendor.on_submit "  SVC-1 " Sample.vendor0)
     = [Vendor.PostAnalyzeVendor "SVC-1"].
Proof.
  destruct (submit_identifier_issues_one_call "  SVC-1 "
              Sample.analyze0 Sample.renewal0 Sample.vendor0)
    as (_ & (Ha & _) & (Hr & _) & (Hv & _)).
  - reflexivity.
  - split; [exact Ha | split; [exact Hr | exact Hv]].
Defined.

(** ** The invariant of the autocomplete controller *)

Section DebounceInvariant.

Import Vendor.

Lemma lookup_of_more (evs more : list (nat * string)) (searchTerm : string) :
  Props.lookup_of evs searchTerm -> Props.lookup_of (evs ++ more) searchTerm.
Proof.
  intros [Hlen [ev [Hin E]]]. split; [exact Hlen|].
  exists ev. split; [apply in_or_app; left; exact Hin | exact E].
Qed.

Lemma filter_split_length {A} (f : A -> bool) (l : list A) :
  (List.length (filter f l) + List.length (filter (fun x => negb (f x)) l)
   = List.length l)%nat.
Proof.
  induction l as [|x r IH]; simpl; [reflexivity|].
  destruct (f x); simpl; lia.
Qed.

Lemma run_timers_debounced (now : nat) (evs : list (nat * string)) (st : state) :
  Props.debounced evs st -> Props.debounced evs (run_timers now st).
Proof.
  intros (H1 & H2 & H3 & H4 & H5).
  split; [apply run_timers_one_pending; exact H1|].
  unfold run_timers. rewrite Vendor_fold_fetch. cbn [timers fetched].
  pose proof (filter_split_length (fun t => (due t <=? now)%nat) (timers st)) as Hs.
  rewrite Forall_forall in H3.
  split; [lia|]. split; [|split].
  - apply Forall_forall. intros x Hx. apply filter_In in Hx. apply H3. apply Hx.
  - apply Forall_app. split; [exact H4|].
    apply Forall_forall. intros r Hr. apply in_map_iff in Hr.
    destruct Hr as [x [<- Hx]]. apply filter_In in Hx.
    exists (term x). split; [reflexivity | apply H3; apply Hx].
  - rewrite length_app, length_map. lia.
Qed.

Lemma on_input_debounced (now : nat) (value : string) (evs : list (nat * string))
    (st : state) :
  Props.debounced evs st ->
  Props.debounced (evs ++ [(now, value)]) (on_input now value st).
Proof.
  intros (H1 & H2 & H3 & H4 & H5).
  assert (H4' : Forall (fun r => exists searchTerm,
                   r = GetVendorAutocomplete searchTerm
                   /\ Props.lookup_of (evs ++ [(now, value)]) searchTerm) (fetched st)).
  { eapply Forall_impl; [|exact H4]. intros r [t [E L]].
    exists t. split; [exact E | apply lookup_of_more; exact L]. }
  split; [apply on_input_one_pending; exact H1|].
  rewrite length_app. simpl.
  destruct (Nat.lt_ge_cases (String.length (JS.trim value)) 2) as [Hlen|Hlen].
  - destruct (on_input_short now value st H1 Hlen) as (Ht & _ & Hf).
    rewrite Ht, Hf. simpl. repeat split; [lia | constructor | exact H4' | lia].
  - destruct (on_input_long now value st H1 Hlen) as (Ht & _ & _ & Hf).
    rewrite Ht, Hf. simpl. repeat split; [lia | | exact H4' | lia].
    constructor; [|constructor]. simpl. split; [exact Hlen|].
    exists (now, value). split; [apply in_or_app; right; left; reflexivity | reflexivity].
Qed.

Lemma keystrokes_debounced (more evs : list (nat * string)) (st : state) :
  Props.debounced evs st -> Props.debounced (evs ++ more) (keystrokes more st).
Proof.
  revert evs st. induction more as [|ev r IH]; intros evs st H.
  - rewrite app_nil_r. exact H.
  - change (keystrokes (ev :: r) st)
      with (keystrokes r (on_input (fst ev) (snd ev) (run_timers (fst ev) st))).
    replace (evs ++ ev :: r)%list with ((evs ++ [ev]) ++ r)%list
      by (rewrite <- app_assoc; reflexivity).
    apply IH. destruct ev as [t v]. apply on_input_debounced.
    apply run_timers_debounced. exact H.
Qed.

End DebounceInvariant.

(** X5. Whatever the keystrokes on the autocomplete field since the page
    loaded, and whenever the timeouts run: at most one lookup is pending;
    every call issued is the lookup of the trimmed value of one of the
    keystrokes and has two characters or more; and the calls issued are no
    more than the keystrokes. *)
Theorem autocomplete_never_floods (d : JS.document) (evs : list (nat * string))
    (T : nat) :
  (List.length (Vendor.timers (Vendor.run_timers T
       (Vendor.keystrokes evs (Vendor.initial d)))) <= 1)%nat
  /\ Forall (fun r => exists searchTerm,
               r = Vendor.GetVendorAutocomplete searchTerm
               /\ Props.lookup_of evs searchTerm)
       (Vendor.fetched (Vendor.run_timers T (Vendor.keystrokes evs (Vendor.initial d))))
  /\ (List.length (Vendor.fetched (Vendor.run_timers T
        (Vendor.keystrokes evs (Vendor.initial d)))) <= List.length evs)%nat.
Proof.
  assert (H0 : Props.debounced [] (Vendor.initial d)).
  { repeat split; simpl; try lia; constructor. }
  pose proof (run_timers_debounced T _ _ (keystrokes_debounced evs [] _ H0)) as H.
  simpl in H. destruct H as (_ & H2 & _ & H4 & H5).
  split; [exact H2|]. split; [exact H4 | lia].
Qed.

(** ** Sorting nearby quotes that are in order already *)

Section SortFixedPoint.

Context {A : Type}.
Variable compare : A -> A -> Q.
Variable before : A -> A -> Prop.
Hypothesis compare_gt_strict :
  forall a b, JS.num_gt (compare a b) 0 = true -> ~ before a b.

Lemma sort_of_sorted (l : list A) :
  StronglySorted before l -> JS.sort compare l = l.
Proof.
  induction 1 as [|x r Hr IH Hx]; simpl; [reflexivity|].
  rewrite IH. destruct r as [|y r']; simpl; [reflexivity|].
  destruct (JS.num_gt (compare x y) 0) eqn:E; [|reflexivity].
  exfalso. apply (compare_gt_strict x y E).
  inversion Hx; assumption.
Qed.

End SortFixedPoint.

Lemma compareNearby_gt_strict (a b : Renewal.nearby_quote) :
  JS.num_gt (Renewal.compareNearby a b) 0 = true -> ~ Spec.nearby_before a b.
Proof.
  unfold Renewal.compareNearby, Spec.nearby_before.
  destruct (Renewal.is_same_vendor a), (Renewal.is_same_vendor b); simpl; intro H.
  - apply sub_gt_0 in H. intros [[_ F] | [_ L]]; [discriminate|].
    exact (Qlt_not_le _ _ H L).
  - discriminate.
  - intros [[F _] | [F _]]; discriminate.
  - apply sub_gt_0 in H. intros [[F _] | [_ L]]; [discriminate|].
    exact (Qlt_not_le _ _ H L).
Qed.

(** X6. The sort of the renewal view returns a list of nearby quotes that
    is in the two-key order already exactly as it is, and sorting twice is
    sorting once. *)
Theorem sortedQuotes_fixed_point (l l' : list Renewal.nearby_quote) :
  StronglySorted Spec.nearby_before l ->
  Renewal.sortedQuotes l = l
  /\ Renewal.sortedQuotes (Renewal.sortedQuotes l') = Renewal.sortedQuotes l'.
Proof.
  intro H. split.
  - apply (sort_of_sorted _ _ compareNearby_gt_strict). exact H.
  - apply (sort_of_sorted _ _ compareNearby_gt_strict).
    apply sort_sorted.
    + exact nearby_before_trans.
    + exact compareNearby_le.
    + exact compareNearby_gt.
Qed.

(** X6 on A before B. *)
Lemma sortedQuotes_fixed_point_witness :
  Renewal.sortedQuotes [Sample.nearbyA; Sample.nearbyB] = [Sample.nearbyA; Sample.nearbyB].
Proof.
  apply (sortedQuotes_fixed_point [Sample.nearbyA; Sample.nearbyB] []).
  repeat constructor.
Defined.

(** ** The margin colours of the renewal tab *)

(** X7. The renewal tab computes its margin colour classes in place; for
    the contract line and for every nearby quote (its margin read as 0 when
    absent) the class is the one [Utils.getGMStatusClass] gives the same
    margin. *)
Theorem renewal_margin_classes_agree
    (voc : Renewal.voc_line_info) (vq : Renewal.nearby_quote) (m : Q) :
  "bg-" ++ RenewalViews.vocGmClass voc
  = Utils.getGMStatusClass (Renewal.current_gm_percent voc)
  /\ "bg-" ++ Renewal.nc_gm_class (Renewal.card_of vq m)
     = Utils.getGMStatusClass (JS.num_or (Renewal.gm vq) 0).
Proof.
  unfold RenewalViews.vocGmClass, Renewal.card_of, Utils.getGMStatusClass. simpl.
  split.
  - destruct (JS.num_ge (Renewal.current_gm_percent voc) 50);
      [|destruct (JS.num_ge (Renewal.current_gm_percent voc) 40)]; reflexivity.
  - destruct (JS.num_ge (JS.num_or (Renewal.gm vq) 0) 50);
      [|destruct (JS.num_ge (JS.num_or (Renewal.gm vq) 0) 40)]; reflexivity.
Qed.

(** ** The price list tables of the renewal tab *)

Lemma filter_partition_perm {A} (f : A -> bool) (l : list A) :
  Permutation l (filter f l ++ filter (fun x => negb (f x)) l).
Proof.
  induction l as [|x r IH]; simpl; [constructor|].
  destruct (f x); simpl.
  - constructor. exact IH.
  - apply Permutation_cons_app. exact IH.
Qed.

Lemma table_of_rows (cls : string) (l : list RenewalViews.vpl) :
  match RenewalViews.table_of cls l with
  | Some rows => l <> [] /\ rows = map (RenewalViews.row_of cls) l
  | None => l = []
  end.
Proof. destruct l; simpl; [reflexivity | split; [discriminate | reflexivity]]. Qed.

(** X8. [displayRenewalVplOptions] splits the options by
    [is_current_vendor]: every option is in exactly one of the two lists and
    each list keeps the order of the payload.  When the payload has an
    option the section is shown, a table is written for each list that has
    an option and for no other, and at least one table is written; on an
    absent or empty list nothing changes. *)
Theorem vpl_options_partition (l : list RenewalViews.vpl) (st : RenewalViews.state) :
  l <> [] ->
  Permutation l (RenewalViews.currentVendorVpls l ++ RenewalViews.alternativeVendorVpls l)
  /\ Forall (fun v => RenewalViews.is_current_vendor v = true)
            (RenewalViews.currentVendorVpls l)
  /\ Forall (fun v => RenewalViews.is_current_vendor v = false)
            (RenewalViews.alternativeVendorVpls l)
  /\ RenewalViews.displayRenewalVplOptions None st = st
  /\ RenewalViews.displayRenewalVplOptions (Some []) st = st
  /\ JS.display (RenewalViews.doc (RenewalViews.displayRenewalVplOptions (Some l) st))
       "renewalVplSection" = true
  /\ exists t,
       RenewalViews.renewalVplList (RenewalViews.displayRenewalVplOptions (Some l) st)
       = Some t
       /\ (RenewalViews.current_table t = None
           <-> RenewalViews.currentVendorVpls l = [])
       /\ (RenewalViews.alternative_table t = None
           <-> RenewalViews.alternativeVendorVpls l = [])
       /\ (RenewalViews.current_table t <> None
           \/ RenewalViews.alternative_table t <> None).
Proof.
  intro Hl.
  split; [apply filter_partition_perm|].
  split; [apply Forall_forall; intros v Hv; apply filter_In in Hv; apply Hv|].
  split; [apply Forall_forall; intros v Hv; apply filter_In in Hv;
          apply negb_true_iff; apply Hv|].
  split; [reflexivity|]. split; [reflexivity|].
  destruct l as [|v r]; [congruence|].
  split; [reflexivity|].
  eexists. split; [reflexivity|]. cbn [RenewalViews.current_table RenewalViews.alternative_table].
  pose proof (table_of_rows "table-success" (RenewalViews.currentVendorVpls (v :: r))) as Hc.
  pose proof (table_of_rows "table-info" (RenewalViews.alternativeVendorVpls (v :: r))) as Ha.
  assert (Hp : Permutation (v :: r)
                 (RenewalViews.currentVendorVpls (v :: r)
                  ++ RenewalViews.alternativeVendorVpls (v :: r)))
    by apply filter_partition_perm.
  destruct (RenewalViews.table_of "table-success" (RenewalViews.currentVendorVpls (v :: r)))
    as [rows|];
  destruct (RenewalViews.table_of "table-info" (RenewalViews.alternativeVendorVpls (v :: r)))
    as [rows'|].
  - destruct Hc as [Hc _], Ha as [Ha _].
    repeat split; try discriminate; try congruence. left. discriminate.
  - destruct Hc as [Hc _].
    repeat split; try discriminate; try congruence. left. discriminate.
  - destruct Ha as [Ha _].
    repeat split; try discriminate; try congruence. right. discriminate.
  - rewrite Hc, Ha in Hp. simpl in Hp. apply Permutation_sym in Hp.
    apply Permutation_nil in Hp. discriminate.
Qed.

(** X8 on a payload with one option of the current vendor and one of
    another vendor, the other vendor first. *)
Lemma vpl_options_partition_witness :
  RenewalViews.renewalVplList
    (RenewalViews.displayRenewalVplOptions
       (Some [Cases.vpl_of "Other" false; Cases.vpl_of "Acme" true]) Cases.views0)
  = Some {| RenewalViews.current_table :=
              Some [RenewalViews.row_of "table-success" (Cases.vpl_of "Acme" true)];
            RenewalViews.alternative_table :=
              Some [RenewalViews.row_of "table-info" (Cases.vpl_of "Other" false)] |}.
Proof.
  destruct (vpl_options_partition
              [Cases.vpl_of "Other" false; Cases.vpl_of "Acme" true] Cases.views0)
    as (_ & _ & _ & _ & _ & _ & t & Ht & _).
  - discriminate.
  - reflexivity.
Defined.

(** ** When a computation throws, and what it has changed by then *)

Section Outcomes.

Context {S : Type}.

Lemma type_errors_ret {A} (a : A) : Props.throws_type_errors (@JS.ret S A a).
Proof. intros s e H. discriminate. Qed.

Lemma type_errors_get_state : Props.throws_type_errors (@JS.get_state S).
Proof. intros s e H. discriminate. Qed.

Lemma type_errors_modify (f : S -> S) : Props.throws_type_errors (JS.modify f).
Proof. intros s e H. discriminate. Qed.

Lemma type_errors_required {A} (prop : string) (x : option A) :
  Props.throws_type_errors (@JS.required S A prop x).
Proof.
  intros s e H. destruct x; simpl in H; [discriminate|].
  injection H as <-. exists prop. reflexivity.
Qed.

Lemma type_errors_bind {A B} (m : JS.js S A) (k : A -> JS.js S B) :
  Props.throws_type_errors m -> (forall a, Props.throws_type_errors (k a)) ->
  Props.throws_type_errors (JS.bind m k).
Proof.
  intros Hm Hk s e. unfold JS.bind.
  specialize (Hm s). destruct (m s) as [[a|e'] s']; simpl in *.
  - apply Hk.
  - intro H. injection H as <-. apply Hm. reflexivity.
Qed.

Lemma type_errors_forEach {A} (l : list A) (f : A -> JS.js S unit) :
  (forall x, Props.throws_type_errors (f x)) -> Props.throws_type_errors (JS.forEach l f).
Proof.
  intro Hf. induction l as [|x r IH]; simpl.
  - apply type_errors_ret.
  - apply type_errors_bind; [apply Hf | intros _; exact IH].
Qed.

Lemma type_errors_if {A} (b : bool) (m1 m2 : JS.js S A) :
  Props.throws_type_errors m1 -> Props.throws_type_errors m2 ->
  Props.throws_type_errors (if b then m1 else m2).
Proof. destruct b; auto. Qed.

Lemma decides_ret {A} (a : A) : Props.decides (@JS.ret S A a) true.
Proof. intro s. reflexivity. Qed.

Lemma decides_get_state : Props.decides (@JS.get_state S) true.
Proof. intro s. reflexivity. Qed.

Lemma decides_modify (f : S -> S) : Props.decides (JS.modify f) true.
Proof. intro s. reflexivity. Qed.

Lemma decides_required {A} (prop : string) (x : option A) :
  Props.decides (@JS.required S A prop x) (Props.present x).
Proof. intro s. destruct x; reflexivity. Qed.

Lemma decides_bind {A B} (m : JS.js S A) (k : A -> JS.js S B) (b1 b2 : bool) :
  Props.decides m b1 -> (forall a, Props.decides (k a) b2) ->
  Props.decides (JS.bind m k) (b1 && b2).
Proof.
  intros Hm Hk s. unfold JS.bind.
  specialize (Hm s). destruct (m s) as [[a|e] s']; simpl in *.
  - rewrite Hm. simpl. apply Hk.
  - rewrite Hm. reflexivity.
Qed.

Lemma decides_forEach {A} (l : list A) (f : A -> JS.js S unit) (ok : A -> bool) :
  (forall x, Props.decides (f x) (ok x)) -> Props.decides (JS.forEach l f) (forallb ok l).
Proof.
  intro Hf. induction l as [|x r IH]; simpl.
  - apply decides_ret.
  - apply decides_bind; [apply Hf | intros _; exact IH].
Qed.

Lemma decides_eq {A} (m : JS.js S A) (b b' : bool) :
  Props.decides m b -> b = b' -> Props.decides m b'.
Proof. intros H <-. exact H. Qed.

Context {X : Type}.
Variable obs : S -> X.
Variable F : X -> X.

Lemma changes_modify (f : S -> S) :
  (forall s, obs (f s) = F (obs s)) -> Props.changes_on_return obs F (JS.modify f).
Proof. intros H s. simpl. apply H. Qed.

Lemma changes_bind {A B} (m : JS.js S A) (k : A -> JS.js S B) :
  JS.keeps obs m -> (forall a, Props.changes_on_return obs F (k a)) ->
  Props.changes_on_return obs F (JS.bind m k).
Proof.
  intros Hm Hk s. unfold JS.bind.
  specialize (Hm s). destruct (m s) as [[a|e] s']; simpl in *.
  - specialize (Hk a s'). destruct (fst (k a s')); rewrite Hk, Hm; reflexivity.
  - exact Hm.
Qed.

End Outcomes.

Ltac type_errors_step :=
  first
    [ apply type_errors_ret
    | apply type_errors_get_state
    | apply type_errors_modify
    | apply type_errors_required
    | apply type_errors_if
    | apply type_errors_bind; [|intro]
    | apply type_errors_forEach; intro
    | match goal with
      | |- Props.throws_type_errors (match ?x with _ => _ end) => destruct x
      end ].

(** *** The renderers of the service tab *)

(** [displayResults] changes what is displayed only when it returns: it
    then shows the results and the quick statistics. *)
Lemma displayResults_display (data : Analyze.analysis) :
  Props.changes_on_return
    (fun st => JS.display (Analyze.doc st))
    (fun dsp => JS.upd "quickStats" true (JS.upd "resultsContainer" true dsp))
    (Analyze.displayResults data).
Proof.
  unfold Analyze.displayResults.
  repeat (apply changes_bind; [|intro]).
  all: try (apply changes_modify; intro; reflexivity).
  all: unfold Analyze.displayVendorQuotes, Analyze.displayNearbyQuotes,
         Analyze.displayVPLOptions, Analyze.quote_card, Analyze.jq_text.
  all: repeat first
         [ keeps_step
         | match goal with
           | |- JS.keeps _ (match ?x with _ => _ end) => destruct x
           end
         | apply keeps_modify; intro; simpl;
           repeat match goal with
                  | |- context [match ?x with _ => _ end] => destruct x
                  end; reflexivity ].
Qed.

Lemma displayResults_type_errors (data : Analyze.analysis) :
  Props.throws_type_errors (Analyze.displayResults data).
Proof.
  unfold Analyze.displayResults, Analyze.displayVendorQuotes,
    Analyze.displayNearbyQuotes, Analyze.displayVPLOptions, Analyze.quote_card.
  repeat type_errors_step.
Qed.

Lemma quote_card_decides (nearby : bool) (vq : Analyze.quote) :
  Props.decides (Analyze.quote_card nearby vq) (Props.quote_ok vq).
Proof.
  intro s. unfold Analyze.quote_card, Props.quote_ok, JS.bind, JS.get_state.
  destruct (Analyze.has_negotiation_history vq); [|reflexivity].
  destruct (Analyze.negotiation_stats_of vq); reflexivity.
Qed.

Lemma displayResults_decides (data : Analyze.analysis) :
  Props.decides (Analyze.displayResults data) (Props.renderable data).
Proof.
  assert (Hq : forall nearby set vq,
            Props.decides (JS.bind (Analyze.quote_card nearby vq)
                             (fun c => JS.modify (set c))) (Props.quote_ok vq)).
  { intros nearby set vq.
    eapply decides_eq;
      [ apply decides_bind; [apply quote_card_decides | intro; apply decides_modify]
      | apply andb_true_r ]. }
  assert (Hvq : forall l, Props.decides (Analyze.displayVendorQuotes l)
                            (forallb Props.quote_ok (Props.items l))).
  { intro l. unfold Analyze.displayVendorQuotes.
    eapply decides_eq; [apply decides_bind; [apply decides_modify|intro]|reflexivity].
    destruct l as [[|q r]|]; try apply decides_modify.
    apply decides_forEach. intro vq. apply Hq. }
  assert (Hnq : forall l, Props.decides (Analyze.displayNearbyQuotes l)
                            (forallb Props.quote_ok (Props.items l))).
  { intro l. unfold Analyze.displayNearbyQuotes.
    eapply decides_eq; [apply decides_bind; [apply decides_modify|intro]|reflexivity].
    destruct l as [[|q r]|]; try apply decides_modify.
    apply decides_forEach. intro vq. apply Hq. }
  assert (Hvpl : forall l, Props.decides (Analyze.displayVPLOptions l)
                   (forallb (fun v => Props.present (Analyze.options v)) (Props.items l))).
  { intro l. unfold Analyze.displayVPLOptions.
    eapply decides_eq; [apply decides_bind; [apply decides_modify|intro]|reflexivity].
    destruct l as [[|q r]|]; try apply decides_modify.
    apply decides_forEach. intro v.
    eapply decides_eq;
      [ apply decides_bind; [apply decides_required | intro; apply decides_modify]
      | apply andb_true_r ]. }
  unfold Analyze.displayResults, Props.renderable.
  eapply decides_eq.
  - apply decides_bind; [apply decides_required | intro].
    apply decides_bind; [apply decides_modify | intro].
    apply decides_bind; [apply decides_required | intro].
    apply decides_bind; [apply decides_modify | intro].
    apply decides_bind; [apply Hvq | intro].
    apply decides_bind; [apply Hnq | intro].
    apply decides_bind; [apply Hvpl | intro].
    apply decides_modify.
  - simpl.
    destruct (Props.present (Analyze.service data)),
             (Props.present (Analyze.counts data)),
             (forallb Props.quote_ok (Props.items (Analyze.vendor_quotes data)));
      simpl; try reflexivity.
    destruct (Analyze.nearby_quotes data) as [l|]; simpl;
      rewrite ?andb_true_r; reflexivity.
Qed.

(** ** A success response of the service analysis *)

(** X9. When the service analysis gets a success response whose body was
    parsed, the payload is stored in [currentServiceData] and the loading
    indicator is hidden, whatever follows.  The renderer runs to its end
    exactly when the payload has a service and counts, every quote flagged
    with a negotiation history carries its statistics and every price-list
    vendor has its options: then the results and the quick statistics are
    shown and no error banner.  For every other payload a read of a missing
    object throws: the banner is shown with the message of the exception,
    the welcome message comes back and the results stay hidden. *)
Theorem success_response_rendered_or_reported (id : string) (data : Analyze.analysis)
    (st : Analyze.state) :
  Analyze.currentServiceData
    (Analyze.analyzeService id (JS.Resolved true (JS.JsonBody data)) st) = Some data
  /\ JS.display (Analyze.doc
       (Analyze.analyzeService id (JS.Resolved true (JS.JsonBody data)) st))
       "loadingSpinner" = false
  /\ ((Props.renderable data = true
       /\ JS.display (Analyze.doc
            (Analyze.analyzeService id (JS.Resolved true (JS.JsonBody data)) st))
            "resultsContainer" = true
       /\ JS.display (Analyze.doc
            (Analyze.analyzeService id (JS.Resolved true (JS.JsonBody data)) st))
            "quickStats" = true
       /\ JS.display (Analyze.doc
            (Analyze.analyzeService id (JS.Resolved true (JS.JsonBody data)) st))
            "errorAlert" = false)
      \/ (Props.renderable data = false
          /\ JS.display (Analyze.doc
               (Analyze.analyzeService id (JS.Resolved true (JS.JsonBody data)) st))
               "resultsContainer" = false
          /\ JS.display (Analyze.doc
               (Analyze.analyzeService id (JS.Resolved true (JS.JsonBody data)) st))
               "errorAlert" = true
          /\ (exists prop,
                JS.textContent (Analyze.doc
                  (Analyze.analyzeService id (JS.Resolved true (JS.JsonBody data)) st))
                  "errorMessage"
                = JS.message (JS.UndefinedProperty prop))
          /\ JS.display (Analyze.doc
               (Analyze.analyzeService id (JS.Resolved true (JS.JsonBody data)) st))
               "welcomeMessage" = true)).
Proof.
  split; [apply (analyzeService_variables id (JS.Resolved true (JS.JsonBody data)) st)|].
  split; [apply analyzeService_spinner|].
  unfold Analyze.analyzeService, Analyze.analyzeService_settle, JS.exec,
    JS.try_finally, JS.try_catch.
  rewrite analyzeService_try_ok.
  remember (Analyze.set_currentServiceData data (Analyze.analyzeService_start id st))
    as s1 eqn:E1.
  pose proof (displayResults_display data s1) as Hd.
  pose proof (displayResults_type_errors data s1) as Ht.
  pose proof (displayResults_decides data s1) as Hdec.
  assert (H1 : JS.display (Analyze.doc s1) "resultsContainer" = false
               /\ JS.display (Analyze.doc s1) "errorAlert" = false)
    by (subst s1; split; reflexivity).
  destruct H1 as [Hres Herr].
  destruct (Analyze.displayResults data s1) as [[u|e] s2]; simpl in Hd, Ht, Hdec.
  - left. split; [exact Hdec|]. simpl.
    rewrite Hd. unfold JS.upd. simpl. rewrite Herr. repeat split.
  - right. split; [exact Hdec|].
    destruct (Ht e eq_refl) as [prop ->].
    simpl. unfold JS.upd. simpl. rewrite Hd. rewrite Hres.
    repeat split. exists prop. reflexivity.
Qed.

(** ** The vendor quote cards up to a quote that cannot be rendered *)

Lemma forEach_app {S A} (l1 l2 : list A) (f : A -> JS.js S unit) (s : S) :
  JS.forEach (l1 ++ l2) f s
  = match JS.forEach l1 f s with
    | (JS.Normal _, s') => JS.forEach l2 f s'
    | (JS.Abrupt e, s') => (JS.Abrupt e, s')
    end.
Proof.
  revert s. induction l1 as [|x r IH]; intro s.
  - reflexivity.
  - change ((x :: r) ++ l2)%list with (x :: (r ++ l2))%list.
    rewrite !forEach_cons. destruct (f x s) as [[u|e] s']; [apply IH | reflexivity].
Qed.

Lemma forEach_vendor_cards (l : list Analyze.quote) :
  forall (st : Analyze.state) (acc : list Analyze.card),
  Analyze.vendorQuotesContainer st = Analyze.Items acc ->
  forallb Props.quote_ok l = true ->
  exists s',
    JS.forEach l (fun vq =>
      JS.bind (Analyze.quote_card false vq) (fun c =>
        JS.modify (Analyze.with_vendorQuotes (Analyze.append_item c)))) st
    = (JS.Normal tt, s')
    /\ Analyze.vendorQuotesContainer s'
       = Analyze.Items
           (acc ++ map (fun q => Analyze.card_of (Analyze.currentServiceId st) false q
                                   (Spec.negotiations_of q)) l)%list
    /\ Analyze.currentServiceId s' = Analyze.currentServiceId st.
Proof.
  induction l as [|q r IH]; intros st acc Hacc Hall.
  - exists st. simpl. rewrite app_nil_r. auto.
  - simpl in Hall. apply andb_true_iff in Hall. destruct Hall as [Hq Hr].
    rewrite forEach_cons.
    rewrite (bind_normal _ _ _ _ _
               (quote_card_normal false q st (quote_ok_renders q Hq))).
    unfold JS.modify at 1.
    destruct (IH (Analyze.with_vendorQuotes
                    (Analyze.append_item
                       (Analyze.card_of (Analyze.currentServiceId st) false q
                          (Spec.negotiations_of q))) st)
                 (acc ++ [Analyze.card_of (Analyze.currentServiceId st) false q
                            (Spec.negotiations_of q)])%list)
      as (s' & E & Hc & Hi).
    + simpl. rewrite Hacc. reflexivity.
    + exact Hr.
    + exists s'. split; [exact E|]. split; [|exact Hi].
      rewrite Hc. simpl. rewrite <- app_assoc. reflexivity.
Qed.

(** X10. [displayVendorQuotes] appends the cards one by one: when a quote
    is flagged as having a negotiation history and carries no statistics,
    the cards of the quotes before it are in the container, the quote and
    those after it have none, and the exception of the missing statistics
    leaves the function. *)
Theorem vendor_quotes_rendered_up_to_failure
    (before after : list Analyze.quote) (bad : Analyze.quote) (st : Analyze.state) :
  forallb Props.quote_ok before = true ->
  Props.quote_ok bad = false ->
  fst (Analyze.displayVendorQuotes (Some (before ++ bad :: after)%list) st)
  = JS.Abrupt (JS.UndefinedProperty "total_negotiations")
  /\ Analyze.vendorQuotesContainer
       (snd (Analyze.displayVendorQuotes (Some (before ++ bad :: after)%list) st))
     = Analyze.Items
         (map (fun q => Analyze.card_of (Analyze.currentServiceId st) false q
                          (Spec.negotiations_of q)) before).
Proof.
  intros Hb Hbad.
  assert (E : Analyze.displayVendorQuotes (Some (before ++ bad :: after)%list) st
              = JS.forEach (before ++ bad :: after)%list (fun vq =>
                  JS.bind (Analyze.quote_card false vq) (fun c =>
                    JS.modify (Analyze.with_vendorQuotes (Analyze.append_item c))))
                  (Analyze.with_vendorQuotes (fun _ => Analyze.Items []) st)).
  { unfold Analyze.displayVendorQuotes. destruct before; reflexivity. }
  rewrite E, forEach_app.
  destruct (forEach_vendor_cards before
              (Analyze.with_vendorQuotes (fun _ => Analyze.Items []) st) []
              eq_refl Hb) as (s' & E' & Hc & Hi).
  rewrite E', forEach_cons.
  assert (Eb : Analyze.quote_card false bad s'
               = (JS.Abrupt (JS.UndefinedProperty "total_negotiations"), s')).
  { unfold Props.quote_ok in Hbad. unfold Analyze.quote_card, JS.bind, JS.get_state.
    destruct (Analyze.has_negotiation_history bad); [|discriminate].
    destruct (Analyze.negotiation_stats_of bad); [discriminate | reflexivity]. }
  rewrite (bind_abrupt _ _ _ _ _ Eb). simpl. split; [reflexivity | exact Hc].
Qed.

(** X10 on three quotes, the second without its statistics. *)
Lemma vendor_quotes_rendered_up_to_failure_witness :
  Analyze.vendorQuotesContainer
    (snd (Analyze.displayVendorQuotes
            (Some [Cases.quote_with_history "A" (Some Cases.stats3);
                   Cases.quote_with_history "B" None;
                   Sample.quoteA]) Sample.analyze0))
  = Analyze.Items
      [Analyze.card_of None false (Cases.quote_with_history "A" (Some Cases.stats3))
         (Some (3, 50))].
Proof.
  apply (vendor_quotes_rendered_up_to_failure
           [Cases.quote_with_history "A" (Some Cases.stats3)] [Sample.quoteA]
           (Cases.quote_with_history "B" None) Sample.analyze0); reflexivity.
Defined.

(** ** The nearby quotes of the renewal view: all cards or none *)

Lemma build_cards_state (l : list Renewal.nearby_quote) (st : Renewal.state) :
  snd (Renewal.build_cards l st) = st.
Proof. exact (keeps_build_cards (fun s => s) l st). Qed.

Lemma build_cards_throws (l : list Renewal.nearby_quote) (st : Renewal.state) :
  Exists (fun q => Renewal.mrc q = None) l ->
  fst (Renewal.build_cards l st) = JS.Abrupt (JS.UndefinedProperty "toFixed").
Proof.
  induction l as [|q r IH]; intro H; [inversion H|].
  simpl. unfold JS.bind at 1. unfold Renewal.nearby_quote_card at 1.
  destruct (Renewal.mrc q) as [m|] eqn:Em; [|reflexivity].
  simpl. unfold JS.bind at 1.
  assert (Hr : Exists (fun q => Renewal.mrc q = None) r)
    by (inversion H; subst; [congruence | assumption]).
  specialize (IH Hr).
  destruct (Renewal.build_cards r st) as [[cs|e] s']; simpl in *;
    [discriminate | exact IH].
Qed.

(** X11. [displayNearbyQuotes] of the renewal tab builds every card
    before it writes any: when one quote of the payload has no [mrc], the
    function throws and leaves the whole state -- the cards rendered
    earlier, the section -- as it was, wherever the quote stands in the
    list.  The exception is the one of the first read that fails: of
    [currency] on a body without service, of [vendor_name] on a body without
    contract line, else of [toFixed] on the missing [mrc]. *)
Theorem renewal_nearby_quotes_all_or_nothing
    (data : Renewal.payload) (l : list Renewal.nearby_quote) (st : Renewal.state) :
  Renewal.nearby_quotes data = Some l ->
  Exists (fun q => Renewal.mrc q = None) l ->
  Renewal.displayNearbyQuotes data st
  = (JS.Abrupt (JS.UndefinedProperty
                  (if negb (Props.present (Renewal.service data)) then "currency"
                   else if negb (Props.present (Renewal.voc_line data)) then "vendor_name"
                   else "toFixed")),
     st).
Proof.
  intros Hdata Hex.
  destruct l as [|q r]; [inversion Hex|].
  destruct (Renewal.service data) as [svc|] eqn:Es;
    [|unfold Renewal.displayNearbyQuotes; rewrite Hdata, Es; reflexivity].
  destruct (Renewal.voc_line data) as [voc|] eqn:Ev;
    [|unfold Renewal.displayNearbyQuotes; rewrite Hdata, Es, Ev; reflexivity].
  rewrite (renewal_displayNearbyQuotes_body data q r st Hdata)
    by (rewrite ?Es, ?Ev; discriminate).
  assert (Hs : Exists (fun q => Renewal.mrc q = None) (Renewal.sortedQuotes (q :: r))).
  { apply Exists_exists in Hex. destruct Hex as [x [Hin Hx]].
    apply Exists_exists. exists x. split; [|exact Hx].
    apply (Permutation_in x (sort_perm Renewal.compareNearby (q :: r))). exact Hin. }
  pose proof (build_cards_throws _ st Hs) as Hf.
  pose proof (build_cards_state (Renewal.sortedQuotes (q :: r)) st) as Hst.
  unfold JS.bind.
  destruct (Renewal.build_cards (Renewal.sortedQuotes (q :: r)) st) as [c s'].
  simpl in Hf, Hst. subst. reflexivity.
Qed.

(** X11 on the quotes B and A followed by a quote without [mrc], in a
    body with its service and its contract line. *)
Lemma renewal_nearby_quotes_all_or_nothing_witness :
  Renewal.displayNearbyQuotes
    (Sample.renewal_with_nearby
       (Some [Sample.nearbyB; Sample.nearbyA; Cases.nearby_without_mrc]))
    Sample.renewal0
  = (JS.Abrupt (JS.UndefinedProperty "toFixed"), Sample.renewal0).
Proof.
  apply (renewal_nearby_quotes_all_or_nothing
           (Sample.renewal_with_nearby
              (Some [Sample.nearbyB; Sample.nearbyA; Cases.nearby_without_mrc]))
           [Sample.nearbyB; Sample.nearbyA; Cases.nearby_without_mrc]).
  - reflexivity.
  - apply Exists_cons_tl, Exists_cons_tl, Exists_cons_hd. reflexivity.
Defined.

(** ** A parsed body in the renewal tab *)

Lemma displayRenewalResults_changes (data : Renewal.payload) :
  Props.changes_on_return
    (fun st => (JS.display (Renewal.doc st) "renewalErrorAlert",
                JS.display (Renewal.doc st) "renewalResults"))
    (fun p => (fst p, true))
    (Renewal.displayRenewalResults data).
Proof.
  unfold Renewal.displayRenewalResults.
  repeat (apply changes_bind; [|intro]).
  all: try (apply changes_modify; intro; reflexivity).
  all: unfold Renewal.displayNearbyQuotes, Renewal.displayRecommendations.
  all: repeat first
         [ keeps_step
         | apply keeps_build_cards
         | match goal with
           | |- JS.keeps _ (match ?x with _ => _ end) => destruct x
           end ].
Qed.

(** When the renderer returns, the three objects it reads first were
    there. *)
Lemma displayRenewalResults_decides_objects (data : Renewal.payload) (s : Renewal.state) :
  match fst (Renewal.displayRenewalResults data s) with
  | JS.Normal _ =>
      Props.present (Renewal.service data) && Props.present (Renewal.voc_line data)
      && Props.present (Renewal.current_vendor_stats data) = true
  | JS.Abrupt _ => True
  end.
Proof.
  unfold Renewal.displayRenewalResults.
  destruct (Renewal.service data); [|exact I].
  destruct (Renewal.voc_line data); [|exact I].
  destruct (Renewal.current_vendor_stats data); [|exact I].
  match goal with |- match fst ?x with _ => _ end => destruct (fst x) end;
    [reflexivity | exact I].
Qed.

(** X12. On a body that was parsed, the renewal controller does not look
    at the status of the response.  A body with a non-empty error string
    ends with the banner showing that string as it came and the results
    hidden.  Any other body is handed to the renderer and ends either with
    the results shown and no banner, or -- when the renderer throws -- with
    the results hidden and the banner showing the message of the exception
    after the words Network error; this is what happens to a body without
    [service], [voc_line] or [current_vendor_stats]. *)
Theorem renewal_body_rendered_or_reported (id : string) (ok : bool)
    (data : Renewal.payload) (st : Renewal.state) :
  Renewal.analyzeRenewal id (JS.Resolved ok (JS.JsonBody data)) st
  = Renewal.analyzeRenewal id (JS.Resolved (negb ok) (JS.JsonBody data)) st
  /\ (if JS.truthy_opt (Renewal.error data) then
        JS.display (Renewal.doc
          (Renewal.analyzeRenewal id (JS.Resolved ok (JS.JsonBody data)) st))
          "renewalErrorAlert" = true
        /\ Some (JS.textContent (Renewal.doc
             (Renewal.analyzeRenewal id (JS.Resolved ok (JS.JsonBody data)) st))
             "renewalErrorMessage") = Renewal.error data
        /\ JS.display (Renewal.doc
             (Renewal.analyzeRenewal id (JS.Resolved ok (JS.JsonBody data)) st))
             "renewalResults" = false
      else
        (JS.display (Renewal.doc
           (Renewal.analyzeRenewal id (JS.Resolved ok (JS.JsonBody data)) st))
           "renewalResults" = true
         /\ JS.display (Renewal.doc
              (Renewal.analyzeRenewal id (JS.Resolved ok (JS.JsonBody data)) st))
              "renewalErrorAlert" = false
         /\ Props.present (Renewal.service data) && Props.present (Renewal.voc_line data)
            && Props.present (Renewal.current_vendor_stats data) = true)
        \/ (JS.display (Renewal.doc
              (Renewal.analyzeRenewal id (JS.Resolved ok (JS.JsonBody data)) st))
              "renewalResults" = false
            /\ JS.display (Renewal.doc
                 (Renewal.analyzeRenewal id (JS.Resolved ok (JS.JsonBody data)) st))
                 "renewalErrorAlert" = true
            /\ exists e,
                 JS.textContent (Renewal.doc
                   (Renewal.analyzeRenewal id (JS.Resolved ok (JS.JsonBody data)) st))
                   "renewalErrorMessage" = "Network error: " ++ JS.message e)).
Proof.
  split; [reflexivity|].
  unfold Renewal.analyzeRenewal, Renewal.analyzeRenewal_settle, JS.exec.
  rewrite analyzeRenewal_chain_body.
  destruct (JS.truthy_opt (Renewal.error data)) eqn:Eerr.
  - destruct (Renewal.error data) as [[|c r]|]; try discriminate.
    repeat split.
  - unfold JS.try_catch.
    remember (Renewal.with_doc (JS.set_display "renewalLoadingSpinner" false)
                (Renewal.analyzeRenewal_start id st)) as s1 eqn:E1.
    pose proof (displayRenewalResults_changes data s1) as Hc.
    pose proof (displayRenewalResults_decides_objects data s1) as Hd.
    assert (H1 : JS.display (Renewal.doc s1) "renewalErrorAlert" = false
                 /\ JS.display (Renewal.doc s1) "renewalResults" = false)
      by (subst s1; split; reflexivity).
    destruct H1 as [Ha Hr].
    destruct (Renewal.displayRenewalResults data s1) as [[u|e] s2]; simpl in Hc, Hd.
    + left. injection Hc as Hc1 Hc2. simpl. rewrite Hc1, Hc2, Ha.
      repeat split. exact Hd.
    + right. injection Hc as Hc1 Hc2. simpl. unfold JS.upd. simpl.
      rewrite Hc2, Hr. repeat split. exists e. reflexivity.
Qed.

(** ** A parsed body in the vendor tab *)

(** X13. On a body that was parsed, the vendor controller does not look
    at the status of the response, and its renderer cannot throw.  A body
    with a non-empty error string ends with the banner showing that string
    as it came and the results hidden; every other body -- an empty object
    too -- ends with the results and the quick summary shown, no banner, and
    the two history counters showing the lengths of the two histories, 0
    for an absent one. *)
Theorem vendor_body_rendered_or_reported (name : string) (ok : bool)
    (data : Vendor.payload) (st : Vendor.state) :
  Vendor.analyzeVendor name (JS.Resolved ok (JS.JsonBody data)) st
  = Vendor.analyzeVendor name (JS.Resolved (negb ok) (JS.JsonBody data)) st
  /\ (if JS.truthy_opt (Vendor.error data) then
        JS.display (Vendor.doc
          (Vendor.analyzeVendor name (JS.Resolved ok (JS.JsonBody data)) st))
          "vendorErrorAlert" = true
        /\ Some (JS.textContent (Vendor.doc
             (Vendor.analyzeVendor name (JS.Resolved ok (JS.JsonBody data)) st))
             "vendorErrorMessage") = Vendor.error data
        /\ JS.display (Vendor.doc
             (Vendor.analyzeVendor name (JS.Resolved ok (JS.JsonBody data)) st))
             "vendorResults" = false
      else
        JS.display (Vendor.doc
          (Vendor.analyzeVendor name (JS.Resolved ok (JS.JsonBody data)) st))
          "vendorResults" = true
        /\ JS.display (Vendor.doc
             (Vendor.analyzeVendor name (JS.Resolved ok (JS.JsonBody data)) st))
             "vendorQuickSummary" = true
        /\ JS.display (Vendor.doc
             (Vendor.analyzeVendor name (JS.Resolved ok (JS.JsonBody data)) st))
             "vendorErrorAlert" = false
        /\ JS.textContent (Vendor.doc
             (Vendor.analyzeVendor name (JS.Resolved ok (JS.JsonBody data)) st))
             "renewalHistoryCount"
           = JS.digits (Z.of_nat (List.length (Props.items (Vendor.renewal_history data))))
        /\ JS.textContent (Vendor.doc
             (Vendor.analyzeVendor name (JS.Resolved ok (JS.JsonBody data)) st))
             "newContractHistoryCount"
           = JS.digits (Z.of_nat
               (List.length (Props.items (Vendor.new_contract_history data))))).
Proof.
  split; [reflexivity|].
  unfold Vendor.analyzeVendor, Vendor.analyzeVendor_settle, JS.exec.
  rewrite analyzeVendor_chain_body.
  destruct (JS.truthy_opt (Vendor.error data)) eqn:Eerr.
  - destruct (Vendor.error data) as [[|c r]|]; try discriminate.
    repeat split.
  - unfold JS.try_catch, Vendor.displayVendorResults, JS.modify, Props.items.
    destruct (Vendor.renewal_history data) as [[|r1 rs]|];
      destruct (Vendor.new_contract_history data) as [[|c1 cs]|];
      repeat split.
Qed.

(** ** The history tables of the vendor tab *)

(** X14. Each of the two history tables of the vendor tab shows the
    placeholder alert exactly when its list is empty -- a list with an entry
    never gives the placeholder and an empty one never gives a table -- and
    its counter shows the length of the list. *)
Theorem vendor_history_placeholder
    (renewals : list Vendor.renewal) (contracts : list Vendor.contract)
    (d : JS.document) :
  (JS.innerHTML (Vendor.displayRenewalHistory renewals d) "renewalHistoryContainer"
   = Vendor.alert_info "No renewal history found for this vendor"
   <-> renewals = [])
  /\ JS.textContent (Vendor.displayRenewalHistory renewals d) "renewalHistoryCount"
     = JS.digits (Z.of_nat (List.length renewals))
  /\ (JS.innerHTML (Vendor.displayNewContractHistory contracts d)
        "newContractHistoryContainer"
      = Vendor.alert_info "No new contract history found for this vendor"
      <-> contracts = [])
  /\ JS.textContent (Vendor.displayNewContractHistory contracts d)
       "newContractHistoryCount"
     = JS.digits (Z.of_nat (List.length contracts)).
Proof.
  split; [|split; [|split]].
  - destruct renewals as [|r rs]; [split; reflexivity|].
    split; [|discriminate]. intro H. exfalso.
    change (Vendor.table_open
              ["Service ID"; "Date"; "Original MRC"; "Renewed MRC"; "Discount"; "Status"]
            ++ (JS.concat_map Vendor.renewal_row (r :: rs) ++ Vendor.table_close)
            = Vendor.alert_info "No renewal history found for this vendor") in H.
    revert H. generalize (JS.concat_map Vendor.renewal_row (r :: rs) ++ Vendor.table_close).
    intros s H. cbv in H. discriminate H.
  - destruct renewals; reflexivity.
  - destruct contracts as [|c cs]; [split; reflexivity|].
    split; [|discriminate]. intro H. exfalso.
    change (Vendor.table_open
              ["Quote ID"; "Date"; "Service ID"; "Bandwidth"; "MRC"; "Status"]
            ++ (JS.concat_map Vendor.contract_row (c :: cs) ++ Vendor.table_close)
            = Vendor.alert_info "No new contract history found for this vendor") in H.
    revert H. generalize (JS.concat_map Vendor.contract_row (c :: cs) ++ Vendor.table_close).
    intros s H. cbv in H. discriminate H.
  - destruct contracts; reflexivity.
Qed.

(** ** The strategy modal once the call has settled *)

(** The cards of the recommendations: one for each when every
    recommendation has its actions; else the loop throws on the first one
    without, and nothing has changed. *)
Lemma recommendation_cards_normal (l : list Strategy.recommendation) (s : Strategy.state) :
  forallb (fun r => Props.present (Strategy.actions r)) l = true ->
  exists cs, Strategy.recommendation_cards l s = (JS.Normal cs, s)
             /\ List.length cs = List.length l.
Proof.
  induction l as [|r rest IH]; intro H.
  - exists []. split; reflexivity.
  - simpl in H. apply andb_true_iff in H. destruct H as [Hr Hrest].
    destruct (IH Hrest) as [cs [E Hlen]].
    destruct (Strategy.actions r) as [acts|] eqn:Ea; [|discriminate].
    assert (Hc : exists c, Strategy.recommendation_card_of r s = (JS.Normal c, s)).
    { unfold Strategy.recommendation_card_of. rewrite Ea. eexists. reflexivity. }
    destruct Hc as [c Hc]. exists (c :: cs). split.
    + change (Strategy.recommendation_cards (r :: rest))
        with (JS.bind (Strategy.recommendation_card_of r) (fun c =>
                JS.bind (Strategy.recommendation_cards rest) (fun cs =>
                  JS.ret (c :: cs)))).
      rewrite (bind_normal _ _ _ _ _ Hc), (bind_normal _ _ _ _ _ E). reflexivity.
    + simpl. rewrite Hlen. reflexivity.
Qed.

Lemma recommendation_cards_abrupt (l : list Strategy.recommendation) (s : Strategy.state) :
  forallb (fun r => Props.present (Strategy.actions r)) l = false ->
  Strategy.recommendation_cards l s = (JS.Abrupt (JS.UndefinedProperty "forEach"), s).
Proof.
  induction l as [|r rest IH]; intro H; [discriminate|].
  change (Strategy.recommendation_cards (r :: rest))
    with (JS.bind (Strategy.recommendation_card_of r) (fun c =>
            JS.bind (Strategy.recommendation_cards rest) (fun cs =>
              JS.ret (c :: cs)))).
  simpl in H.
  destruct (Strategy.actions r) as [acts|] eqn:Ea.
  - assert (Hc : exists c, Strategy.recommendation_card_of r s = (JS.Normal c, s)).
    { unfold Strategy.recommendation_card_of. rewrite Ea. eexists. reflexivity. }
    destruct Hc as [c Hc]. rewrite (bind_normal _ _ _ _ _ Hc).
    apply bind_abrupt. apply IH. exact H.
  - apply bind_abrupt. unfold Strategy.recommendation_card_of. rewrite Ea. reflexivity.
Qed.

(** [displayStrategy] on a payload that can be rendered writes the blocks
    of the payload, in the order of the page, and shows them; on any other
    payload it throws on the first missing object and has written
    nothing. *)
Lemma displayStrategy_outcome (data : Strategy.payload) (s : Strategy.state) :
  if Props.strategy_renderable data then
    exists secs,
      Strategy.displayStrategy data s
      = (JS.Normal tt,
         Strategy.with_page
           (Analyze.with_doc (JS.set_display "strategyContent" true))
           (Strategy.set_content (Strategy.Sections secs) s))
      /\ map Props.kind secs = Props.blocks_of data
      /\ (forall cs, In (Strategy.RecommendedStrategy cs) secs ->
            List.length cs
            = List.length (Props.items (Strategy.recommendations data)))
  else
    exists prop,
      Strategy.displayStrategy data s = (JS.Abrupt (JS.UndefinedProperty prop), s).
Proof.
  unfold Props.strategy_renderable, Props.blocks_of, Strategy.displayStrategy.
  destruct (Strategy.quote data) as [q|]; [|exists "current_gm"; reflexivity].
  destruct (Strategy.service data) as [svc|]; [|exists "service_id"; reflexivity].
  destruct (Strategy.targets data) as [ts|]; [|exists "gm_40"; reflexivity].
  rewrite !bind_required_some.
  destruct (Strategy.gm_40 ts) as [t40|]; [|exists "target_mrc"; reflexivity].
  rewrite bind_required_some.
  destruct (Strategy.gm_50 ts) as [t50|]; [|exists "target_mrc"; reflexivity].
  rewrite bind_required_some.
  cbn [Props.present andb].
  assert (Hkinds : forall cards,
            map Props.kind
              ([Strategy.CurrentSituation
                  (Utils.escapeHtml (Strategy.service_id svc))
                  (Utils.escapeHtml (Strategy.customer svc))
                  (Utils.escapeHtml (Strategy.bandwidth_display svc))
                  (Strategy.client_mrc svc)
                  (Utils.escapeHtml (Strategy.vendor_name q))
                  (Badges.interpolate (Strategy.quickbase_id q))
                  (Strategy.current_mrc q)
                  (Utils.getGMStatusClass (Strategy.current_gm q))
                  (Utils.getGMStatusText (Strategy.current_gm q))
                  (Utils.escapeHtml (Strategy.lead_time q))
                  (Utils.escapeHtml (Strategy.status q));
                match Strategy.negotiation_history data with
                | Some h => Strategy.NegotiationHistory
                              (Utils.escapeHtml (Strategy.vendor_name q)) h
                              (Utils.getGMStatusClass (Strategy.projected_gm h))
                | None => Strategy.NoHistoryNotice
                end;
                Strategy.TargetMargins t40 t50]
               ++ Strategy.vpl_block data q ++ Strategy.alternatives_block data ++ cards)%list
            = ([Props.Situation;
                if Props.present (Strategy.negotiation_history data)
                then Props.History else Props.Notice;
                Props.Targets]
               ++ (if Props.has_entry (Strategy.vendor_vpl data)
                   then [Props.PriceList] else [])
               ++ (if Props.has_entry (Strategy.alternatives data)
                   then [Props.Alternatives] else [])
               ++ map Props.kind cards)%list).
  { intro cards. unfold Strategy.vpl_block, Strategy.alternatives_block.
    rewrite !map_app.
    destruct (Strategy.negotiation_history data);
      destruct (Strategy.vendor_vpl data) as [[|v vs]|];
      destruct (Strategy.alternatives data) as [[|a al]|]; reflexivity. }
  assert (Hin : forall cards cs,
            In (Strategy.RecommendedStrategy cs)
              ([Strategy.CurrentSituation
                  (Utils.escapeHtml (Strategy.service_id svc))
                  (Utils.escapeHtml (Strategy.customer svc))
                  (Utils.escapeHtml (Strategy.bandwidth_display svc))
                  (Strategy.client_mrc svc)
                  (Utils.escapeHtml (Strategy.vendor_name q))
                  (Badges.interpolate (Strategy.quickbase_id q))
                  (Strategy.current_mrc q)
                  (Utils.getGMStatusClass (Strategy.current_gm q))
                  (Utils.getGMStatusText (Strategy.current_gm q))
                  (Utils.escapeHtml (Strategy.lead_time q))
                  (Utils.escapeHtml (Strategy.status q));
                match Strategy.negotiation_history data with
                | Some h => Strategy.NegotiationHistory
                              (Utils.escapeHtml (Strategy.vendor_name q)) h
                              (Utils.getGMStatusClass (Strategy.projected_gm h))
                | None => Strategy.NoHistoryNotice
                end;
                Strategy.TargetMargins t40 t50]
               ++ Strategy.vpl_block data q ++ Strategy.alternatives_block data ++ cards)%list ->
            In (Strategy.RecommendedStrategy cs) cards).
  { intros cards cs H. unfold Strategy.vpl_block, Strategy.alternatives_block in H.
    destruct (Strategy.negotiation_history data);
      destruct (Strategy.vendor_vpl data) as [[|v vs]|];
      destruct (Strategy.alternatives data) as [[|a al]|];
      simpl in H;
      repeat match goal with
             | H : _ \/ _ |- _ => destruct H as [H|H]; [discriminate H|]
             end; exact H. }
  destruct (Strategy.recommendations data) as [[|r rest]|].
  - eexists. split; [reflexivity|]. split.
    + rewrite Hkinds. reflexivity.
    + intros cs H. apply Hin in H. destruct H.
  - cbn [Props.items Props.has_entry].
    remember (r :: rest) as recs eqn:Hrecs.
    destruct (forallb (fun r0 => Props.present (Strategy.actions r0)) recs) eqn:Hall.
    + destruct (recommendation_cards_normal recs s Hall) as [cs [E Hlen]].
      assert (Eb : (match recs with
                    | [] => JS.ret []
                    | r0 :: rest0 =>
                        JS.bind (Strategy.recommendation_cards (r0 :: rest0)) (fun cs0 =>
                          JS.ret [Strategy.RecommendedStrategy cs0])
                    end) s
                   = (JS.Normal [Strategy.RecommendedStrategy cs], s)).
      { rewrite Hrecs. rewrite <- Hrecs. rewrite (bind_normal _ _ _ _ _ E). reflexivity. }
      subst recs.
      rewrite (bind_normal _ _ _ _ _ Eb).
      eexists. split; [reflexivity|]. split.
      * rewrite Hkinds. reflexivity.
      * intros cs' H. apply Hin in H. destruct H as [H|[]].
        injection H as <-. exact Hlen.
    + pose proof (recommendation_cards_abrupt recs s Hall) as E.
      exists "forEach". subst recs.
      apply bind_abrupt. apply bind_abrupt. exact E.
  - eexists. split; [reflexivity|]. split.
    + rewrite Hkinds. reflexivity.
    + intros cs H. apply Hin in H. destruct H.
Qed.

Lemma showStrategy_try_ok (data : Strategy.payload) (s : Strategy.state) :
  Strategy.showStrategy_try (JS.Resolved true (JS.JsonBody data)) s
  = Strategy.displayStrategy data s.
Proof. reflexivity. Qed.

(** X15. [showStrategy] issues one request, for the identifiers it was
    given.  Once the call has settled, however it did, the loading indicator
    of the modal is hidden and the content of the modal is shown and is not
    blank.  On a success response whose payload has its quote, its service
    and both targets, and whose recommendations each have their actions,
    the content is the strategy: the current situation, the negotiation
    history or the notice that there is none, the target margins, and then
    a block for each of the price list, the alternatives and the
    recommendations that has an entry, in this order, the recommendations
    block with one card for each recommendation.  On any other success
    response the content is an alert with the message of the exception of
    the missing object, and in every other case (a rejected fetch, a status
    that is no success, a body that is not JSON) an alert with a non-empty
    message. *)
Theorem strategy_modal_settles (serviceId vqQbId : string)
    (r : JS.fetch_result Strategy.payload) (st : Strategy.state) :
  JS.display (Analyze.doc (Strategy.page (Strategy.showStrategy serviceId vqQbId r st)))
    "strategyLoading" = false
  /\ JS.display (Analyze.doc (Strategy.page (Strategy.showStrategy serviceId vqQbId r st)))
       "strategyContent" = true
  /\ (exists vpl,
        Analyze.fetched (Strategy.page (Strategy.showStrategy serviceId vqQbId r st))
        = (Analyze.fetched (Strategy.page st)
           ++ [Analyze.PostStrategy serviceId vqQbId vpl])%list)
  /\ match r with
     | JS.Resolved true (JS.JsonBody data) =>
         if Props.strategy_renderable data then
           exists secs,
             Strategy.strategyContent (Strategy.showStrategy serviceId vqQbId r st)
             = Strategy.Sections secs
             /\ map Props.kind secs = Props.blocks_of data
             /\ (forall cs, In (Strategy.RecommendedStrategy cs) secs ->
                   List.length cs
                   = List.length (Props.items (Strategy.recommendations data)))
         else
           exists prop,
             Strategy.strategyContent (Strategy.showStrategy serviceId vqQbId r st)
             = Strategy.ErrorAlert (JS.message (JS.UndefinedProperty prop))
     | _ =>
         exists msg,
           Strategy.strategyContent (Strategy.showStrategy serviceId vqQbId r st)
           = Strategy.ErrorAlert msg
           /\ msg <> ""
     end.
Proof.
  unfold Strategy.showStrategy, Strategy.showStrategy_settle, JS.exec,
    JS.try_finally, JS.try_catch.
  destruct r as [|ok [|data]].
  - repeat split; [eexists; reflexivity|].
    eexists. split; [reflexivity | discriminate].
  - destruct ok; (repeat split; [eexists; reflexivity|]);
      eexists; (split; [reflexivity | discriminate]).
  - destruct ok.
    + rewrite showStrategy_try_ok.
      pose proof (displayStrategy_outcome data
                    (Strategy.showStrategy_start serviceId vqQbId st)) as H.
      destruct (Props.strategy_renderable data).
      * destruct H as (secs & E & Hk & Hc). rewrite E.
        repeat split; [eexists; reflexivity|].
        exists secs. split; [reflexivity | split; [exact Hk | exact Hc]].
      * destruct H as (prop & E). rewrite E.
        repeat split; [eexists; reflexivity|].
        exists prop. reflexivity.
    + repeat split; [eexists; reflexivity|].
      eexists. split; [reflexivity|].
      apply str_or_nonempty. discriminate.
Qed.
